(** * Diff-to-method attribution: a shallow embedding of
      [framework/util/generate_ground_truth.py]

    The development follows the Python source function by function:
    the string primitives the script relies on, the brace-depth method
    locator [find_method_at_line], the arity matcher
    [find_method_by_signature], and the per-class body of
    [extract_modified_methods] (diff parsing, merging, backfilling).

    Text is a [string] over 8-bit code points; the character classes
    ([str.isspace], [str.isupper], the regular expression class [\d]) are
    Python's classes restricted to that range.  Line numbers and brace
    depths are Python integers, hence [Z]. *)

From Stdlib Require Import ZArith List String Ascii Bool Lia Sorted.
Import ListNotations.

Open Scope string_scope.
Open Scope Z_scope.

(** ** Python string primitives *)

Module Py.

Definition code (c : ascii) : nat := nat_of_ascii c.

Definition in_range (lo hi : nat) (c : ascii) : bool :=
  (Nat.leb lo (code c) && Nat.leb (code c) hi)%bool.

(** [str.isspace] on a single character. *)
Definition isspace (c : ascii) : bool :=
  (in_range 9 13 c || in_range 28 32 c
   || Nat.eqb (code c) 133 || Nat.eqb (code c) 160)%bool.

(** [str.isupper] on a single character. *)
Definition isupper (c : ascii) : bool :=
  (in_range 65 90 c || in_range 192 214 c || in_range 216 222 c)%bool.

(** The class [\d]. *)
Definition isdigit (c : ascii) : bool := in_range 48 57 c.

Definition is_empty (s : string) : bool :=
  match s with EmptyString => true | String _ _ => false end.

(** [s.startswith(p)] and [s.endswith(p)]. *)
Definition startswith (s p : string) : bool := String.prefix p s.

Fixpoint rev_string (acc s : string) : string :=
  match s with
  | EmptyString => acc
  | String c s' => rev_string (String c acc) s'
  end.

Definition endswith (s p : string) : bool :=
  String.prefix (rev_string "" p) (rev_string "" s).

(** [sub in s]. *)
Fixpoint contains (sub s : string) : bool :=
  (String.prefix sub s
   || match s with
      | EmptyString => false
      | String _ s' => contains sub s'
      end)%bool.

(** [s.find(sub)]; [None] stands for [-1]. *)
Fixpoint find (s sub : string) : option nat :=
  if String.prefix sub s then Some O
  else match s with
       | EmptyString => None
       | String _ s' => option_map S (find s' sub)
       end.

Fixpoint drop (n : nat) (s : string) : string :=
  match n, s with
  | O, _ => s
  | S n', String _ s' => drop n' s'
  | S _, EmptyString => EmptyString
  end.

Fixpoint take (n : nat) (s : string) : string :=
  match n, s with
  | S n', String c s' => String c (take n' s')
  | _, _ => EmptyString
  end.

(** [s[a:b]] for non-negative bounds. *)
Definition slice (s : string) (a b : nat) : string :=
  take (b - a) (drop a s).

(** [s.index(sub, start)]; [None] stands for the [ValueError]. *)
Definition index_from (s sub : string) (start : nat) : option nat :=
  option_map (Nat.add start) (find (drop start s) sub).

Definition index (s sub : string) : option nat := index_from s sub O.

Fixpoint lstrip_by (p : ascii -> bool) (s : string) : string :=
  match s with
  | EmptyString => EmptyString
  | String c s' => if p c then lstrip_by p s' else s
  end.

Fixpoint rstrip_by (p : ascii -> bool) (s : string) : string :=
  match s with
  | EmptyString => EmptyString
  | String c s' =>
      let r := rstrip_by p s' in
      if (is_empty r && p c)%bool then EmptyString else String c r
  end.

(** [s.strip()], [s.rstrip()] and [s.rstrip(chars)] for one character. *)
Definition rstrip (s : string) : string := rstrip_by isspace s.
Definition strip (s : string) : string := rstrip_by isspace (lstrip_by isspace s).
Definition rstrip_char (c : ascii) (s : string) : string :=
  rstrip_by (Ascii.eqb c) s.

(** [s.split(sep)] for a one-character separator. *)
Fixpoint split (sep : ascii) (s : string) : list string :=
  match s with
  | EmptyString => [EmptyString]
  | String c s' =>
      if Ascii.eqb c sep then EmptyString :: split sep s'
      else match split sep s' with
           | h :: t => String c h :: t
           | [] => [String c EmptyString]
           end
  end.

(** [s.split()]: maximal runs of non-whitespace characters. *)
Fixpoint split_ws (s : string) : list string :=
  match s with
  | EmptyString => []
  | String c s' =>
      if isspace c then split_ws s'
      else match s' with
           | EmptyString => [String c EmptyString]
           | String c' _ =>
               if isspace c' then String c EmptyString :: split_ws s'
               else match split_ws s' with
                    | h :: t => String c h :: t
                    | [] => [String c EmptyString]
                    end
           end
  end.

(** [s.count(c)] for a one-character argument. *)
Fixpoint count (c : ascii) (s : string) : Z :=
  match s with
  | EmptyString => 0
  | String d s' => (if Ascii.eqb d c then 1 else 0) + count c s'
  end.

(** [sep.join(l)]. *)
Definition join (sep : string) (l : list string) : string := String.concat sep l.

(** [l[0]] and [l[-1]] of a list of strings; the default is never used on
    the results of [split]. *)
Definition first (l : list string) : string := List.hd EmptyString l.
Definition last (l : list string) : option string :=
  match l with [] => None | _ => Some (List.last l EmptyString) end.

(** [re.sub(r'<[^>]+>', '', s)].  A match starts at a ["<"] followed by at
    least one character other than [">"] and with some [">"] further on;
    it ends at the first such [">"].  [inside] tells that the scan is
    within a match. *)
Definition opens_match (s : string) : bool :=
  match s with
  | EmptyString => false
  | String d _ => (negb (Ascii.eqb d ">") && contains ">" s)%bool
  end.

Fixpoint re_sub_angle (inside : bool) (s : string) : string :=
  match s with
  | EmptyString => EmptyString
  | String c s' =>
      if inside then
        if Ascii.eqb c ">" then re_sub_angle false s' else re_sub_angle true s'
      else if (Ascii.eqb c "<" && opens_match s')%bool then re_sub_angle true s'
           else String c (re_sub_angle false s')
  end.

(** The longest prefix of digits, and what follows it. *)
Fixpoint span_digits (s : string) : string * string :=
  match s with
  | EmptyString => (EmptyString, EmptyString)
  | String c s' =>
      if isdigit c then let (d, r) := span_digits s' in (String c d, r)
      else (EmptyString, s)
  end.

(** [int(s)] on a decimal numeral; every other text is answered with the
    [ValueError] ([None]).  Python's [int] accepts a few more forms
    (signs, blanks, underscores); none of them is ever passed here. *)
Fixpoint int_acc (acc : Z) (s : string) : option Z :=
  match s with
  | EmptyString => Some acc
  | String c s' =>
      if isdigit c then int_acc (10 * acc + Z.of_nat (code c - 48)) s'
      else None
  end.

(** CPython refuses to convert a decimal numeral of more than
    [sys.get_int_max_str_digits()] digits, leading zeros included, and
    raises [ValueError]; the script leaves the limit at its default. *)
Definition int_max_str_digits : Z := 4300.

Definition int (s : string) : option Z :=
  match s with
  | EmptyString => None
  | _ =>
      if Z.of_nat (String.length s) <=? int_max_str_digits
      then int_acc 0 s
      else None
  end.

End Py.

(** ** MethodLocator: [find_method_at_line] *)

(** A frame of [method_stack].  The key [end_line] is only present once the
    frame has been popped. *)
Record MethodInfo : Type := mkMethodInfo {
  name : string;
  signature : string;
  start_line : Z;
  brace_depth_at_start : Z;
  end_line : option Z
}.

Definition control_keywords : list string :=
  ["if"; "while"; "for"; "switch"; "catch"; "try"; "synchronized"; "return"; "new"].

Definition locator_modifiers : list string :=
  ["public"; "private"; "protected"; "void"; "static"].

Definition mem_string (s : string) (l : list string) : bool :=
  existsb (String.eqb s) l.

(** [any(mod in s for mod in mods)]. *)
Definition any_in (mods : list string) (s : string) : bool :=
  existsb (fun m => Py.contains m s) mods.

(** The inner [while] that joins the following lines until the text holds a
    closing parenthesis; [rest] is [lines[temp_i+1:]]. *)
Fixpoint join_until_paren (full_decl : string) (temp_i : nat) (rest : list string)
  : string * nat :=
  if Py.contains ")" full_decl then (full_decl, temp_i)
  else match rest with
       | [] => (full_decl, temp_i)
       | l :: rest' =>
           join_until_paren (full_decl ++ " " ++ Py.strip l) (S temp_i) rest'
       end.

(** One round of the loop over [params_raw.split(',')]: the type of one
    parameter, or [None] when the entry is skipped. *)
Definition param_type_of (param : string) : option string :=
  let param := Py.strip param in
  if Py.is_empty param then None
  else
    let param := Py.re_sub_angle false param in
    let parts := Py.split_ws param in
    let param_type :=
      match rev parts with
      | _ :: p :: _ => Some p          (* len(parts) >= 2: parts[-2] *)
      | [p] => Some p                  (* len(parts) == 1: parts[0] *)
      | [] => None                     (* continue *)
      end in
    match param_type with
    | None => None
    | Some t => Py.last (Py.split "." t)
    end.

Fixpoint filter_some {A : Type} (l : list (option A)) : list A :=
  match l with
  | [] => []
  | Some a :: l' => a :: filter_some l'
  | None :: l' => filter_some l'
  end.

Definition format_params (params_raw : string) : string :=
  Py.join "," (filter_some (map param_type_of (Py.split "," params_raw))).

(** The declaration test made on line [i] of [lines] (0-based), whose text
    is [line]: [Some (method_name, params)] when [is_method_decl] is set. *)
Definition method_decl (lines : list string) (i : nat) (line : string)
  : option (string * string) :=
  let stripped := Py.strip line in
  if (Py.contains "(" stripped
      && negb (Py.startswith stripped "//")
      && negb (Py.startswith stripped "*"))%bool
  then
    let before_paren := Py.strip (Py.first (Py.split "(" stripped)) in
    let tokens := Py.split_ws before_paren in
    match Py.last tokens with
    | None => None
    | Some potential_name =>
        if mem_string potential_name control_keywords then None
        else if (any_in locator_modifiers stripped
                 || (Nat.leb 2 (List.length tokens)
                     && negb (match potential_name with
                              | String c _ => Py.isupper c
                              | EmptyString => false
                              end)))%bool
        then
          let '(full_decl, temp_i) :=
            join_until_paren stripped i (skipn (S i) lines) in
          match Py.index full_decl "(" with
          | None => None
          | Some paren_start =>
              match Py.index_from full_decl ")" paren_start with
              | None => None
              | Some paren_end =>
                  let params_raw := Py.slice full_decl (S paren_start) paren_end in
                  let has_brace :=
                    (Py.contains "{" full_decl
                     || existsb (Py.contains "{")
                          (firstn (temp_i + 3 - i) (skipn i lines)))%bool in
                  let is_call :=
                    if Py.contains "{" full_decl
                    then (Py.contains "=" (Py.first (Py.split "(" full_decl))
                          || Py.contains ";" (Py.first (Py.split "{" full_decl)))%bool
                    else Py.contains ";" full_decl in
                  if (has_brace && negb is_call)%bool
                  then Some (potential_name, format_params params_raw)
                  else None
              end
          end
        else None
    end
  else None.

(** [method_stack] is kept newest first: [append] conses, [method_stack[-1]]
    is the head, [pop()] removes the head, and a [for] over the Python list
    visits [rev method_stack]. *)
Definition push_decl (decl : option (string * string)) (line_num depth : Z)
    (method_stack : list MethodInfo) : list MethodInfo :=
  match decl with
  | Some (method_name, params) =>
      mkMethodInfo method_name (method_name ++ "(" ++ params ++ ")")
                   line_num depth None :: method_stack
  | None => method_stack
  end.

Definition set_end_line (m : MethodInfo) (line_num : Z) : MethodInfo :=
  mkMethodInfo (name m) (signature m) (start_line m) (brace_depth_at_start m)
               (Some line_num).

(** The [while] that pops the frames left by the current line: either the
    frame returned from inside the loop, or the stack that remains. *)
Fixpoint pop_exited (method_stack : list MethodInfo) (brace_depth line_num target_line : Z)
  : MethodInfo + list MethodInfo :=
  match method_stack with
  | [] => inr []
  | top :: below =>
      if brace_depth <? brace_depth_at_start top then
        let completed_method := set_end_line top line_num in
        if ((start_line completed_method <=? target_line)
            && (target_line <=? line_num))%bool
        then inl completed_method
        else pop_exited below brace_depth line_num target_line
      else inr method_stack
  end.

(** The [for] over the frames still open when the text is exhausted. *)
Definition remaining_method (method_stack : list MethodInfo) (target_line : Z)
  : option MethodInfo :=
  List.find (fun method => start_line method <=? target_line) (rev method_stack).

(** The main [while i < len(lines)]; [rest] is [lines[i:]]. *)
Fixpoint scan_lines (lines : list string) (target_line : Z)
    (rest : list string) (i : nat)
    (method_stack : list MethodInfo) (brace_depth : Z) : option MethodInfo :=
  match rest with
  | [] => remaining_method method_stack target_line
  | line :: rest' =>
      let line_num := Z.of_nat i + 1 in
      let open_braces := Py.count "{" line in
      let close_braces := Py.count "}" line in
      let method_stack :=
        push_decl (method_decl lines i line) line_num
                  (brace_depth + open_braces) method_stack in
      let brace_depth := brace_depth + open_braces - close_braces in
      match pop_exited method_stack brace_depth line_num target_line with
      | inl completed_method => Some completed_method
      | inr method_stack =>
          match method_stack with
          | top :: _ =>
              if line_num =? target_line then Some top
              else scan_lines lines target_line rest' (S i) method_stack brace_depth
          | [] => scan_lines lines target_line rest' (S i) method_stack brace_depth
          end
      end
  end.

Definition newline : ascii := Ascii.ascii_of_nat 10.

(** [file] is what reading the path yields: [None] when [open]/[read]
    raises, which the function answers with [None]. *)
Definition find_method_at_line (file : option string) (target_line : Z)
  : option MethodInfo :=
  match file with
  | None => None
  | Some content =>
      let lines := Py.split newline content in
      scan_lines lines target_line lines O [] 0
  end.

(** ** SignatureMatcher: [find_method_by_signature] *)

Record SignatureMatch : Type := mkSignatureMatch {
  match_name : string;
  match_start_line : Z
}.

Definition matcher_modifiers : list string :=
  ["public"; "private"; "protected"; "static"; "final"; "synchronized"; "abstract"].

(** [len([p for p in parts if p.strip()])]. *)
Definition count_nonblank (parts : list string) : nat :=
  List.length (filter (fun p => negb (Py.is_empty (Py.strip p))) parts).

(** The parameter count asked for by [signature]. *)
Definition sig_param_count (signature : string) : nat :=
  let sig_params :=
    if Py.contains "(" signature
    then Py.split "," (Py.rstrip_char ")" (nth 1 (Py.split "(" signature) ""))
    else [] in
  count_nonblank sig_params.

(** The declaration test on a line that is outside comments.  [find] cannot
    answer [-1] under the guard (see [find_defined_under_guard]). *)
Definition is_decl_line (method_name stripped : string) : bool :=
  if (Py.contains (method_name ++ "(") stripped
      || Py.contains (method_name ++ " (") stripped)%bool
  then
    match Py.find stripped method_name with
    | None => false
    | Some before_idx =>
        let before := Py.strip (Py.take before_idx stripped) in
        if any_in matcher_modifiers before then true
        else if (Py.is_empty before
                 || (Py.endswith before " " && negb (Py.endswith before ".")))%bool
        then
          let after_name := Py.drop (before_idx + String.length method_name) stripped in
          (Py.startswith after_name "("
           && negb (Py.endswith (Py.rstrip before) ".")
           && negb (Py.endswith (Py.rstrip before) "="))%bool
        else false
    end
  else false.

(** The [while] that joins following lines until [combined] holds [stop];
    [rest] lists the lines the loop may still read. *)
Fixpoint join_until (stop combined : string) (rest : list string) : string :=
  if Py.contains stop combined then combined
  else match rest with
       | [] => combined
       | l :: rest' => join_until stop (combined ++ " " ++ Py.strip l) rest'
       end.

(** The body of the [try]: the parameter count read off the declaration that
    starts on line [i] (0-based), whose stripped text is [stripped]; [None]
    when [index] raises. *)
Definition declared_param_count (lines : list string) (method_name : string) (i : nat)
    (stripped : string) : option nat :=
  let combined := join_until ")" stripped (firstn 9 (skipn (S i) lines)) in
  match Py.index combined method_name with
  | None => None
  | Some name_idx =>
      match Py.index_from combined "(" (name_idx + String.length method_name) with
      | None => None
      | Some paren_start =>
          match Py.index_from combined ")" paren_start with
          | None => None
          | Some paren_end =>
              let params_str := Py.slice combined (S paren_start) paren_end in
              Some (count_nonblank (Py.split "," params_str))
          end
      end
  end.

(** The [for i, line in enumerate(lines)]; [rest] is [lines[i:]]. *)
Fixpoint match_lines (lines : list string) (method_name : string) (count : nat)
    (rest : list string) (i : nat) (in_comment : bool) : option SignatureMatch :=
  match rest with
  | [] => None
  | line :: rest' =>
      let stripped := Py.strip line in
      if (Py.contains "/*" stripped && negb (Py.contains "*/" stripped))%bool
      then match_lines lines method_name count rest' (S i) true
      else if Py.contains "*/" stripped
      then match_lines lines method_name count rest' (S i) false
      else if (in_comment || Py.startswith stripped "//" || Py.startswith stripped "*")%bool
      then match_lines lines method_name count rest' (S i) in_comment
      else if is_decl_line method_name stripped
      then match declared_param_count lines method_name i stripped with
           | Some param_count =>
               if Nat.eqb param_count count
               then Some (mkSignatureMatch method_name (Z.of_nat i + 1))
               else match_lines lines method_name count rest' (S i) in_comment
           | None => match_lines lines method_name count rest' (S i) in_comment
           end
      else match_lines lines method_name count rest' (S i) in_comment
  end.

Definition find_method_by_signature (file : option string) (method_name signature : string)
  : option SignatureMatch :=
  match file with
  | None => None
  | Some content =>
      let lines := Py.split newline content in
      match_lines lines method_name (sig_param_count signature) lines O false
  end.

(** ** DiffParser: the hunk loop of [extract_modified_methods] *)

(** [changed_lines_buggy] and [changed_lines_fixed] are Python sets of
    integers: a list without repetition, in insertion order. *)
Definition set_add (x : Z) (s : list Z) : list Z :=
  if existsb (Z.eqb x) s then s else s ++ [x].

Record DiffState : Type := mkDiffState {
  changed_lines_buggy : list Z;
  changed_lines_fixed : list Z;
  current_buggy_line : Z;
  current_fixed_line : Z
}.

Definition initial_diff_state : DiffState := mkDiffState [] [] 0 0.

(** The pieces of [re.match(r'@@ -(\d+)(?:,(\d+))? \+(\d+)(?:,(\d+))? @@', line)]. *)
Definition expect (p s : string) : option string :=
  if String.prefix p s then Some (Py.drop (String.length p) s) else None.

(** [(\d+)]: the group and what follows it. *)
Definition digits1 (s : string) : option (string * string) :=
  let (d, r) := Py.span_digits s in
  if Py.is_empty d then None else Some (d, r).

(** [(?:,(\d+))?]: what follows the optional group. *)
Definition optional_count (s : string) : string :=
  match s with
  | String c s' =>
      if Ascii.eqb c ","
      then match digits1 s' with
           | Some (_, r) => r
           | None => s
           end
      else s
  | EmptyString => s
  end.

(** Groups 1 and 3 of the match, when the line matches. *)
Definition match_hunk_header (line : string) : option (string * string) :=
  match expect "@@ -" line with
  | None => None
  | Some r0 =>
      match digits1 r0 with
      | None => None
      | Some (g1, r1) =>
          match expect " +" (optional_count r1) with
          | None => None
          | Some r3 =>
              match digits1 r3 with
              | None => None
              | Some (g3, r4) =>
                  match expect " @@" (optional_count r4) with
                  | None => None
                  | Some _ => Some (g1, g3)
                  end
              end
          end
      end
  end.

(** The body of [for line in diff_output.split('\n')]; [None] is an
    exception raised by [int]. *)
Definition diff_step (st : DiffState) (line : string) : option DiffState :=
  if Py.startswith line "@@" then
    match match_hunk_header line with
    | Some (g1, g3) =>
        match Py.int g1, Py.int g3 with
        | Some b, Some f =>
            Some (mkDiffState (changed_lines_buggy st) (changed_lines_fixed st) b f)
        | _, _ => None
        end
    | None => Some st
    end
  else if (Py.startswith line "-" && negb (Py.startswith line "---"))%bool then
    Some (mkDiffState (set_add (current_buggy_line st) (changed_lines_buggy st))
                      (changed_lines_fixed st)
                      (current_buggy_line st + 1) (current_fixed_line st))
  else if (Py.startswith line "+" && negb (Py.startswith line "+++"))%bool then
    Some (mkDiffState (changed_lines_buggy st)
                      (set_add (current_fixed_line st) (changed_lines_fixed st))
                      (current_buggy_line st) (current_fixed_line st + 1))
  else if negb (Py.startswith line "\") then
    Some (mkDiffState (changed_lines_buggy st) (changed_lines_fixed st)
                      (current_buggy_line st + 1) (current_fixed_line st + 1))
  else Some st.

Fixpoint diff_loop (st : DiffState) (lines : list string) : option DiffState :=
  match lines with
  | [] => Some st
  | line :: lines' =>
      match diff_step st line with
      | Some st' => diff_loop st' lines'
      | None => None
      end
  end.

Definition parse_diff (diff_output : string) : option DiffState :=
  diff_loop initial_diff_state (Py.split newline diff_output).

(** ** ChangeAttributor: [extract_modified_methods] *)

Record ModifiedMethod : Type := mkModifiedMethod {
  file : string;
  class_ : string;
  method : string;
  method_name : string;
  line_start_buggy : option Z;
  line_start_fixed : option Z
}.

Definition with_line_start_buggy (r : ModifiedMethod) (l : option Z) : ModifiedMethod :=
  mkModifiedMethod (file r) (class_ r) (method r) (method_name r) l (line_start_fixed r).

Definition with_line_start_fixed (r : ModifiedMethod) (l : option Z) : ModifiedMethod :=
  mkModifiedMethod (file r) (class_ r) (method r) (method_name r) (line_start_buggy r) l.

(** [methods_found] is a Python dict: keys in insertion order, an
    assignment to a present key keeps its place. *)
Definition Dict : Type := list (string * ModifiedMethod).

Fixpoint dict_get (key : string) (d : Dict) : option ModifiedMethod :=
  match d with
  | [] => None
  | (k, v) :: d' => if String.eqb key k then Some v else dict_get key d'
  end.

Fixpoint dict_set (key : string) (v : ModifiedMethod) (d : Dict) : Dict :=
  match d with
  | [] => [(key, v)]
  | (k, w) :: d' =>
      if String.eqb key k then (k, v) :: d' else (k, w) :: dict_set key v d'
  end.

Definition dict_values (d : Dict) : list ModifiedMethod := map snd d.

(** [s.replace(a, b)] for one-character arguments. *)
Fixpoint replace_char (a b : ascii) (s : string) : string :=
  match s with
  | EmptyString => EmptyString
  | String c s' => String (if Ascii.eqb c a then b else c) (replace_char a b s')
  end.

(** Body of [for line_num in changed_lines_fixed]. *)
Definition record_fixed (file_path cls : string) (methods_found : Dict)
    (method_info : option MethodInfo) : Dict :=
  match method_info with
  | None => methods_found
  | Some info =>
      let method_key := signature info in
      let methods_found :=
        match dict_get method_key methods_found with
        | None =>
            dict_set method_key
              (mkModifiedMethod file_path cls (signature info) (name info)
                                None (Some (start_line info)))
              methods_found
        | Some _ => methods_found
        end in
      match dict_get method_key methods_found with
      | Some r =>
          match line_start_fixed r with
          | None =>
              dict_set method_key (with_line_start_fixed r (Some (start_line info)))
                       methods_found
          | Some _ => methods_found
          end
      | None => methods_found
      end
  end.

(** Body of [for line_num in changed_lines_buggy]. *)
Definition record_buggy (file_path cls : string) (methods_found : Dict)
    (method_info : option MethodInfo) : Dict :=
  match method_info with
  | None => methods_found
  | Some info =>
      let method_key := signature info in
      match dict_get method_key methods_found with
      | None =>
          dict_set method_key
            (mkModifiedMethod file_path cls (signature info) (name info)
                              (Some (start_line info)) None)
            methods_found
      | Some r =>
          match line_start_buggy r with
          | None =>
              dict_set method_key (with_line_start_buggy r (Some (start_line info)))
                       methods_found
          | Some _ => methods_found
          end
      end
  end.

(** Body of [for method_key, method_data in methods_found.items()]. *)
Definition backfill (buggy_file fixed_file : string) (method_data : ModifiedMethod)
  : ModifiedMethod :=
  let method_data :=
    match line_start_buggy method_data with
    | None =>
        match find_method_by_signature (Some buggy_file)
                (method_name method_data) (method method_data) with
        | Some buggy_method =>
            with_line_start_buggy method_data (Some (match_start_line buggy_method))
        | None => method_data
        end
    | Some _ => method_data
    end in
  match line_start_fixed method_data with
  | None =>
      match find_method_by_signature (Some fixed_file)
              (method_name method_data) (method method_data) with
      | Some fixed_method =>
          with_line_start_fixed method_data (Some (match_start_line fixed_method))
      | None => method_data
      end
  | Some _ => method_data
  end.

Section ChangeAttributor.

(** The standard output of [diff -U3] on two files, given by their
    contents. *)
Variable diff_U3 : string -> string -> string.

(** The order in which a [for] visits a Python set of integers. *)
Variable set_iter : list Z -> list Z.

(** The contents of the before and after files of a class, when both are
    found (directly or by the directory walk). *)
Variable locate : string -> option (string * string).

(** [run_cmd]: the output, stripped. *)
Definition run_diff (buggy_file fixed_file : string) : string :=
  Py.strip (diff_U3 buggy_file fixed_file).

(** The three passes over one parsed diff. *)
Definition methods_of_changes (file_path cls buggy_file fixed_file : string)
    (st : DiffState) : Dict :=
  let methods_found : Dict := [] in
  let methods_found :=
    fold_left
      (fun d line_num =>
         record_fixed file_path cls d (find_method_at_line (Some fixed_file) line_num))
      (set_iter (changed_lines_fixed st)) methods_found in
  let methods_found :=
    fold_left
      (fun d line_num =>
         record_buggy file_path cls d (find_method_at_line (Some buggy_file) line_num))
      (set_iter (changed_lines_buggy st)) methods_found in
  map (fun kv => (fst kv, backfill buggy_file fixed_file (snd kv))) methods_found.

(** The body of [for cls in modified_classes] once both files are known:
    the records appended to [modified_methods]. *)
Definition attribute_class (cls buggy_file fixed_file : string)
  : option (list ModifiedMethod) :=
  let file_path := replace_char "." "/" cls ++ ".java" in
  let diff_output := run_diff buggy_file fixed_file in
  if Py.is_empty diff_output then Some []
  else
    match parse_diff diff_output with
    | None => None
    | Some st =>
        Some (dict_values (methods_of_changes file_path cls buggy_file fixed_file st))
    end.

Fixpoint extract_loop (modified_methods : list ModifiedMethod)
    (modified_classes : list string) : option (list ModifiedMethod) :=
  match modified_classes with
  | [] => Some modified_methods
  | cls :: rest =>
      if Py.is_empty cls then extract_loop modified_methods rest
      else match locate cls with
           | None => extract_loop modified_methods rest
           | Some (buggy_file, fixed_file) =>
               match attribute_class cls buggy_file fixed_file with
               | None => None
               | Some found => extract_loop (modified_methods ++ found) rest
               end
           end
  end.

Definition extract_modified_methods (modified_classes : list string)
  : option (list ModifiedMethod) :=
  extract_loop [] modified_classes.

End ChangeAttributor.

(** ** The spans delimited by the scan

    The same push and pop rules as [scan_lines], followed to the end of the
    text whatever the target: every frame that is pushed, with the line of
    its closing brace once it is popped. *)

Fixpoint pop_all (method_stack : list MethodInfo) (brace_depth line_num : Z)
  : list MethodInfo * list MethodInfo :=
  match method_stack with
  | [] => ([], [])
  | top :: below =>
      if brace_depth <? brace_depth_at_start top then
        let (closed, remaining) := pop_all below brace_depth line_num in
        (set_end_line top line_num :: closed, remaining)
      else ([], method_stack)
  end.

Fixpoint spans_from (lines rest : list string) (i : nat)
    (method_stack : list MethodInfo) (brace_depth : Z) : list MethodInfo :=
  match rest with
  | [] => rev method_stack
  | line :: rest' =>
      let line_num := Z.of_nat i + 1 in
      let open_braces := Py.count "{" line in
      let close_braces := Py.count "}" line in
      let method_stack :=
        push_decl (method_decl lines i line) line_num
                  (brace_depth + open_braces) method_stack in
      let brace_depth := brace_depth + open_braces - close_braces in
      let (closed, remaining) := pop_all method_stack brace_depth line_num in
      closed ++ spans_from lines rest' (S i) remaining brace_depth
  end.

Definition method_spans (content : string) : list MethodInfo :=
  let lines := Py.split newline content in
  spans_from lines lines O [] 0.

(** [r] is a record of the span [m]: the same frame, with the end line of
    [m] or, when [r] was handed out before the frame was popped, none. *)
Definition same_method (r m : MethodInfo) : Prop :=
  name r = name m /\ signature r = signature m /\ start_line r = start_line m /\
  brace_depth_at_start r = brace_depth_at_start m /\
  (end_line r = end_line m \/ end_line r = None).

(** [target_line] lies in the span [m]; a frame that is never closed
    reaches to the end of the text and beyond. *)
Definition encloses (m : MethodInfo) (target_line : Z) : Prop :=
  start_line m <= target_line /\
  match end_line m with
  | Some e => target_line <= e
  | None => True
  end.

(** Every frame on the stack was opened on or before line [k] and is still
    without an end line. *)
Definition open_upto (k : Z) (method_stack : list MethodInfo) : Prop :=
  Forall (fun f => start_line f <= k /\ end_line f = None) method_stack.

(** The frames of the stack were opened one after the other, the newest
    on top. *)
Definition newest_first (method_stack : list MethodInfo) : Prop :=
  StronglySorted (fun a b => start_line b < start_line a) method_stack.

(** A text made of decimal digits only. *)
Fixpoint all_digits (s : string) : bool :=
  match s with
  | EmptyString => true
  | String c s' => (Py.isdigit c && all_digits s')%bool
  end.

(** The text of a hunk header: [@@ -start[,count] +start[,count] @@] and
    what follows.  A start field is a non-empty run of digits; a count is
    absent or a comma and such a run. *)
Definition start_field (d : string) : bool :=
  (negb (Py.is_empty d) && all_digits d)%bool.

Definition count_field (c : string) : bool :=
  match c with
  | EmptyString => true
  | String c0 n => (Ascii.eqb c0 "," && start_field n)%bool
  end.

Definition hunk_header (start1 count1 start3 count3 tail : string) : string :=
  "@@ -" ++ start1 ++ count1 ++ " +" ++ start3 ++ count3 ++ " @@" ++ tail.

(** The text after a run of digits does not start with a digit. *)
Definition no_digit_ahead (rest : string) : Prop :=
  match rest with
  | EmptyString => True
  | String c _ => Py.isdigit c = false
  end.

(** A field with more digits than [int] converts. *)
Definition too_long (g : string) : bool :=
  Py.int_max_str_digits <? Z.of_nat (String.length g).

(** A line that matches the header pattern with such a start field: the
    line at which [int] raises. *)
Definition overlong_header (line : string) : bool :=
  match match_hunk_header line with
  | Some (g1, g3) => (too_long g1 || too_long g3)%bool
  | None => false
  end.

(** The files named by the classes of a run. *)
Definition class_file (cls : string) : string :=
  replace_char "." "/" cls ++ ".java".

(** The keys of [methods_found] are distinct and each record sits under
    its own signature. *)
Definition dict_ok (d : Dict) : Prop :=
  NoDup (map fst d) /\ Forall (fun kv => method (snd kv) = fst kv) d.

(** The record made for [info] when a changed line of the after file is
    the first evidence of its method. *)
Definition fixed_evidence (file_path cls : string) (info : MethodInfo) : ModifiedMethod :=
  mkModifiedMethod file_path cls (signature info) (name info)
                   None (Some (start_line info)).

(** The same for a changed line of the before file. *)
Definition buggy_evidence (file_path cls : string) (info : MethodInfo) : ModifiedMethod :=
  mkModifiedMethod file_path cls (signature info) (name info)
                   (Some (start_line info)) None.

(** ** Sample texts *)

Definition nl : string := String newline "".
Definition unlines (l : list string) : string := String.concat nl l.
Definition tab : string := String (Ascii.ascii_of_nat 9) "".

(** One method, declared on line 10 and closed on line 20. *)
Definition counter_java : string := unlines
  ["package demo;";
   "";
   "/**";
   " * Counter.";
   " */";
   "class Counter {";
   "  int total;";
   "";
   "  // sum of the first n integers";
   "  public int sum(int n) {";
   "    int s = 0;";
   "    int k = 1;";
   "    while (k <= n) {";
   "      s = s + k;";
   "      k = k + 1;";
   "    }";
   "    total = s;";
   "";
   "    return s;";
   "  }";
   "}";
   ""].

(** A method [run] nested in a method [start]; the braces inside the
    character literals of line 6 keep both frames open to the end of the scan. *)
Definition worker_java : string := unlines
  ["class Worker {";
   "  public void start() {";
   "    int n = 0;";
   "    Runnable r = new Runnable() {";
   "      public void run() {";
   "        step('{', '{', '{', '{');";
   "      }";
   "    };";
   "  }";
   "}"].

(** A line added to the body of [f]: the before file, the after file and
    the output of [diff -U3] on them. *)
Definition adder_buggy : string := unlines
  ["class A {";
   "  public int f(int a) {";
   "    return a;";
   "  }";
   "}";
   ""].

Definition adder_fixed : string := unlines
  ["class A {";
   "  public int f(int a) {";
   "    a = a + 1;";
   "    return a;";
   "  }";
   "}";
   ""].

Definition adder_diff : string := unlines
  ["--- buggy/A.java" ++ tab ++ "2020-01-01 00:00:00.000000000 +0000";
   "+++ fixed/A.java" ++ tab ++ "2020-01-02 00:00:00.000000000 +0000";
   "@@ -1,5 +1,6 @@";
   " class A {";
   "   public int f(int a) {";
   "+    a = a + 1;";
   "     return a;";
   "   }";
   " }";
   ""].

(** Two methods with the signature [run()], one nested in the other, and a
    change in each. *)
Definition runner_buggy : string := unlines
  ["class Worker {";
   "  public void run() {";
   "    Runnable r = new Runnable() {";
   "      public void run() {";
   "        step(1);";
   "      } };";
   "    r.start();";
   "  }";
   "}";
   ""].

Definition runner_fixed : string := unlines
  ["class Worker {";
   "  public void run() {";
   "    Runnable r = new Runnable() {";
   "      public void run() {";
   "        step(2);";
   "      } };";
   "    r.run();";
   "  }";
   "}";
   ""].

Definition runner_diff : string := unlines
  ["--- buggy/Worker.java" ++ tab ++ "2020-01-01 00:00:00.000000000 +0000";
   "+++ fixed/Worker.java" ++ tab ++ "2020-01-02 00:00:00.000000000 +0000";
   "@@ -2,8 +2,8 @@";
   "   public void run() {";
   "     Runnable r = new Runnable() {";
   "       public void run() {";
   "-        step(1);";
   "+        step(2);";
   "       } };";
   "-    r.start();";
   "+    r.run();";
   "   }";
   " }";
   ""].

(** A diff with a hunk header that does not match the pattern. *)
Definition garbled_diff_lines : list string :=
  ["@@ -4,2 +4,3 @@";
   " int a;";
   "@@ -x,1 +y,1 @@";
   "+int b;";
   " int c;";
   "\ No newline at end of file"].

(** A crude stand-in for the diff tool: no output on equal texts, otherwise
    one hunk that removes every old line and adds every new one. *)
(** A header whose first start field has 4301 digits. *)
Definition many_ones (n : nat) : string := string_of_list_ascii (repeat "1"%char n).

Definition overlong_diff : string := unlines
  ["--- buggy/A.java";
   "+++ fixed/A.java";
   "@@ -" ++ many_ones 4301 ++ ",1 +1,2 @@";
   " class A {";
   "+}"].

(** A hunk that starts on different lines of the two files. *)
Definition shifted_diff_lines : list string :=
  ["--- buggy/A.java";
   "+++ fixed/A.java";
   "@@ -4,2 +7,3 @@ class A {";
   " int a;";
   "+int b;";
   " int c;"].

(** A declaration inside a block comment, before the one in force. *)
Definition commented_java : string := unlines
  ["class A {";
   "  /* the former version:";
   "  public int f(int a) {";
   "    return a; }";
   "  */";
   "  public int f(int a) {";
   "    return a + 1;";
   "  }";
   "}";
   ""].

(** A run over the two sample classes: where their files are, and what
    the diff tool prints for them. *)
Definition sample_locate (cls : string) : option (string * string) :=
  if String.eqb cls "A" then Some (adder_buggy, adder_fixed)
  else if String.eqb cls "demo.Worker" then Some (runner_buggy, runner_fixed)
  else None.

Definition sample_diff (buggy_file fixed_file : string) : string :=
  if String.eqb buggy_file adder_buggy then adder_diff
  else if String.eqb buggy_file runner_buggy then runner_diff
  else "".

Definition whole_file_diff (a b : string) : string :=
  if String.eqb a b then ""
  else unlines (["--- buggy"; "+++ fixed"; "@@ -1 +1 @@"]
                ++ map (fun l => "-" ++ l) (Py.split newline a)
                ++ map (fun l => "+" ++ l) (Py.split newline b)).

(** ** Further functions of the script *)

(** *** [find_method_by_name] *)

(** The [for i, line in enumerate(lines)] of [find_method_by_name]; [rest]
    is [lines[i:]].  The declaration test is the one of
    [find_method_by_signature]; a candidate is accepted when its text,
    joined with up to four following lines, holds an opening brace or the
    word [throws]. *)
Fixpoint name_lines (lines : list string) (method_name : string)
    (rest : list string) (i : nat) (in_comment : bool) : option SignatureMatch :=
  match rest with
  | [] => None
  | line :: rest' =>
      let stripped := Py.strip line in
      if (Py.contains "/*" stripped && negb (Py.contains "*/" stripped))%bool
      then name_lines lines method_name rest' (S i) true
      else if Py.contains "*/" stripped
      then name_lines lines method_name rest' (S i) false
      else if (in_comment || Py.startswith stripped "//" || Py.startswith stripped "*")%bool
      then name_lines lines method_name rest' (S i) in_comment
      else if is_decl_line method_name stripped
      then
        let combined := join_until "{" stripped (firstn 4 (skipn (S i) lines)) in
        if (Py.contains "{" combined || Py.contains "throws" combined)%bool
        then Some (mkSignatureMatch method_name (Z.of_nat i + 1))
        else name_lines lines method_name rest' (S i) in_comment
      else name_lines lines method_name rest' (S i) in_comment
  end.

Definition find_method_by_name (file : option string) (method_name : string)
  : option SignatureMatch :=
  match file with
  | None => None
  | Some content =>
      let lines := Py.split newline content in
      name_lines lines method_name lines O false
  end.

(** *** [get_defects4j_export] and [get_defects4j_query] *)

(** [run_cmd] hands out the standard output of the command, stripped;
    [raw] is what the command printed. *)
Definition run_cmd_stdout (raw : string) : string := Py.strip raw.

Definition get_defects4j_export (raw : string) : list string :=
  let stdout := run_cmd_stdout raw in
  if Py.is_empty (Py.strip stdout) then []
  else Py.split newline (Py.strip stdout).

(** A Python dict from strings to strings. *)
Definition StrDict : Type := list (string * string).

Fixpoint str_get (key : string) (d : StrDict) : option string :=
  match d with
  | [] => None
  | (k, v) :: d' => if String.eqb key k then Some v else str_get key d'
  end.

Fixpoint str_set (key v : string) (d : StrDict) : StrDict :=
  match d with
  | [] => [(key, v)]
  | (k, w) :: d' =>
      if String.eqb key k then (k, v) :: d' else (k, w) :: str_set key v d'
  end.

(** [for i, field in enumerate(query_fields): if i < len(parts): ...];
    [fields] is [query_fields[i:]]. *)
Fixpoint assign_fields (result : StrDict) (fields : list string) (i : nat)
    (parts : list string) : StrDict :=
  match fields with
  | [] => result
  | field :: fields' =>
      let result :=
        match nth_error parts i with
        | Some part => str_set field part result
        | None => result
        end in
      assign_fields result fields' (S i) parts
  end.

(** The [for line in stdout.strip().split('\n')], left by [break] at the
    first line whose first field is [str(bug_id)].  The conversion is made
    at each non-empty line; [bug_id_str] is its outcome, [None] when it
    raises, and the loop then raises at the first non-empty line. *)
Fixpoint query_loop (bug_id_str : option string) (query_fields : list string)
    (lines : list string) : option StrDict :=
  match lines with
  | [] => Some []
  | line :: lines' =>
      if Py.is_empty line then query_loop bug_id_str query_fields lines'
      else
        let parts := Py.split "," line in
        match parts with
        | bid :: _ =>
            match bug_id_str with
            | None => None
            | Some s =>
                if String.eqb bid s
                then Some (assign_fields [] query_fields O parts)
                else query_loop bug_id_str query_fields lines'
            end
        | [] => query_loop bug_id_str query_fields lines'
        end
  end.

(** [str(n)] for an integer; a number has no more decimal digits than
    binary ones, which bounds the loop.  CPython refuses the conversion,
    with [ValueError], when the numeral would have more than
    [sys.get_int_max_str_digits()] digits. *)
Fixpoint digits_of_pos (fuel : nat) (n : Z) (acc : string) : string :=
  match fuel with
  | O => acc
  | S fuel' =>
      let acc := String (Ascii.ascii_of_nat (48 + Z.to_nat (n mod 10))) acc in
      if n <? 10 then acc else digits_of_pos fuel' (n / 10) acc
  end.

Definition decimal (n : Z) : string :=
  if n <? 0 then "-" ++ digits_of_pos (S (Z.to_nat (Z.log2 (- n)))) (- n) ""
  else digits_of_pos (S (Z.to_nat (Z.log2 n))) n "".

Definition str_of_int (n : Z) : option string :=
  if 10 ^ Py.int_max_str_digits <=? Z.abs n then None else Some (decimal n).

Definition get_defects4j_query (raw : string) (bug_id : Z) (query_fields : list string)
  : option StrDict :=
  let stdout := run_cmd_stdout raw in
  query_loop (str_of_int bug_id) query_fields (Py.split newline (Py.strip stdout)).

(** *** The lists built by [main] *)

(** [[c for c in l if c]]. *)
Definition nonempty_entries (l : list string) : list string :=
  filter (fun c => negb (Py.is_empty c)) l.

(** The loop that fills [functions]. *)
Definition add_function (functions : list string) (m : ModifiedMethod) : list string :=
  let func_name := class_ m ++ "::" ++ method m in
  if mem_string func_name functions then functions
  else (functions ++ [func_name])%list.

Definition main_functions (modified_methods : list ModifiedMethod) : list string :=
  fold_left add_function modified_methods [].

(** [src_dirs[0] if src_dirs else 'src/main/java']. *)
Definition first_or (default : string) (l : list string) : string :=
  match l with
  | x :: _ => x
  | [] => default
  end.

(** [[cls.replace('.', '/') + '.java' for cls in classes]]. *)
Definition class_files (classes : list string) : list string :=
  map (fun cls => replace_char "." "/" cls ++ ".java") classes.

(** *** Regular expressions

    The three patterns of the script that are searched with [re.search]:
    a backtracking matcher with the priorities of Python's [re] (the left
    alternative first, repetitions greedy), in continuation-passing style.
    [fuel] bounds the depth of the search. *)

Inductive regex : Type :=
| Chr (p : ascii -> bool)
| Cat (r1 r2 : regex)
| Alt (r1 r2 : regex)
| Star (r : regex)
| Grp (n : nat) (r : regex)
| Eol
| Eps.

Definition Captures : Type := list (nat * string).

Fixpoint group (n : nat) (caps : Captures) : option string :=
  match caps with
  | [] => None
  | (k, v) :: caps' => if Nat.eqb n k then Some v else group n caps'
  end.

Fixpoint re_run (fuel : nat) (r : regex) (s : string) (caps : Captures)
    (k : string -> Captures -> option Captures) : option Captures :=
  match fuel with
  | O => None
  | S fuel' =>
      match r with
      | Chr p =>
          match s with
          | String c s' => if p c then k s' caps else None
          | EmptyString => None
          end
      | Cat r1 r2 =>
          re_run fuel' r1 s caps (fun s1 caps1 => re_run fuel' r2 s1 caps1 k)
      | Alt r1 r2 =>
          match re_run fuel' r1 s caps k with
          | Some res => Some res
          | None => re_run fuel' r2 s caps k
          end
      | Star r1 =>
          match re_run fuel' r1 s caps
                  (fun s1 caps1 =>
                     if Nat.ltb (String.length s1) (String.length s)
                     then re_run fuel' (Star r1) s1 caps1 k
                     else None) with
          | Some res => Some res
          | None => k s caps
          end
      | Grp n r1 =>
          re_run fuel' r1 s caps
            (fun s1 caps1 =>
               k s1 ((n, Py.take (String.length s - String.length s1) s) :: caps1))
      | Eol =>
          match s with
          | EmptyString => k s caps
          | String c EmptyString => if Ascii.eqb c newline then k s caps else None
          | _ => None
          end
      | Eps => k s caps
      end
  end.

Fixpoint regex_size (r : regex) : nat :=
  match r with
  | Cat r1 r2 | Alt r1 r2 => S (regex_size r1 + regex_size r2)
  | Star r1 | Grp _ r1 => S (regex_size r1)
  | Chr _ | Eol | Eps => 1
  end.

(** [re.search]: the first position, from the left, at which the pattern
    matches. *)
Fixpoint re_search_from (fuel : nat) (r : regex) (s : string) : option Captures :=
  match re_run fuel r s [] (fun _ caps => Some caps) with
  | Some caps => Some caps
  | None =>
      match s with
      | EmptyString => None
      | String _ s' => re_search_from fuel r s'
      end
  end.

Definition re_search (r : regex) (s : string) : option Captures :=
  re_search_from (2 * (String.length s + regex_size r) + 2) r s.

Definition lit (c : ascii) : regex := Chr (Ascii.eqb c).

Fixpoint word (w : string) : regex :=
  match w with
  | EmptyString => Eps
  | String c EmptyString => lit c
  | String c w' => Cat (lit c) (word w')
  end.

Definition plus (r : regex) : regex := Cat r (Star r).
Definition opt (r : regex) : regex := Alt r Eps.

Fixpoint cat_all (rs : list regex) : regex :=
  match rs with
  | [] => Eps
  | [r] => r
  | r :: rs' => Cat r (cat_all rs')
  end.

(** The classes [.], [\s], [\w], [[^)]], [[\w<>\[\],\s]] and [[\w,\s]]. *)
Definition re_dot (c : ascii) : bool := negb (Ascii.eqb c newline).
Definition re_space (c : ascii) : bool := Py.isspace c.
Definition re_word (c : ascii) : bool :=
  (Py.in_range 48 57 c || Py.in_range 65 90 c || Nat.eqb (Py.code c) 95
   || Py.in_range 97 122 c || Nat.eqb (Py.code c) 170 || Py.in_range 178 179 c
   || Nat.eqb (Py.code c) 181 || Py.in_range 185 186 c || Py.in_range 188 190 c
   || Py.in_range 192 214 c || Py.in_range 216 246 c || Py.in_range 248 255 c)%bool.
Definition re_not_close (c : ascii) : bool := negb (Ascii.eqb c ")").
Definition re_type_char (c : ascii) : bool :=
  (re_word c || Ascii.eqb c "<" || Ascii.eqb c ">" || Ascii.eqb c "["
   || Ascii.eqb c "]" || Ascii.eqb c "," || re_space c)%bool.
Definition re_throws_char (c : ascii) : bool :=
  (re_word c || Ascii.eqb c "," || re_space c)%bool.

(** [r'@@.*@@\s*(.+)$'] *)
Definition hunk_trailer_pattern : regex :=
  cat_all [word "@@"; Star (Chr re_dot); word "@@"; Star (Chr re_space);
           Grp 1 (plus (Chr re_dot)); Eol].

(** [r'(public|private|protected|static|\s)*\s+[\w<>\[\],\s]+\s+(\w+)\s*\([^)]*\)'] *)
Definition method_pattern : regex :=
  cat_all [Star (Grp 1 (Alt (word "public") (Alt (word "private")
                  (Alt (word "protected") (Alt (word "static") (Chr re_space))))));
           plus (Chr re_space);
           plus (Chr re_type_char);
           plus (Chr re_space);
           Grp 2 (plus (Chr re_word));
           Star (Chr re_space);
           lit "(";
           Star (Chr re_not_close);
           lit ")"].

(** [r'(public|private|protected|\s)*\s*(\w+)\s*\([^)]*\)\s*(throws\s+[\w,\s]+)?\s*\{'] *)
Definition constructor_pattern : regex :=
  cat_all [Star (Grp 1 (Alt (word "public") (Alt (word "private")
                  (Alt (word "protected") (Chr re_space)))));
           Star (Chr re_space);
           Grp 2 (plus (Chr re_word));
           Star (Chr re_space);
           lit "(";
           Star (Chr re_not_close);
           lit ")";
           Star (Chr re_space);
           opt (Grp 3 (cat_all [word "throws"; plus (Chr re_space);
                                plus (Chr re_throws_char)]));
           Star (Chr re_space);
           lit "{"].

(** *** [extract_method_from_diff_header] *)

(** [re.sub(r'\s+', ' ', s)]: every run of whitespace becomes one space;
    [in_run] tells that the previous character was whitespace. *)
Fixpoint collapse_spaces (in_run : bool) (s : string) : string :=
  match s with
  | EmptyString => EmptyString
  | String c s' =>
      if Py.isspace c
      then if in_run then collapse_spaces true s'
           else String " " (collapse_spaces true s')
      else String c (collapse_spaces false s')
  end.

Definition extract_method_from_diff_header (line : string) : option string :=
  match re_search hunk_trailer_pattern line with
  | Some caps =>
      match group 1 caps with
      | Some g => Some (collapse_spaces false (Py.strip g))
      | None => None
      end
  | None => None
  end.

(** *** [parse_java_method_at_line] *)

Record JavaMethod : Type := mkJavaMethod {
  jm_name : string;
  jm_line : Z;
  jm_signature : string
}.

(** [f.readlines()]: the lines with their newline; [parts] is the text
    split at the newlines. *)
Fixpoint keep_ends (parts : list string) : list string :=
  match parts with
  | [] => []
  | [last_part] => if Py.is_empty last_part then [] else [last_part]
  | part :: parts' => (part ++ String newline "") :: keep_ends parts'
  end.

Definition readlines (content : string) : list string :=
  keep_ends (Py.split newline content).

Definition statement_keywords : list string :=
  ["if"; "while"; "for"; "switch"; "catch"].

(** One round of [for pattern in [method_pattern, constructor_pattern]]. *)
Definition try_pattern (pattern : regex) (i : nat) (line : string)
    (current_method : option JavaMethod) : option JavaMethod :=
  match re_search pattern line with
  | Some caps =>
      match group 2 caps with
      | Some method_name =>
          if (negb (Py.is_empty method_name)
              && negb (mem_string method_name statement_keywords))%bool
          then Some (mkJavaMethod method_name (Z.of_nat i + 1) (Py.strip line))
          else current_method
      | None => current_method
      end
  | None => current_method
  end.

Definition declaration_on (i : nat) (line : string)
    (current_method : option JavaMethod) : option JavaMethod :=
  try_pattern constructor_pattern i line
    (try_pattern method_pattern i line current_method).

(** The [for i, line in enumerate(lines)]; [rest] is [lines[i:]]. *)
Fixpoint parse_loop (rest : list string) (i : nat) (line_number : Z)
    (current_method : option JavaMethod) : option JavaMethod :=
  match rest with
  | [] => current_method
  | line :: rest' =>
      let current_method := declaration_on i line current_method in
      match current_method with
      | Some m =>
          if Z.of_nat i + 1 =? line_number then Some m
          else parse_loop rest' (S i) line_number current_method
      | None => parse_loop rest' (S i) line_number current_method
      end
  end.

Definition parse_java_method_at_line (file : option string) (line_number : Z)
  : option JavaMethod :=
  match file with
  | None => None
  | Some content => parse_loop (readlines content) O line_number None
  end.

(** *** [find_java_files]

    [os.walk(directory)] is given by what it yields: for every directory
    visited, its files, each with its name and with the path that
    [os.path.relpath(os.path.join(root, filename), directory)] gives. *)
Definition Walk : Type := list (list (string * string)).

(** The [for filename in filenames], left by [break] at the first file
    that fits. *)
Definition dir_match (path : string) (dir : list (string * string)) : option string :=
  option_map snd
    (List.find (fun f => (Py.endswith (fst f) ".java" && Py.endswith (snd f) path)%bool)
               dir).

Definition walk_class (walk : Walk) (files : StrDict) (cls : string) : StrDict :=
  let path := replace_char "." "/" cls ++ ".java" in
  fold_left
    (fun files dir =>
       match dir_match path dir with
       | Some rel_path => str_set cls rel_path files
       | None => files
       end)
    walk files.

Definition find_java_files (walk : Walk) (classes : list string) : StrDict :=
  fold_left (walk_class walk) classes [].

(** The path kept for a class: the one of the last directory that holds a
    fitting file. *)
Definition walk_match (path : string) (walk : Walk) : option string :=
  fold_left
    (fun acc dir =>
       match dir_match path dir with
       | Some rel_path => Some rel_path
       | None => acc
       end)
    walk None.

(** *** Notions used in the further properties *)

(** The frame [f] stems from a declaration test that succeeded on its
    start line. *)
Definition declared (lines : list string) (f : MethodInfo) : Prop :=
  exists (i : nat) (line params : string),
    start_line f = Z.of_nat i + 1 /\
    nth_error lines i = Some line /\
    method_decl lines i line = Some (name f, params) /\
    signature f = name f ++ "(" ++ params ++ ")".

Definition is_open (m : MethodInfo) : bool :=
  match end_line m with
  | None => true
  | Some _ => false
  end.

(** The lines that the comment tracking of [find_method_by_signature] and
    [find_method_by_name] lets through, with their 0-based index and
    stripped text; [rest] is [lines[i:]]. *)
Fixpoint code_lines (rest : list string) (i : nat) (in_comment : bool)
  : list (nat * string) :=
  match rest with
  | [] => []
  | line :: rest' =>
      let stripped := Py.strip line in
      if (Py.contains "/*" stripped && negb (Py.contains "*/" stripped))%bool
      then code_lines rest' (S i) true
      else if Py.contains "*/" stripped
      then code_lines rest' (S i) false
      else if (in_comment || Py.startswith stripped "//" || Py.startswith stripped "*")%bool
      then code_lines rest' (S i) in_comment
      else (i, stripped) :: code_lines rest' (S i) in_comment
  end.

(** The test a let-through line has to pass in [find_method_by_signature]. *)
Definition accepts_signature (lines : list string) (method_name : string)
    (count : nat) (c : nat * string) : bool :=
  (is_decl_line method_name (snd c)
   && match declared_param_count lines method_name (fst c) (snd c) with
      | Some param_count => Nat.eqb param_count count
      | None => false
      end)%bool.

(** The test a let-through line has to pass in [find_method_by_name]. *)
Definition accepts_name (lines : list string) (method_name : string)
    (c : nat * string) : bool :=
  (is_decl_line method_name (snd c)
   && (let combined :=
         join_until "{" (snd c) (firstn 4 (skipn (S (fst c)) lines)) in
       Py.contains "{" combined || Py.contains "throws" combined))%bool.

Definition match_at (method_name : string) (c : nat * string) : SignatureMatch :=
  mkSignatureMatch method_name (Z.of_nat (fst c) + 1).

(** The kinds of body lines that the hunk loop tells apart. *)
Definition is_removal (line : string) : bool :=
  (Py.startswith line "-" && negb (Py.startswith line "---"))%bool.

Definition is_addition (line : string) : bool :=
  (Py.startswith line "+" && negb (Py.startswith line "+++"))%bool.

Definition is_marker (line : string) : bool := Py.startswith line "\".

(** The lines of a hunk body that belong to the before file, respectively
    to the after file: the change lines of that side and the lines that are
    neither change lines nor no-newline markers. *)
Definition old_side (line : string) : bool :=
  (is_removal line || (negb (is_addition line) && negb (is_marker line)))%bool.

Definition new_side (line : string) : bool :=
  (negb (is_removal line)
   && (is_addition line || negb (is_marker line)))%bool.

Definition count_lines (p : string -> bool) (body : list string) : Z :=
  Z.of_nat (List.length (filter p body)).

(** [x] is the line number of a change line of kind [kind] in a hunk body
    that starts at [start]: the start plus the number of lines of that
    side that precede the change line in the body. *)
Definition recorded_at (side kind : string -> bool) (start : Z)
    (body : list string) (x : Z) : Prop :=
  exists (k : nat) (line : string),
    nth_error body k = Some line /\ kind line = true /\
    x = start + count_lines side (firstn k body).

(** The declaration kept after reading [rest], which is [lines[i:]],
    starting from [current_method]: the loop of
    [parse_java_method_at_line] without its early return. *)
Fixpoint scan_decls (rest : list string) (i : nat)
    (current_method : option JavaMethod) : option JavaMethod :=
  match rest with
  | [] => current_method
  | line :: rest' => scan_decls rest' (S i) (declaration_on i line current_method)
  end.

Definition last_declaration (lines : list string) : option JavaMethod :=
  scan_decls lines O None.

(** * Properties *)

(** ** Frames, pops and spans *)

Lemma same_method_refl (m : MethodInfo) : same_method m m.
Proof. unfold same_method. auto 6. Qed.

Lemma same_method_set_end_line (f : MethodInfo) (ln : Z) :
  end_line f = None -> same_method f (set_end_line f ln).
Proof. unfold same_method. cbn. auto 6. Qed.

Lemma open_upto_in (k : Z) (s : list MethodInfo) (f : MethodInfo) :
  open_upto k s -> In f s -> start_line f <= k /\ end_line f = None.
Proof.
  unfold open_upto. rewrite Forall_forall. intros Hs Hf. exact (Hs f Hf).
Qed.

Lemma open_upto_weaken (k k' : Z) (s : list MethodInfo) :
  k <= k' -> open_upto k s -> open_upto k' s.
Proof.
  intros Hk Hs. unfold open_upto in *.
  eapply Forall_impl; [|exact Hs]. cbn. intros f [? ?]. split; [lia|assumption].
Qed.

Lemma open_upto_push (i : nat) (d : option (string * string)) (bd : Z)
    (s : list MethodInfo) :
  open_upto (Z.of_nat i) s ->
  open_upto (Z.of_nat i + 1) (push_decl d (Z.of_nat i + 1) bd s).
Proof.
  intros Hs. apply (open_upto_weaken _ (Z.of_nat i + 1)) in Hs; [|lia].
  destruct d as [[n p]|]; cbn; [|exact Hs].
  constructor; [|exact Hs]. cbn. split; [lia|reflexivity].
Qed.

Lemma pop_all_remaining (s : list MethodInfo) (d ln : Z) (f : MethodInfo) :
  In f (snd (pop_all s d ln)) -> In f s.
Proof.
  induction s as [|top below IH]; cbn; [tauto|].
  destruct (d <? brace_depth_at_start top).
  - destruct (pop_all below d ln) as [closed remaining]; cbn in *. auto.
  - cbn. tauto.
Qed.

Lemma pop_all_closed (s : list MethodInfo) (d ln : Z) (m : MethodInfo) :
  In m (fst (pop_all s d ln)) -> exists f, In f s /\ m = set_end_line f ln.
Proof.
  induction s as [|top below IH]; cbn; [tauto|].
  destruct (d <? brace_depth_at_start top).
  - destruct (pop_all below d ln) as [closed remaining]; cbn in *.
    intros [<-|Hm].
    + exists top. auto.
    + destruct (IH Hm) as (f & Hf & ->). exists f. auto.
  - cbn. tauto.
Qed.

Lemma pop_all_split (s : list MethodInfo) (d ln : Z) (f : MethodInfo) :
  In f s ->
  In (set_end_line f ln) (fst (pop_all s d ln)) \/ In f (snd (pop_all s d ln)).
Proof.
  induction s as [|top below IH]; cbn; [tauto|].
  destruct (d <? brace_depth_at_start top).
  - destruct (pop_all below d ln) as [closed remaining]; cbn in *.
    intros [->|Hf]; [left; left; reflexivity|].
    destruct (IH Hf); [left; right|right]; assumption.
  - cbn. tauto.
Qed.

Lemma open_upto_remaining (k : Z) (s : list MethodInfo) (d ln : Z) :
  open_upto k s -> open_upto k (snd (pop_all s d ln)).
Proof.
  unfold open_upto. rewrite !Forall_forall. intros Hs f Hf.
  apply Hs. eapply pop_all_remaining. exact Hf.
Qed.

Lemma pop_exited_inl (s : list MethodInfo) (d ln t : Z) (r : MethodInfo) :
  pop_exited s d ln t = inl r ->
  In r (fst (pop_all s d ln)) /\ start_line r <= t <= ln.
Proof.
  induction s as [|top below IH]; cbn; [discriminate|].
  destruct (d <? brace_depth_at_start top); [|discriminate].
  destruct (pop_all below d ln) as [closed remaining]; cbn in *.
  destruct ((start_line top <=? t) && (t <=? ln))%bool eqn:E.
  - intros [= <-]. apply andb_prop in E. destruct E as [E1 E2].
    apply Z.leb_le in E1, E2. cbn. auto.
  - intros H. destruct (IH H) as [? ?]. auto.
Qed.

Lemma pop_exited_inr (s : list MethodInfo) (d ln t : Z) (s' : list MethodInfo) :
  pop_exited s d ln t = inr s' -> s' = snd (pop_all s d ln).
Proof.
  induction s as [|top below IH]; cbn.
  - intros [= <-]. reflexivity.
  - destruct (d <? brace_depth_at_start top).
    + destruct (pop_all below d ln) as [closed remaining]; cbn in *.
      destruct ((start_line top <=? t) && (t <=? ln))%bool; [discriminate|].
      exact IH.
    + intros [= <-]. reflexivity.
Qed.

(** On the target line itself the first frame that is popped is returned. *)
Lemma pop_exited_inr_on_target (s : list MethodInfo) (d ln : Z) (s' : list MethodInfo) :
  open_upto ln s ->
  pop_exited s d ln ln = inr s' -> fst (pop_all s d ln) = [].
Proof.
  destruct s as [|top below]; cbn; [reflexivity|].
  intros Hs. inversion Hs as [|? ? [Htop _] _]; subst.
  destruct (d <? brace_depth_at_start top); [|reflexivity].
  replace (start_line top <=? ln) with true by (symmetry; apply Z.leb_le; lia).
  rewrite Z.leb_refl. discriminate.
Qed.

Lemma push_decl_incl (d : option (string * string)) (ln bd : Z)
    (s : list MethodInfo) (f : MethodInfo) :
  In f s -> In f (push_decl d ln bd s).
Proof. destruct d as [[n p]|]; cbn; auto. Qed.

Lemma push_decl_new (d : option (string * string)) (ln bd : Z)
    (s : list MethodInfo) (f : MethodInfo) :
  In f (push_decl d ln bd s) -> In f s \/ start_line f = ln.
Proof.
  destruct d as [[n p]|]; cbn; [|auto].
  intros [<-|H]; [right; reflexivity|left; exact H].
Qed.

(** Every open frame shows up among the spans, closed later than the lines
    already read if it is closed at all. *)
Lemma spans_cover_stack (lines rest : list string) :
  forall (i : nat) (s : list MethodInfo) (d : Z) (f : MethodInfo),
    open_upto (Z.of_nat i) s -> In f s ->
    exists m, In m (spans_from lines rest i s d) /\ same_method f m /\
              match end_line m with
              | Some e => Z.of_nat i < e
              | None => True
              end.
Proof.
  induction rest as [|line rest IH]; intros i s d f Hs Hf.
  - cbn. exists f. split; [apply -> in_rev; exact Hf|].
    split; [apply same_method_refl|].
    unfold open_upto in Hs. rewrite Forall_forall in Hs.
    destruct (Hs f Hf) as [_ ->]. exact I.
  - cbn [spans_from]. cbv zeta.
    set (ln := Z.of_nat i + 1).
    set (s1 := push_decl _ ln _ s).
    set (d1 := d + _ - _).
    assert (Hs1 : open_upto (Z.of_nat (S i)) s1).
    { replace (Z.of_nat (S i)) with (Z.of_nat i + 1) by lia.
      apply open_upto_push. exact Hs. }
    assert (Hf1 : In f s1) by (apply push_decl_incl; exact Hf).
    pose proof (pop_all_split s1 d1 ln f Hf1) as Hsplit.
    pose proof (open_upto_remaining _ _ d1 ln Hs1) as Hrem.
    destruct (pop_all s1 d1 ln) as [closed remaining]. cbn [fst snd] in *.
    destruct Hsplit as [Hc|Hr].
    + exists (set_end_line f ln). split; [apply in_or_app; left; exact Hc|].
      split; [|cbn; lia].
      apply same_method_set_end_line. apply (open_upto_in _ _ _ Hs1 Hf1).
    + destruct (IH (S i) remaining d1 f Hrem Hr) as (m & Hm & Hsame & Hend).
      exists m. split; [apply in_or_app; right; exact Hm|].
      split; [exact Hsame|]. destruct (end_line m); [lia|exact I].
Qed.

(** Every span comes from an open frame or from a later line, and is not
    closed before the lines still to be read. *)
Lemma spans_origin (lines rest : list string) :
  forall (i : nat) (s : list MethodInfo) (d : Z) (m : MethodInfo),
    open_upto (Z.of_nat i) s ->
    In m (spans_from lines rest i s d) ->
    ((exists f, In f s /\ same_method f m) \/ Z.of_nat i < start_line m) /\
    (forall e, end_line m = Some e -> Z.of_nat i < e).
Proof.
  induction rest as [|line rest IH]; intros i s d m Hs Hm.
  - cbn in Hm. apply in_rev in Hm. split.
    + left. exists m. split; [exact Hm|apply same_method_refl].
    + unfold open_upto in Hs. rewrite Forall_forall in Hs.
      destruct (Hs m Hm) as [_ E]. intros e. rewrite E. discriminate.
  - cbn [spans_from] in Hm. cbv zeta in Hm.
    set (ln := Z.of_nat i + 1) in *.
    set (s1 := push_decl _ ln _ s) in *.
    set (d1 := d + _ - _) in *.
    assert (Hs1 : open_upto (Z.of_nat (S i)) s1).
    { replace (Z.of_nat (S i)) with (Z.of_nat i + 1) by lia.
      apply open_upto_push. exact Hs. }
    pose proof (pop_all_closed s1 d1 ln m) as Hclosed.
    pose proof (pop_all_remaining s1 d1 ln) as Hincl.
    pose proof (open_upto_remaining _ _ d1 ln Hs1) as Hrem.
    destruct (pop_all s1 d1 ln) as [closed remaining]. cbn [fst snd] in *.
    assert (Hfrom : forall f, In f s1 -> same_method f m ->
              (exists f, In f s /\ same_method f m) \/ Z.of_nat i < start_line m).
    { intros f Hf Hsame. destruct (push_decl_new _ _ _ _ _ Hf) as [Hin|Hnew].
      - left. exists f. auto.
      - right. destruct Hsame as (_ & _ & <- & _). lia. }
    apply in_app_or in Hm. destruct Hm as [Hc|Hr].
    + destruct (Hclosed Hc) as (f & Hf & ->). split.
      * apply (Hfrom f Hf). apply same_method_set_end_line.
        apply (open_upto_in _ _ _ Hs1 Hf).
      * cbn. intros e [= <-]. lia.
    + destruct (IH (S i) remaining d1 m Hrem Hr) as [[(f & Hf & Hsame)|Hlater] Hend].
      * split; [apply (Hfrom f (Hincl f Hf) Hsame)|]. intros e He. specialize (Hend e He). lia.
      * split; [right; lia|]. intros e He. specialize (Hend e He). lia.
Qed.

(** ** What [scan_lines] returns *)

(** Whatever is returned is one of the spans, and that span encloses the
    target line. *)
Lemma scan_sound (lines : list string) (t : Z) (rest : list string) :
  forall (i : nat) (s : list MethodInfo) (d : Z) (r : MethodInfo),
    open_upto (Z.of_nat i) s ->
    scan_lines lines t rest i s d = Some r ->
    exists m, In m (spans_from lines rest i s d) /\ same_method r m /\ encloses m t.
Proof.
  induction rest as [|line rest IH]; intros i s d r Hs Hr.
  - cbn in *. unfold remaining_method in Hr.
    apply find_some in Hr. destruct Hr as [Hin Hle].
    exists r. split; [exact Hin|]. split; [apply same_method_refl|].
    apply in_rev in Hin. unfold open_upto in Hs. rewrite Forall_forall in Hs.
    destruct (Hs r Hin) as [_ E]. unfold encloses. rewrite E.
    apply Z.leb_le in Hle. auto.
  - cbn [scan_lines spans_from] in *. cbv zeta in *.
    set (ln := Z.of_nat i + 1) in *.
    set (s1 := push_decl _ ln _ s) in *.
    set (d1 := d + _ - _) in *.
    assert (Hs1 : open_upto (Z.of_nat (S i)) s1).
    { replace (Z.of_nat (S i)) with (Z.of_nat i + 1) by lia.
      apply open_upto_push. exact Hs. }
    pose proof (pop_exited_inl s1 d1 ln t) as Hinl.
    pose proof (pop_exited_inr s1 d1 ln t) as Hinr.
    pose proof (open_upto_remaining _ _ d1 ln Hs1) as Hrem.
    destruct (pop_exited s1 d1 ln t) as [c|s2].
    + injection Hr as <-. destruct (Hinl c eq_refl) as [Hc Hrange].
      destruct (pop_all_closed _ _ _ _ Hc) as (f & _ & Ef).
      destruct (pop_all s1 d1 ln) as [closed remaining]. cbn [fst snd] in *.
      exists c. split; [apply in_or_app; left; exact Hc|].
      split; [apply same_method_refl|].
      unfold encloses. rewrite Ef in *. cbn in *. lia.
    + specialize (Hinr s2 eq_refl). subst s2.
      destruct (pop_all s1 d1 ln) as [closed remaining]. cbn [fst snd] in *.
      assert (Hgo : scan_lines lines t rest (S i) remaining d1 = Some r ->
                exists m, In m (closed ++ spans_from lines rest (S i) remaining d1)
                          /\ same_method r m /\ encloses m t).
      { intros H. destruct (IH _ _ _ _ Hrem H) as (m & Hm & Hrest).
        exists m. split; [apply in_or_app; right; exact Hm|exact Hrest]. }
      destruct remaining as [|top below]; [exact (Hgo Hr)|].
      destruct (ln =? t) eqn:Et; [|exact (Hgo Hr)].
      injection Hr as <-. apply Z.eqb_eq in Et.
      destruct (spans_cover_stack lines rest (S i) (top :: below) d1 top Hrem
                  (or_introl eq_refl)) as (m & Hm & Hsame & Hend).
      exists m. split; [apply in_or_app; right; exact Hm|].
      split; [exact Hsame|].
      inversion Hrem as [|? ? [Hstart _] _]; subst.
      destruct Hsame as (_ & _ & Est & _). unfold encloses. rewrite <- Est.
      split; [lia|]. destruct (end_line m); [lia|exact I].
Qed.


Lemma open_upto_nil (k : Z) : open_upto k [].
Proof. constructor. Qed.

(** ** The innermost frame, for targets inside the text *)

Lemma newest_first_push (i : nat) (d : option (string * string)) (bd : Z)
    (s : list MethodInfo) :
  open_upto (Z.of_nat i) s -> newest_first s ->
  newest_first (push_decl d (Z.of_nat i + 1) bd s).
Proof.
  intros Hs Hsorted. destruct d as [[n p]|]; cbn; [|exact Hsorted].
  constructor; [exact Hsorted|].
  unfold open_upto in Hs. eapply Forall_impl; [|exact Hs].
  cbn. intros f [Hf _]. lia.
Qed.

Lemma newest_first_remaining (s : list MethodInfo) (d ln : Z) :
  newest_first s -> newest_first (snd (pop_all s d ln)).
Proof.
  induction s as [|top below IH]; cbn; intros Hs; [exact Hs|].
  destruct (d <? brace_depth_at_start top); [|exact Hs].
  apply StronglySorted_inv in Hs. destruct Hs as [Hbelow _].
  specialize (IH Hbelow).
  destruct (pop_all below d ln) as [closed remaining]. exact IH.
Qed.

Lemma newest_first_top (top : MethodInfo) (below : list MethodInfo) (f : MethodInfo) :
  newest_first (top :: below) -> In f (top :: below) ->
  start_line f <= start_line top.
Proof.
  intros Hs [<-|Hf]; [lia|].
  apply StronglySorted_inv in Hs. destruct Hs as [_ Hall].
  rewrite Forall_forall in Hall. specialize (Hall f Hf). lia.
Qed.

Lemma pop_exited_inl_on_target (s : list MethodInfo) (d ln : Z) (c : MethodInfo) :
  open_upto ln s -> pop_exited s d ln ln = inl c ->
  exists top below, s = top :: below /\ c = set_end_line top ln.
Proof.
  destruct s as [|top below]; cbn; [discriminate|].
  intros Hs. inversion Hs as [|? ? [Htop _] _]; subst.
  destruct (d <? brace_depth_at_start top); [|discriminate].
  replace (start_line top <=? ln) with true by (symmetry; apply Z.leb_le; lia).
  rewrite Z.leb_refl. cbn. intros [= <-]. eauto.
Qed.

(** For a target line that is still to be read, the record returned is the
    most recently opened among the spans that enclose the target. *)
Lemma scan_innermost (lines : list string) (t : Z) (rest : list string) :
  forall (i : nat) (s : list MethodInfo) (d : Z) (r : MethodInfo),
    open_upto (Z.of_nat i) s -> newest_first s ->
    Z.of_nat i < t <= Z.of_nat i + Z.of_nat (List.length rest) ->
    scan_lines lines t rest i s d = Some r ->
    forall m, In m (spans_from lines rest i s d) -> encloses m t ->
              start_line m <= start_line r.
Proof.
  induction rest as [|line rest IH]; intros i s d r Hs Hsorted Ht Hr m Hm Henc.
  - cbn in Ht. lia.
  - cbn [scan_lines spans_from] in *. cbv zeta in *.
    set (ln := Z.of_nat i + 1) in *.
    set (s1 := push_decl _ ln _ s) in *.
    set (d1 := d + _ - _) in *.
    assert (Hs1 : open_upto (Z.of_nat (S i)) s1).
    { replace (Z.of_nat (S i)) with (Z.of_nat i + 1) by lia.
      apply open_upto_push. exact Hs. }
    assert (Hs1' : open_upto ln s1) by (unfold ln; apply open_upto_push; exact Hs).
    assert (Hsorted1 : newest_first s1)
      by (unfold s1, ln; apply newest_first_push; assumption).
    pose proof (pop_exited_inl s1 d1 ln t) as Hinl.
    pose proof (pop_exited_inr s1 d1 ln t) as Hinr.
    pose proof (open_upto_remaining _ _ d1 ln Hs1) as Hrem.
    pose proof (newest_first_remaining _ d1 ln Hsorted1) as Hsortedrem.
    pose proof (pop_all_closed s1 d1 ln m) as Hclosed.
    pose proof (pop_all_remaining s1 d1 ln) as Hincl.
    cbn [List.length] in Ht.
    destruct (Z.eq_dec ln t) as [Eq|Ne].
    + (* the target line itself *)
      subst t.
      pose proof (pop_exited_inl_on_target s1 d1 ln) as Htop.
      pose proof (pop_exited_inr_on_target s1 d1 ln) as Hnone.
      assert (Hlater : forall remaining top,
                 In m (spans_from lines rest (S i) remaining d1) ->
                 open_upto (Z.of_nat (S i)) remaining ->
                 (forall f, In f remaining -> start_line f <= start_line top) ->
                 start_line m <= start_line top).
      { intros remaining top Hin Hopen Hle.
        destruct (spans_origin lines rest (S i) remaining d1 m Hopen Hin)
          as [[(f & Hf & Hsame)|Hafter] _].
        - destruct Hsame as (_ & _ & <- & _). exact (Hle f Hf).
        - destruct Henc as [Hstart _]. lia. }
      destruct (pop_exited s1 d1 ln ln) as [c|s2] eqn:Epop.
      * injection Hr as <-.
        destruct (Htop c Hs1' eq_refl) as (top & below & Es1 & ->). cbn [start_line set_end_line].
        assert (Hle : forall f, In f s1 -> start_line f <= start_line top).
        { intros f Hf. rewrite Es1 in Hf, Hsorted1.
          exact (newest_first_top _ _ _ Hsorted1 Hf). }
        destruct (pop_all s1 d1 ln) as [closed remaining]. cbn [fst snd] in *.
        apply in_app_or in Hm. destruct Hm as [Hc|Hlate].
        -- destruct (Hclosed Hc) as (f & Hf & ->). exact (Hle f Hf).
        -- apply (Hlater remaining top Hlate Hrem). intros f Hf. exact (Hle f (Hincl f Hf)).
      * specialize (Hinr s2 eq_refl). subst s2.
        specialize (Hnone _ Hs1' eq_refl).
        destruct (pop_all s1 d1 ln) as [closed remaining]. cbn [fst snd] in *.
        subst closed. cbn [app] in Hm.
        destruct remaining as [|top below].
        -- destruct (spans_origin lines rest (S i) [] d1 m Hrem Hm)
             as [[(f & [] & _)|Hafter] _].
           destruct Henc as [Hstart _]. lia.
        -- rewrite Z.eqb_refl in Hr. injection Hr as <-.
           apply (Hlater (top :: below) top Hm Hrem).
           intros f Hf. exact (newest_first_top _ _ _ Hsortedrem Hf).
    + (* a line before the target *)
      destruct (pop_exited s1 d1 ln t) as [c|s2].
      * destruct (Hinl c eq_refl) as [_ Hrange]. lia.
      * specialize (Hinr s2 eq_refl). subst s2.
        destruct (pop_all s1 d1 ln) as [closed remaining]. cbn [fst snd] in *.
        assert (Hr' : scan_lines lines t rest (S i) remaining d1 = Some r).
        { destruct remaining as [|top below]; [exact Hr|].
          apply Z.eqb_neq in Ne. rewrite Ne in Hr. exact Hr. }
        apply in_app_or in Hm. destruct Hm as [Hc|Hlate].
        -- destruct (Hclosed Hc) as (f & _ & ->).
           destruct Henc as [_ Hend]. cbn in Hend. lia.
        -- apply (IH (S i) remaining d1 r Hrem Hsortedrem); [lia|exact Hr'|exact Hlate|exact Henc].
Qed.

(** For every target line inside the text, the nearest enclosing frame is
    the one returned: no span that encloses the target was opened after the
    record that is handed out. *)
Lemma innermost_within_text (content : string) (t : Z) (r : MethodInfo) :
  1 <= t <= Z.of_nat (List.length (Py.split newline content)) ->
  find_method_at_line (Some content) t = Some r ->
  forall m, In m (method_spans content) -> encloses m t ->
            start_line m <= start_line r.
Proof.
  unfold find_method_at_line, method_spans. intros Ht Hr.
  apply (scan_innermost _ t _ O [] 0 r (open_upto_nil _)); [apply SSorted_nil|lia|exact Hr].
Qed.

Lemma find_method_at_line_sound (content : string) (t : Z) (r : MethodInfo) :
  find_method_at_line (Some content) t = Some r ->
  exists m, In m (method_spans content) /\ same_method r m /\ encloses m t.
Proof.
  unfold find_method_at_line, method_spans. intros H.
  exact (scan_sound _ t _ O [] 0 r (open_upto_nil _) H).
Qed.



(** C10.  Whatever the text and the target line, [find_method_at_line]
    answers with nothing or with a record whose start line is at most the
    target line; the three return statements are all covered, since the
    statement is about the value returned. *)
Theorem start_line_le_target (file : option string) (target_line : Z) :
  match find_method_at_line file target_line with
  | Some r => start_line r <= target_line
  | None => True
  end.
Proof.
  destruct file as [content|]; [|exact I].
  destruct (find_method_at_line (Some content) target_line) as [r|] eqn:Hr; [|exact I].
  destruct (find_method_at_line_sound _ _ _ Hr) as (m & _ & Hsame & Henc & _).
  destruct Hsame as (_ & _ & -> & _). exact Henc.
Qed.

(** C2, at the failing input.  In [worker_java] the frames of [start]
    (line 2) and of the nested [run] (line 5) are both open when the scan
    ends.  For target line 11, past the last line, the loop over the
    remaining frames answers with the outer [start]; for target line 10,
    the last line, the answer is the inner [run]. *)
Lemma remaining_frames_outermost_first :
  method_spans worker_java =
    [mkMethodInfo "start" "start()" 2 2 None; mkMethodInfo "run" "run()" 5 4 None]
  /\ find_method_at_line (Some worker_java) 11 =
       Some (mkMethodInfo "start" "start()" 2 2 None)
  /\ find_method_at_line (Some worker_java) 10 =
       Some (mkMethodInfo "run" "run()" 5 4 None).
Proof. vm_compute. repeat split. Qed.

(** ** SignatureMatcher *)

Lemma prefix_app_l (a b s : string) :
  String.prefix (a ++ b) s = true -> String.prefix a s = true.
Proof.
  revert s. induction a as [|c a IH]; intros [|c' s] H; cbn in *;
    try reflexivity; try discriminate.
  destruct (Ascii.ascii_dec c c'); [exact (IH _ H)|discriminate].
Qed.

Lemma contains_app_l (a b s : string) :
  Py.contains (a ++ b) s = true -> Py.contains a s = true.
Proof.
  induction s as [|c s IH]; cbn [Py.contains]; intros H;
    apply orb_true_iff in H; apply orb_true_iff.
  - destruct H as [H|H]; [left; exact (prefix_app_l _ _ _ H)|discriminate].
  - destruct H as [H|H]; [left; exact (prefix_app_l _ _ _ H)|right; auto].
Qed.

Lemma contains_find (sub s : string) :
  Py.contains sub s = true -> exists k, Py.find s sub = Some k.
Proof.
  induction s as [|c s IH]; cbn [Py.contains Py.find]; intros H;
    apply orb_true_iff in H.
  - destruct H as [H|H]; [rewrite H; eauto|discriminate].
  - destruct (String.prefix sub (String c s)); [eauto|].
    destruct H as [H|H]; [discriminate|].
    destruct (IH H) as [k ->]. cbn. eauto.
Qed.

(** Under the guard of [is_decl_line] the name is found: [find] does not
    answer [-1] there. *)
Lemma find_defined_under_guard (method_name stripped : string) :
  (Py.contains (method_name ++ "(") stripped
   || Py.contains (method_name ++ " (") stripped)%bool = true ->
  exists before_idx, Py.find stripped method_name = Some before_idx.
Proof.
  intros H. apply orb_true_iff in H. apply contains_find.
  destruct H as [H|H]; exact (contains_app_l _ _ _ H).
Qed.

Lemma skipn_cons_nth {A : Type} (l : list A) :
  forall (i : nat) (x : A) (rest : list A),
    skipn i l = x :: rest -> nth_error l i = Some x /\ skipn (S i) l = rest.
Proof.
  induction l as [|y l IH]; intros i x rest H.
  - destruct i; discriminate.
  - destruct i as [|i]; cbn in *.
    + injection H as -> ->. split; reflexivity.
    + apply IH. exact H.
Qed.

Lemma match_lines_arity (lines : list string) (method_name : string) (count : nat)
    (rest : list string) :
  forall (i : nat) (in_comment : bool) (r : SignatureMatch),
    skipn i lines = rest ->
    match_lines lines method_name count rest i in_comment = Some r ->
    match_name r = method_name /\
    exists (j : nat) (line : string),
      match_start_line r = Z.of_nat j + 1 /\
      nth_error lines j = Some line /\
      is_decl_line method_name (Py.strip line) = true /\
      declared_param_count lines method_name j (Py.strip line) = Some count.
Proof.
  induction rest as [|line rest IH]; intros i in_comment r Hskip H; [discriminate|].
  destruct (skipn_cons_nth _ _ _ _ Hskip) as [Hnth Hnext].
  cbn [match_lines] in H. cbv zeta in H.
  destruct (Py.contains "/*" (Py.strip line) && negb (Py.contains "*/" (Py.strip line)))%bool;
    [exact (IH _ _ _ Hnext H)|].
  destruct (Py.contains "*/" (Py.strip line)); [exact (IH _ _ _ Hnext H)|].
  destruct (in_comment || Py.startswith (Py.strip line) "//"
            || Py.startswith (Py.strip line) "*")%bool;
    [exact (IH _ _ _ Hnext H)|].
  destruct (is_decl_line method_name (Py.strip line)) eqn:Hdecl;
    [|exact (IH _ _ _ Hnext H)].
  destruct (declared_param_count lines method_name i (Py.strip line))
    as [param_count|] eqn:Hcount; [|exact (IH _ _ _ Hnext H)].
  destruct (Nat.eqb param_count count) eqn:Heq; [|exact (IH _ _ _ Hnext H)].
  injection H as <-. apply Nat.eqb_eq in Heq. subst param_count.
  split; [reflexivity|]. exists i, line. cbn. auto.
Qed.

(** C3.  Whatever the text, the method name and the requested signature, a
    candidate returned by [find_method_by_signature] is a declaration line
    whose extracted parameter count equals the count computed from the
    signature. *)
Theorem matcher_respects_arity (content method_name signature : string)
    (r : SignatureMatch) :
  find_method_by_signature (Some content) method_name signature = Some r ->
  exists (i : nat) (line : string),
    match_start_line r = Z.of_nat i + 1 /\
    nth_error (Py.split newline content) i = Some line /\
    declared_param_count (Py.split newline content) method_name i (Py.strip line)
      = Some (sig_param_count signature).
Proof.
  unfold find_method_by_signature. intros H.
  destruct (match_lines_arity _ _ _ _ O false r eq_refl H)
    as (_ & j & line & Hstart & Hnth & _ & Hcount).
  exists j, line. auto.
Qed.

Lemma matcher_respects_arity_witness :
  exists (i : nat) (line : string),
    2 = Z.of_nat i + 1 /\
    nth_error (Py.split newline adder_buggy) i = Some line /\
    declared_param_count (Py.split newline adder_buggy) "f" i (Py.strip line)
      = Some (sig_param_count "f(int)").
Proof.
  apply (matcher_respects_arity adder_buggy "f" "f(int)" (mkSignatureMatch "f" 2)).
  vm_compute. reflexivity.
Defined.

(** ** DiffParser *)

Lemma span_digits_all (s d r : string) :
  Py.span_digits s = (d, r) -> all_digits d = true.
Proof.
  revert d r. induction s as [|c s IH]; intros d r; cbn.
  - intros [= <- <-]. reflexivity.
  - destruct (Py.isdigit c) eqn:Ec.
    + destruct (Py.span_digits s) as [d' r'] eqn:E. intros [= <- <-].
      cbn. rewrite Ec. exact (IH _ _ eq_refl).
    + intros [= <- <-]. reflexivity.
Qed.

Lemma int_acc_digits (s : string) :
  forall acc, all_digits s = true -> exists z, Py.int_acc acc s = Some z.
Proof.
  induction s as [|c s IH]; intros acc; cbn.
  - eauto.
  - destruct (Py.isdigit c); [intros H; apply IH; exact H|discriminate].
Qed.

(** [int] converts a start field unless it is too long. *)
Lemma int_of_start_field (d : string) :
  start_field d = true ->
  if too_long d then Py.int d = None else exists z, Py.int d = Some z.
Proof.
  unfold start_field, too_long, Py.int. destruct d as [|c d]; [discriminate|].
  cbn [Py.is_empty negb andb]. intros Hd.
  rewrite Z.ltb_antisym.
  destruct (Z.of_nat (String.length (String c d)) <=? Py.int_max_str_digits);
    cbn [negb]; [|reflexivity].
  apply int_acc_digits. exact Hd.
Qed.

Lemma digits1_start_field (s d r : string) :
  digits1 s = Some (d, r) -> start_field d = true.
Proof.
  unfold digits1, start_field. destruct (Py.span_digits s) as [d' r'] eqn:E.
  destruct d' as [|c d']; cbn [Py.is_empty]; [discriminate|].
  intros [= <- <-]. apply span_digits_all in E. exact E.
Qed.

Lemma match_hunk_header_groups (line g1 g3 : string) :
  match_hunk_header line = Some (g1, g3) ->
  Py.startswith line "@@" = true /\
  start_field g1 = true /\ start_field g3 = true.
Proof.
  unfold match_hunk_header, expect.
  destruct (String.prefix "@@ -" line) eqn:Ep; [|discriminate].
  destruct (digits1 _) as [[a r1]|] eqn:E1; [|discriminate].
  destruct (String.prefix " +" (optional_count r1)); [|discriminate].
  destruct (digits1 (Py.drop _ (optional_count r1))) as [[c r4]|] eqn:E3; [|discriminate].
  destruct (String.prefix " @@" (optional_count r4)); [|discriminate].
  intros [= <- <-]. split; [|split].
  - unfold Py.startswith. apply (prefix_app_l "@@" " -"). exact Ep.
  - exact (digits1_start_field _ _ _ E1).
  - exact (digits1_start_field _ _ _ E3).
Qed.

(** The loop raises at a line exactly when the line is a matching header
    with a start field that is too long. *)
Lemma diff_step_raises (st : DiffState) (line : string) :
  diff_step st line = None <-> overlong_header line = true.
Proof.
  unfold diff_step, overlong_header.
  destruct (match_hunk_header line) as [[g1 g3]|] eqn:E.
  - destruct (match_hunk_header_groups _ _ _ E) as (-> & H1 & H3).
    apply int_of_start_field in H1, H3.
    destruct (too_long g1); [rewrite H1; cbn; tauto|].
    destruct H1 as [b ->].
    destruct (too_long g3); [rewrite H3; cbn; tauto|].
    destruct H3 as [f ->]. cbn. split; discriminate.
  - destruct (Py.startswith line "@@"); [split; discriminate|].
    destruct (Py.startswith line "-" && negb (Py.startswith line "---"))%bool;
      [split; discriminate|].
    destruct (Py.startswith line "+" && negb (Py.startswith line "+++"))%bool;
      [split; discriminate|].
    destruct (negb (Py.startswith line "\")); split; discriminate.
Qed.

Lemma diff_step_returns (st : DiffState) (line : string) :
  overlong_header line = false -> exists st', diff_step st line = Some st'.
Proof.
  intros Hok. destruct (diff_step st line) as [st'|] eqn:E; [eauto|].
  apply diff_step_raises in E. congruence.
Qed.

Lemma diff_loop_returns (lines : list string) :
  Forall (fun l => overlong_header l = false) lines ->
  forall st, exists st', diff_loop st lines = Some st'.
Proof.
  induction 1 as [|line lines Hline _ IH]; intros st; cbn [diff_loop]; [eauto|].
  destruct (diff_step_returns st line Hline) as [st' ->]. apply IH.
Qed.

Lemma diff_loop_raises (lines : list string) :
  Exists (fun l => overlong_header l = true) lines ->
  forall st, diff_loop st lines = None.
Proof.
  induction lines as [|line lines IH]; intros Hex st; [inversion Hex|].
  cbn [diff_loop]. destruct (diff_step st line) as [st'|] eqn:E; [|reflexivity].
  apply IH. inversion Hex as [? ? Hline|? ? Hrest]; subst; [|exact Hrest].
  apply (diff_step_raises st) in Hline. congruence.
Qed.

Lemma diff_loop_app (pre post : list string) :
  forall st,
    diff_loop st (pre ++ post) =
    match diff_loop st pre with
    | Some st' => diff_loop st' post
    | None => None
    end.
Proof.
  induction pre as [|line pre IH]; intros st; cbn; [reflexivity|].
  destruct (diff_step st line) as [st'|]; [apply IH|reflexivity].
Qed.

Lemma startswith_char (line : string) (c : ascii) :
  Py.startswith line (String c "") = true -> exists l, line = String c l.
Proof.
  unfold Py.startswith. destruct line as [|c' l]; cbn; [discriminate|].
  destruct (Ascii.ascii_dec c c') as [->|]; [eauto|discriminate].
Qed.

Lemma set_add_in (x : Z) (s : list Z) : In x (set_add x s).
Proof.
  unfold set_add. destruct (existsb (Z.eqb x) s) eqn:E.
  - apply existsb_exists in E. destruct E as (y & Hy & Exy).
    apply Z.eqb_eq in Exy. subst y. exact Hy.
  - apply in_or_app. right. left. reflexivity.
Qed.

(** *** The header pattern on the text of a header *)

Lemma expect_app (p x : string) : expect p (p ++ x) = Some x.
Proof.
  unfold expect.
  assert (H : String.prefix p (p ++ x) = true /\ Py.drop (String.length p) (p ++ x) = x).
  { induction p as [|c p IH]; cbn; [split; [destruct x|]; reflexivity|].
    destruct (Ascii.ascii_dec c c) as [_|N]; [exact IH|contradiction]. }
  destruct H as [-> ->]. reflexivity.
Qed.

Lemma span_digits_app (d rest : string) :
  all_digits d = true -> no_digit_ahead rest ->
  Py.span_digits (d ++ rest) = (d, rest).
Proof.
  intros Hd Hrest. induction d as [|c d IH]; cbn [append].
  - destruct rest as [|c r]; [reflexivity|]. cbn in Hrest |- *.
    rewrite Hrest. reflexivity.
  - cbn [all_digits] in Hd. apply andb_prop in Hd. destruct Hd as [Hc Hd].
    cbn [Py.span_digits]. rewrite Hc, (IH Hd). reflexivity.
Qed.

Lemma digits1_app (d rest : string) :
  start_field d = true -> no_digit_ahead rest ->
  digits1 (d ++ rest) = Some (d, rest).
Proof.
  unfold start_field, digits1. intros Hd Hrest.
  apply andb_prop in Hd. destruct Hd as [Hne Hd].
  rewrite (span_digits_app _ _ Hd Hrest).
  destruct d; [discriminate|reflexivity].
Qed.

Lemma optional_count_app (c r : string) :
  count_field c = true ->
  optional_count (c ++ String " " r) = String " " r.
Proof.
  destruct c as [|c0 n]; [reflexivity|]. cbn [count_field append optional_count].
  intros H. apply andb_prop in H. destruct H as [-> Hn].
  rewrite (digits1_app n (String " " r) Hn); reflexivity.
Qed.

Lemma no_digit_after_field (c r : string) :
  count_field c = true -> no_digit_ahead (c ++ String " " r).
Proof.
  destruct c as [|c0 n]; [reflexivity|]. cbn [count_field append no_digit_ahead].
  intros H. apply andb_prop in H. destruct H as [H _].
  apply Ascii.eqb_eq in H. subst c0. reflexivity.
Qed.

(** On the text of a header the pattern matches, and its groups 1 and 3
    are the two start fields. *)
Lemma match_hunk_header_complete (start1 count1 start3 count3 tail : string) :
  start_field start1 = true -> count_field count1 = true ->
  start_field start3 = true -> count_field count3 = true ->
  match_hunk_header (hunk_header start1 count1 start3 count3 tail)
  = Some (start1, start3).
Proof.
  intros H1 Hc1 H3 Hc3. unfold hunk_header, match_hunk_header.
  rewrite expect_app.
  change (" +" ++ start3 ++ count3 ++ " @@" ++ tail)
    with (String " " ("+" ++ start3 ++ count3 ++ " @@" ++ tail)).
  rewrite (digits1_app start1 _ H1 (no_digit_after_field _ _ Hc1)).
  rewrite (optional_count_app _ _ Hc1).
  change (String " " ("+" ++ start3 ++ count3 ++ " @@" ++ tail))
    with (" +" ++ (start3 ++ count3 ++ " @@" ++ tail)).
  rewrite expect_app.
  change (" @@" ++ tail) with (String " " ("@@" ++ tail)).
  rewrite (digits1_app start3 _ H3 (no_digit_after_field _ _ Hc3)).
  rewrite (optional_count_app _ _ Hc3).
  change (String " " ("@@" ++ tail)) with (" @@" ++ tail).
  rewrite expect_app. reflexivity.
Qed.

(** C6.  At every line that the loop reaches, in whatever diff text, it
    holds one cursor per side and moves them by the kind of the line.  On
    the text of a hunk header the pattern matches with the two start
    fields as its groups, and the step sets both cursors to what [int]
    makes of them (it raises when a field has more than 4300 digits); a
    removal records the before cursor and advances it; an addition records
    the after cursor and advances it; a context line advances both and
    records nothing; a no-newline marker changes nothing.  The rest of the
    text is parsed from the state so obtained. *)
Theorem cursor_rules (diff_output : string) (pre : list string) (line : string)
    (post : list string) (st : DiffState) :
  Py.split newline diff_output = (pre ++ line :: post)%list ->
  diff_loop initial_diff_state pre = Some st ->
  parse_diff diff_output
  = match diff_step st line with
    | Some st' => diff_loop st' post
    | None => None
    end /\
  (forall start1 count1 start3 count3 tail,
      line = hunk_header start1 count1 start3 count3 tail ->
      start_field start1 = true -> count_field count1 = true ->
      start_field start3 = true -> count_field count3 = true ->
      match_hunk_header line = Some (start1, start3) /\
      match Py.int start1, Py.int start3 with
      | Some b, Some f =>
          too_long start1 = false /\ too_long start3 = false /\
          diff_step st line
          = Some (mkDiffState (changed_lines_buggy st) (changed_lines_fixed st) b f)
      | _, _ =>
          (too_long start1 = true \/ too_long start3 = true) /\
          diff_step st line = None
      end) /\
  (forall g1 g3 st',
      match_hunk_header line = Some (g1, g3) ->
      diff_step st line = Some st' ->
      exists b f,
        Py.int g1 = Some b /\ Py.int g3 = Some f /\
        st' = mkDiffState (changed_lines_buggy st) (changed_lines_fixed st) b f) /\
  (Py.startswith line "-" = true -> Py.startswith line "---" = false ->
   exists st',
     diff_step st line = Some st' /\
     In (current_buggy_line st) (changed_lines_buggy st') /\
     st' = mkDiffState (set_add (current_buggy_line st) (changed_lines_buggy st))
                       (changed_lines_fixed st)
                       (current_buggy_line st + 1) (current_fixed_line st)) /\
  (Py.startswith line "+" = true -> Py.startswith line "+++" = false ->
   exists st',
     diff_step st line = Some st' /\
     In (current_fixed_line st) (changed_lines_fixed st') /\
     st' = mkDiffState (changed_lines_buggy st)
                       (set_add (current_fixed_line st) (changed_lines_fixed st))
                       (current_buggy_line st) (current_fixed_line st + 1)) /\
  (Py.startswith line " " = true ->
   diff_step st line
   = Some (mkDiffState (changed_lines_buggy st) (changed_lines_fixed st)
                       (current_buggy_line st + 1) (current_fixed_line st + 1))) /\
  (Py.startswith line "\" = true -> diff_step st line = Some st).
Proof.
  intros Hsplit Hst. split.
  { unfold parse_diff. rewrite Hsplit, diff_loop_app, Hst. reflexivity. }
  split; [|split; [|split; [|split; [|split]]]].
  - intros start1 count1 start3 count3 tail -> H1 Hc1 H3 Hc3.
    pose proof (match_hunk_header_complete _ _ _ _ tail H1 Hc1 H3 Hc3) as Hm.
    split; [exact Hm|].
    destruct (match_hunk_header_groups _ _ _ Hm) as (Hat & _).
    unfold diff_step. rewrite Hat, Hm.
    apply int_of_start_field in H1, H3.
    destruct (too_long start1).
    { rewrite H1. split; [left|]; reflexivity. }
    destruct H1 as [b ->].
    destruct (too_long start3).
    { rewrite H3. split; [right|]; reflexivity. }
    destruct H3 as [f ->]. repeat split.
  - intros g1 g3 st' Hm Hst'.
    destruct (match_hunk_header_groups _ _ _ Hm) as (Hat & _).
    unfold diff_step in Hst'. rewrite Hat, Hm in Hst'.
    destruct (Py.int g1) as [b|]; [|discriminate].
    destruct (Py.int g3) as [f|]; [|discriminate].
    exists b, f. repeat split. congruence.
  - intros H1 H2. destruct (startswith_char _ _ H1) as [l ->].
    eexists. split; [|split; [|reflexivity]].
    + unfold diff_step.
      replace (Py.startswith (String "-" l) "@@") with false by reflexivity.
      rewrite H1, H2. reflexivity.
    + cbn [changed_lines_buggy]. apply set_add_in.
  - intros H1 H2. destruct (startswith_char _ _ H1) as [l ->].
    eexists. split; [|split; [|reflexivity]].
    + unfold diff_step.
      replace (Py.startswith (String "+" l) "@@") with false by reflexivity.
      replace (Py.startswith (String "+" l) "-") with false by reflexivity.
      rewrite H1, H2. reflexivity.
    + cbn [changed_lines_fixed]. apply set_add_in.
  - intros H1. destruct (startswith_char _ _ H1) as [l ->]. reflexivity.
  - intros H1. destruct (startswith_char _ _ H1) as [l ->].
    unfold diff_step.
    replace (Py.startswith (String "\" l) "@@") with false by reflexivity.
    replace (Py.startswith (String "\" l) "-") with false by reflexivity.
    replace (Py.startswith (String "\" l) "+") with false by reflexivity.
    rewrite H1. reflexivity.
Qed.

Lemma cursor_rules_witness :
  Py.split newline (unlines shifted_diff_lines)
  = (["--- buggy/A.java"; "+++ fixed/A.java"]
       ++ "@@ -4,2 +7,3 @@ class A {" :: [" int a;"; "+int b;"; " int c;"])%list /\
  diff_loop initial_diff_state ["--- buggy/A.java"; "+++ fixed/A.java"]
  = Some (mkDiffState [] [] 2 2) /\
  match_hunk_header "@@ -4,2 +7,3 @@ class A {" = Some ("4", "7") /\
  diff_step (mkDiffState [] [] 2 2) "@@ -4,2 +7,3 @@ class A {"
  = Some (mkDiffState [] [] 4 7).
Proof.
  split; [reflexivity|]. split; [reflexivity|].
  destruct (cursor_rules (unlines shifted_diff_lines)
              ["--- buggy/A.java"; "+++ fixed/A.java"]
              "@@ -4,2 +7,3 @@ class A {" [" int a;"; "+int b;"; " int c;"]
              (mkDiffState [] [] 2 2) eq_refl eq_refl)
    as (_ & Hheader & _).
  destruct (Hheader "4" ",2" "7" ",3" " class A {" eq_refl eq_refl eq_refl eq_refl eq_refl)
    as (Hmatch & Hstep).
  split; [exact Hmatch|]. exact (proj2 (proj2 Hstep)).
Defined.

(** C9, as amended.  Parsing a diff text raises only at a matching hunk
    header with a start field of more than 4300 digits: a text without
    such a header is parsed to the end, and a text with one is not.  A
    line that starts like a hunk header and does not match the pattern
    leaves the state as it was, and the outcome is that of the text
    without that line. *)
Theorem malformed_header_skipped (diff_output : string) :
  (Forall (fun l => overlong_header l = false) (Py.split newline diff_output) ->
   exists st, parse_diff diff_output = Some st) /\
  (Exists (fun l => overlong_header l = true) (Py.split newline diff_output) ->
   parse_diff diff_output = None) /\
  (forall (pre : list string) (line : string) (post : list string),
      Py.split newline diff_output = (pre ++ line :: post)%list ->
      Py.startswith line "@@" = true ->
      match_hunk_header line = None ->
      overlong_header line = false /\
      (forall st, diff_step st line = Some st) /\
      parse_diff diff_output = diff_loop initial_diff_state (pre ++ post)).
Proof.
  split; [|split].
  - intros Hok. apply diff_loop_returns. exact Hok.
  - intros Hex. apply diff_loop_raises. exact Hex.
  - intros pre line post Hsplit Hat Hno.
    assert (Hskip : forall st, diff_step st line = Some st).
    { intros st. unfold diff_step. rewrite Hat, Hno. reflexivity. }
    split; [unfold overlong_header; rewrite Hno; reflexivity|].
    split; [exact Hskip|].
    unfold parse_diff. rewrite Hsplit, !diff_loop_app.
    destruct (diff_loop initial_diff_state pre) as [st|]; [|reflexivity].
    cbn [diff_loop]. rewrite Hskip. reflexivity.
Qed.

Lemma malformed_header_skipped_witness :
  (exists st, parse_diff (unlines garbled_diff_lines) = Some st) /\
  parse_diff (unlines garbled_diff_lines)
  = diff_loop initial_diff_state
      (["@@ -4,2 +4,3 @@"; " int a;"]
         ++ ["+int b;"; " int c;"; "\ No newline at end of file"]).
Proof.
  destruct (malformed_header_skipped (unlines garbled_diff_lines))
    as (Hreturns & _ & Hskip).
  split.
  - apply Hreturns. vm_compute. repeat constructor.
  - apply (Hskip ["@@ -4,2 +4,3 @@"; " int a;"] "@@ -x,1 +y,1 @@"
                 ["+int b;"; " int c;"; "\ No newline at end of file"]);
      reflexivity.
Defined.

(** C9, as stated, fails.  The third line of [overlong_diff] matches the
    header pattern, its first start field has 4301 digits, and the parse
    ends with the [ValueError] of [int]. *)
Lemma overlong_header_raises :
  match_hunk_header ("@@ -" ++ many_ones 4301 ++ ",1 +1,2 @@")
  = Some (many_ones 4301, "1") /\
  Py.int (many_ones 4301) = None /\
  parse_diff overlong_diff = None.
Proof. vm_compute. repeat split. Qed.

(** ** ChangeAttributor *)

Lemma dict_get_none (key : string) (d : Dict) :
  dict_get key d = None -> ~ In key (map fst d).
Proof.
  induction d as [|[k v] d IH]; cbn; [tauto|].
  destruct (String.eqb key k) eqn:E; [discriminate|].
  apply String.eqb_neq in E. intros H [Hk|Hin]; [congruence|exact (IH H Hin)].
Qed.

Lemma dict_get_some (key : string) (d : Dict) (v : ModifiedMethod) :
  dict_get key d = Some v -> In (key, v) d.
Proof.
  induction d as [|[k w] d IH]; cbn; [discriminate|].
  destruct (String.eqb key k) eqn:E.
  - apply String.eqb_eq in E. subst k. intros [= ->]. left. reflexivity.
  - intros H. right. exact (IH H).
Qed.

Lemma dict_get_set_same (key : string) (v : ModifiedMethod) (d : Dict) :
  dict_get key (dict_set key v d) = Some v.
Proof.
  induction d as [|[k w] d IH]; cbn.
  - rewrite String.eqb_refl. reflexivity.
  - destruct (String.eqb key k) eqn:E; cbn; rewrite E; [reflexivity|exact IH].
Qed.

Lemma dict_set_in (key : string) (v : ModifiedMethod) (d : Dict) (kv : string * ModifiedMethod) :
  In kv (dict_set key v d) -> In kv d \/ kv = (key, v).
Proof.
  induction d as [|[k w] d IH]; cbn.
  - intros [<-|[]]. right. reflexivity.
  - destruct (String.eqb key k) eqn:E; cbn.
    + apply String.eqb_eq in E. subst k. intros [<-|H]; [right; reflexivity|left; right; exact H].
    + intros [<-|H]; [left; left; reflexivity|].
      destruct (IH H); [left; right; assumption|right; assumption].
Qed.

Lemma dict_set_keys (key : string) (v : ModifiedMethod) (d : Dict) :
  map fst (dict_set key v d)
  = if existsb (String.eqb key) (map fst d) then map fst d
    else (map fst d ++ [key])%list.
Proof.
  induction d as [|[k w] d IH]; cbn; [reflexivity|].
  destruct (String.eqb key k); cbn; [reflexivity|].
  rewrite IH. destruct (existsb (String.eqb key) (map fst d)); reflexivity.
Qed.

Lemma dict_ok_set (key : string) (v : ModifiedMethod) (d : Dict) :
  method v = key -> dict_ok d -> dict_ok (dict_set key v d).
Proof.
  intros Hv [Hnd Hkeys]. split.
  - rewrite dict_set_keys.
    destruct (existsb (String.eqb key) (map fst d)) eqn:E; [exact Hnd|].
    apply NoDup_app; [exact Hnd|repeat constructor; intros []|].
    intros k Hk [->|[]].
    assert (E' : existsb (String.eqb k) (map fst d) = true).
    { apply existsb_exists. exists k. split; [exact Hk|apply String.eqb_refl]. }
    congruence.
  - apply Forall_forall. intros kv Hin. rewrite Forall_forall in Hkeys.
    destruct (dict_set_in _ _ _ _ Hin) as [H| ->]; [exact (Hkeys _ H)|exact Hv].
Qed.

Lemma dict_ok_get (key : string) (d : Dict) (r : ModifiedMethod) :
  dict_ok d -> dict_get key d = Some r -> method r = key.
Proof.
  intros [_ Hkeys] H. rewrite Forall_forall in Hkeys.
  exact (Hkeys _ (dict_get_some _ _ _ H)).
Qed.

Lemma record_fixed_ok (file_path cls : string) (d : Dict) (info : option MethodInfo) :
  dict_ok d -> dict_ok (record_fixed file_path cls d info).
Proof.
  intros Hd. destruct info as [info|]; [|exact Hd]. unfold record_fixed.
  set (d1 := match dict_get (signature info) d with
             | Some _ => d
             | None => dict_set _ _ d
             end).
  assert (Hd1 : dict_ok d1).
  { unfold d1. destruct (dict_get (signature info) d); [exact Hd|].
    apply dict_ok_set; [reflexivity|exact Hd]. }
  destruct (dict_get (signature info) d1) as [r|] eqn:Er; [|exact Hd1].
  destruct (line_start_fixed r); [exact Hd1|].
  apply dict_ok_set; [|exact Hd1]. cbn. exact (dict_ok_get _ _ _ Hd1 Er).
Qed.

Lemma record_buggy_ok (file_path cls : string) (d : Dict) (info : option MethodInfo) :
  dict_ok d -> dict_ok (record_buggy file_path cls d info).
Proof.
  intros Hd. destruct info as [info|]; [|exact Hd]. unfold record_buggy.
  destruct (dict_get (signature info) d) as [r|] eqn:Er.
  - destruct (line_start_buggy r); [exact Hd|].
    apply dict_ok_set; [|exact Hd]. cbn. exact (dict_ok_get _ _ _ Hd Er).
  - apply dict_ok_set; [reflexivity|exact Hd].
Qed.

Lemma fold_left_invariant {A B : Type} (P : A -> Prop) (f : A -> B -> A) (l : list B) :
  (forall a b, P a -> P (f a b)) -> forall a, P a -> P (fold_left f l a).
Proof.
  intros Hstep. induction l as [|b l IH]; intros a Ha; cbn; [exact Ha|].
  apply IH. apply Hstep. exact Ha.
Qed.

Lemma backfill_method (buggy_file fixed_file : string) (r : ModifiedMethod) :
  method (backfill buggy_file fixed_file r) = method r.
Proof.
  unfold backfill.
  repeat match goal with
         | |- context [match ?x with _ => _ end] => destruct x; cbn
         end;
    reflexivity.
Qed.

Lemma dict_ok_values (d : Dict) :
  dict_ok d -> NoDup (map method (dict_values d)).
Proof.
  intros [Hnd Hkeys]. unfold dict_values. rewrite map_map.
  replace (map (fun kv => method (snd kv)) d) with (map fst d); [exact Hnd|].
  apply map_ext_in. intros kv Hin. rewrite Forall_forall in Hkeys.
  symmetry. exact (Hkeys kv Hin).
Qed.

Lemma methods_of_changes_ok (set_iter : list Z -> list Z)
    (file_path cls buggy_file fixed_file : string) (st : DiffState) :
  dict_ok (methods_of_changes set_iter file_path cls buggy_file fixed_file st).
Proof.
  unfold methods_of_changes.
  match goal with
  | |- dict_ok (map _ ?d) => assert (Hd : dict_ok d)
  end.
  { apply fold_left_invariant; [intros; apply record_buggy_ok; assumption|].
    apply fold_left_invariant; [intros; apply record_fixed_ok; assumption|].
    split; constructor. }
  destruct Hd as [Hnd Hkeys]. split.
  - rewrite map_map. cbn. exact Hnd.
  - rewrite Forall_forall in *. intros kv Hin. apply in_map_iff in Hin.
    destruct Hin as (kv0 & <- & Hin0). cbn. rewrite backfill_method.
    exact (Hkeys _ Hin0).
Qed.

Lemma attribute_class_distinct (diff_U3 : string -> string -> string)
    (set_iter : list Z -> list Z) (cls buggy_file fixed_file : string)
    (records : list ModifiedMethod) :
  attribute_class diff_U3 set_iter cls buggy_file fixed_file = Some records ->
  NoDup (map method records).
Proof.
  unfold attribute_class.
  destruct (Py.is_empty (run_diff diff_U3 buggy_file fixed_file)).
  - intros [= <-]. constructor.
  - destruct (parse_diff (run_diff diff_U3 buggy_file fixed_file)) as [st|];
      [|discriminate].
    intros [= <-]. apply dict_ok_values. apply methods_of_changes_ok.
Qed.

(** C5.  When the diff tool prints nothing for a file compared with itself,
    parsing its output leaves both sets of changed lines empty, and the
    file pair contributes no record, also through the loop over the
    classes. *)
Theorem identical_files_no_records (diff_U3 : string -> string -> string)
    (set_iter : list Z -> list Z) (cls content : string) :
  diff_U3 content content = "" ->
  (exists st,
      parse_diff (run_diff diff_U3 content content) = Some st /\
      changed_lines_buggy st = [] /\ changed_lines_fixed st = []) /\
  attribute_class diff_U3 set_iter cls content content = Some [] /\
  extract_modified_methods diff_U3 set_iter (fun _ => Some (content, content)) [cls]
    = Some [].
Proof.
  intros Hdiff.
  assert (Hrun : run_diff diff_U3 content content = "").
  { unfold run_diff. rewrite Hdiff. reflexivity. }
  assert (Hattr : attribute_class diff_U3 set_iter cls content content = Some []).
  { unfold attribute_class. rewrite Hrun. reflexivity. }
  split; [|split].
  - rewrite Hrun. eexists. split; [reflexivity|]. split; reflexivity.
  - exact Hattr.
  - unfold extract_modified_methods. cbn [extract_loop].
    rewrite Hattr. destruct (Py.is_empty cls); reflexivity.
Qed.

Lemma identical_files_no_records_witness :
  (exists st,
      parse_diff (run_diff whole_file_diff counter_java counter_java) = Some st /\
      changed_lines_buggy st = [] /\ changed_lines_fixed st = []) /\
  attribute_class whole_file_diff (fun s => s) "demo.Counter" counter_java counter_java
    = Some [] /\
  extract_modified_methods whole_file_diff (fun s => s)
    (fun _ => Some (counter_java, counter_java)) ["demo.Counter"] = Some [].
Proof.
  apply (identical_files_no_records whole_file_diff (fun s => s) "demo.Counter" counter_java).
  vm_compute. reflexivity.
Defined.

Lemma dict_set_values (P : ModifiedMethod -> Prop) (key : string)
    (v : ModifiedMethod) (d : Dict) :
  Forall P (dict_values d) -> P v -> Forall P (dict_values (dict_set key v d)).
Proof.
  unfold dict_values. rewrite !Forall_forall. intros Hd Hv r Hr.
  apply in_map_iff in Hr. destruct Hr as ([k w] & <- & Hin).
  destruct (dict_set_in _ _ _ _ Hin) as [H|[= -> ->]]; [|exact Hv].
  apply Hd. apply in_map_iff. exists (k, w). auto.
Qed.

Lemma dict_get_value (P : ModifiedMethod -> Prop) (key : string) (d : Dict)
    (r : ModifiedMethod) :
  Forall P (dict_values d) -> dict_get key d = Some r -> P r.
Proof.
  unfold dict_values. rewrite Forall_forall. intros Hd Hr.
  apply Hd. apply in_map_iff. exists (key, r).
  split; [reflexivity|exact (dict_get_some _ _ _ Hr)].
Qed.

(** A pass over the changed lines of one side only makes records of the
    shape [evidence info], as long as such records are never updated. *)
Lemma record_fixed_values (P : ModifiedMethod -> Prop) (file_path cls : string)
    (d : Dict) (info : option MethodInfo) :
  (forall v, P v -> line_start_fixed v <> None) ->
  (forall i, info = Some i -> P (fixed_evidence file_path cls i)) ->
  Forall P (dict_values d) ->
  Forall P (dict_values (record_fixed file_path cls d info)).
Proof.
  intros Hset Hnew Hd. destruct info as [info|]; [|exact Hd]. unfold record_fixed.
  set (d1 := match dict_get (signature info) d with
             | Some _ => d
             | None => dict_set _ _ d
             end).
  assert (Hd1 : Forall P (dict_values d1)).
  { unfold d1. destruct (dict_get (signature info) d); [exact Hd|].
    apply dict_set_values; [exact Hd|]. exact (Hnew info eq_refl). }
  destruct (dict_get (signature info) d1) as [r|] eqn:Er; [|exact Hd1].
  pose proof (Hset r (dict_get_value P _ _ _ Hd1 Er)) as Hr.
  destruct (line_start_fixed r); [exact Hd1|congruence].
Qed.

Lemma record_buggy_values (P : ModifiedMethod -> Prop) (file_path cls : string)
    (d : Dict) (info : option MethodInfo) :
  (forall v, P v -> line_start_buggy v <> None) ->
  (forall i, info = Some i -> P (buggy_evidence file_path cls i)) ->
  Forall P (dict_values d) ->
  Forall P (dict_values (record_buggy file_path cls d info)).
Proof.
  intros Hset Hnew Hd. destruct info as [info|]; [|exact Hd]. unfold record_buggy.
  destruct (dict_get (signature info) d) as [r|] eqn:Er.
  - pose proof (Hset r (dict_get_value P _ _ _ Hd Er)) as Hr.
    destruct (line_start_buggy r); [exact Hd|congruence].
  - apply dict_set_values; [exact Hd|]. exact (Hnew info eq_refl).
Qed.

Lemma fold_left_lines {A : Type} (P : A -> Prop) (f : A -> Z -> A) (L : list Z) :
  (forall a x, In x L -> P a -> P (f a x)) ->
  forall a, P a -> P (fold_left f L a).
Proof.
  intros Hstep.
  assert (H : forall l, incl l L -> forall a, P a -> P (fold_left f l a)).
  { induction l as [|x l IH]; intros Hl a Ha; cbn; [exact Ha|].
    apply IH; [intros y Hy; apply Hl; right; exact Hy|].
    apply Hstep; [apply Hl; left; reflexivity|exact Ha]. }
  apply H. apply incl_refl.
Qed.

Lemma backfill_fixed_evidence (buggy_file fixed_file file_path cls : string)
    (info : MethodInfo) :
  let r := backfill buggy_file fixed_file (fixed_evidence file_path cls info) in
  method r = signature info /\ method_name r = name info /\
  line_start_fixed r = Some (start_line info) /\
  line_start_buggy r =
    option_map match_start_line
      (find_method_by_signature (Some buggy_file) (name info) (signature info)).
Proof.
  unfold backfill, fixed_evidence. cbn -[find_method_by_signature].
  destruct (find_method_by_signature (Some buggy_file) (name info) (signature info));
    cbn; repeat split; reflexivity.
Qed.

Lemma backfill_buggy_evidence (buggy_file fixed_file file_path cls : string)
    (info : MethodInfo) :
  let r := backfill buggy_file fixed_file (buggy_evidence file_path cls info) in
  method r = signature info /\ method_name r = name info /\
  line_start_buggy r = Some (start_line info) /\
  line_start_fixed r =
    option_map match_start_line
      (find_method_by_signature (Some fixed_file) (name info) (signature info)).
Proof.
  unfold backfill, buggy_evidence. cbn -[find_method_by_signature].
  destruct (find_method_by_signature (Some fixed_file) (name info) (signature info));
    cbn; repeat split; reflexivity.
Qed.

Lemma values_of_backfilled (buggy_file fixed_file : string) (d : Dict) :
  dict_values (map (fun kv => (fst kv, backfill buggy_file fixed_file (snd kv))) d)
  = map (backfill buggy_file fixed_file) (dict_values d).
Proof. unfold dict_values. rewrite !map_map. reflexivity. Qed.

(** C4, as amended.  When the diff changes lines on one side only, every
    record emitted for the pair has the line number of that side filled
    with the start line of the method located around one of the changed
    lines; the line number of the other side is what
    [find_method_by_signature] finds in the other file for the record's
    name and signature, and is empty exactly when it finds nothing. *)
Theorem one_sided_change_records (diff_U3 : string -> string -> string)
    (set_iter : list Z -> list Z) (cls buggy_file fixed_file : string)
    (st : DiffState) (records : list ModifiedMethod) :
  set_iter [] = [] ->
  parse_diff (run_diff diff_U3 buggy_file fixed_file) = Some st ->
  attribute_class diff_U3 set_iter cls buggy_file fixed_file = Some records ->
  (changed_lines_buggy st = [] ->
   forall r, In r records ->
     exists line_num info,
       In line_num (set_iter (changed_lines_fixed st)) /\
       find_method_at_line (Some fixed_file) line_num = Some info /\
       method r = signature info /\ method_name r = name info /\
       line_start_fixed r = Some (start_line info) /\
       line_start_buggy r =
         option_map match_start_line
           (find_method_by_signature (Some buggy_file) (name info) (signature info)))
  /\
  (changed_lines_fixed st = [] ->
   forall r, In r records ->
     exists line_num info,
       In line_num (set_iter (changed_lines_buggy st)) /\
       find_method_at_line (Some buggy_file) line_num = Some info /\
       method r = signature info /\ method_name r = name info /\
       line_start_buggy r = Some (start_line info) /\
       line_start_fixed r =
         option_map match_start_line
           (find_method_by_signature (Some fixed_file) (name info) (signature info))).
Proof.
  intros Hempty Hparse Hattr. unfold attribute_class in Hattr.
  destruct (Py.is_empty (run_diff diff_U3 buggy_file fixed_file)).
  { injection Hattr as <-. split; intros _ r []. }
  rewrite Hparse in Hattr. injection Hattr as <-.
  unfold methods_of_changes. rewrite values_of_backfilled.
  set (fp := (replace_char "." "/" cls ++ ".java")%string).
  split; intros Hside r Hr; rewrite Hside, Hempty in Hr; cbn [fold_left] in Hr;
    apply in_map_iff in Hr; destruct Hr as (v & <- & Hv).
  - set (L := set_iter (changed_lines_fixed st)) in *.
    set (P := fun v => exists line_num info,
                In line_num L /\
                find_method_at_line (Some fixed_file) line_num = Some info /\
                v = fixed_evidence fp cls info).
    assert (Hall : Forall P (dict_values
              (fold_left (fun d line_num =>
                 record_fixed fp cls d (find_method_at_line (Some fixed_file) line_num))
                 L []))).
    { apply (fold_left_lines (fun d => Forall P (dict_values d))); [|constructor].
      intros d x Hx Hd. apply record_fixed_values; [| |exact Hd].
      - intros w (_ & info & _ & _ & ->). discriminate.
      - intros info Hinfo. exists x, info. auto. }
    rewrite Forall_forall in Hall.
    destruct (Hall v Hv) as (line_num & info & Hin & Hfind & ->).
    exists line_num, info. split; [exact Hin|]. split; [exact Hfind|].
    apply backfill_fixed_evidence.
  - set (L := set_iter (changed_lines_buggy st)) in *.
    set (P := fun v => exists line_num info,
                In line_num L /\
                find_method_at_line (Some buggy_file) line_num = Some info /\
                v = buggy_evidence fp cls info).
    assert (Hall : Forall P (dict_values
              (fold_left (fun d line_num =>
                 record_buggy fp cls d (find_method_at_line (Some buggy_file) line_num))
                 L []))).
    { apply (fold_left_lines (fun d => Forall P (dict_values d))); [|constructor].
      intros d x Hx Hd. apply record_buggy_values; [| |exact Hd].
      - intros w (_ & info & _ & _ & ->). discriminate.
      - intros info Hinfo. exists x, info. auto. }
    rewrite Forall_forall in Hall.
    destruct (Hall v Hv) as (line_num & info & Hin & Hfind & ->).
    exists line_num, info. split; [exact Hin|]. split; [exact Hfind|].
    apply backfill_buggy_evidence.
Qed.

Lemma one_sided_change_records_witness :
  exists line_num info,
    In line_num [3] /\
    find_method_at_line (Some adder_fixed) line_num = Some info /\
    "f(int)" = signature info /\ "f" = name info /\
    Some 2 = Some (start_line info) /\
    Some 2 =
      option_map match_start_line
        (find_method_by_signature (Some adder_buggy) (name info) (signature info)).
Proof.
  assert (Hparse : parse_diff (run_diff (fun _ _ => adder_diff) adder_buggy adder_fixed)
                   = Some (mkDiffState [] [3] 6 7))
    by (vm_compute; reflexivity).
  assert (Hattr : attribute_class (fun _ _ => adder_diff) (fun s => s) "A"
                    adder_buggy adder_fixed
                  = Some [mkModifiedMethod "A.java" "A" "f(int)" "f" (Some 2) (Some 2)])
    by (vm_compute; reflexivity).
  destruct (one_sided_change_records (fun _ _ => adder_diff) (fun s => s) "A"
              adder_buggy adder_fixed _ _ eq_refl Hparse Hattr) as [Hadd _].
  exact (Hadd eq_refl (mkModifiedMethod "A.java" "A" "f(int)" "f" (Some 2) (Some 2))
              (or_introl eq_refl)).
Defined.

(** C4, as stated, fails.  The diff of [adder_buggy] and [adder_fixed]
    adds line 3 and removes nothing, yet the record of [f(int)] leaves
    with both line numbers filled: the backfilling pass finds the
    declaration of [f] in the before file. *)
Lemma pure_addition_backfilled :
  exists st records r,
    parse_diff (run_diff (fun _ _ => adder_diff) adder_buggy adder_fixed) = Some st /\
    changed_lines_buggy st = [] /\ changed_lines_fixed st = [3] /\
    attribute_class (fun _ _ => adder_diff) (fun s => s) "A" adder_buggy adder_fixed
      = Some records /\
    In r records /\
    line_start_fixed r = Some 2 /\
    line_start_buggy r = Some 2 /\
    line_start_buggy r <> None.
Proof.
  exists (mkDiffState [] [3] 6 7),
         [mkModifiedMethod "A.java" "A" "f(int)" "f" (Some 2) (Some 2)],
         (mkModifiedMethod "A.java" "A" "f(int)" "f" (Some 2) (Some 2)).
  split; [vm_compute; reflexivity|].
  split; [reflexivity|]. split; [reflexivity|].
  split; [vm_compute; reflexivity|].
  split; [left; reflexivity|].
  split; [reflexivity|]. split; [reflexivity|]. discriminate.
Qed.

(** Once a record has a line number on a side, no later changed line of
    that side alters it, whatever start line that line resolves to. *)
Lemma record_fixed_keeps_first (file_path cls : string) (d : Dict)
    (info : MethodInfo) (r : ModifiedMethod) (l : Z) :
  dict_get (signature info) d = Some r -> line_start_fixed r = Some l ->
  record_fixed file_path cls d (Some info) = d.
Proof.
  intros Hr Hl. unfold record_fixed. rewrite Hr, Hr, Hl. reflexivity.
Qed.

Lemma record_buggy_keeps_first (file_path cls : string) (d : Dict)
    (info : MethodInfo) (r : ModifiedMethod) (l : Z) :
  dict_get (signature info) d = Some r -> line_start_buggy r = Some l ->
  record_buggy file_path cls d (Some info) = d.
Proof.
  intros Hr Hl. unfold record_buggy. rewrite Hr, Hl. reflexivity.
Qed.

(** C7, at the failing input.  In [runner_fixed] the changed lines 5 and 7
    are located in two methods of signature [run()], which start on lines
    4 and 2.  With the lines visited in the order 5, 7 the record keeps the
    start line seen first, 4, and not the smallest, 2; the same happens on
    the before side. *)
Lemma first_start_line_kept :
  (exists st,
      parse_diff (run_diff (fun _ _ => runner_diff) runner_buggy runner_fixed) = Some st /\
      changed_lines_buggy st = [5; 7] /\ changed_lines_fixed st = [5; 7]) /\
  find_method_at_line (Some runner_fixed) 5 = Some (mkMethodInfo "run" "run()" 4 4 None) /\
  find_method_at_line (Some runner_fixed) 7 = Some (mkMethodInfo "run" "run()" 2 2 None) /\
  attribute_class (fun _ _ => runner_diff) (fun s => s) "Worker" runner_buggy runner_fixed
    = Some [mkModifiedMethod "Worker.java" "Worker" "run()" "run" (Some 4) (Some 4)].
Proof.
  split; [exists (mkDiffState [5; 7] [5; 7] 10 10)|]; vm_compute; repeat split.
Qed.

(** ** The whole run *)

Lemma record_fixed_all (P : ModifiedMethod -> Prop) (file_path cls : string)
    (d : Dict) (info : option MethodInfo) :
  (forall v l, P v -> P (with_line_start_fixed v l)) ->
  (forall i, P (fixed_evidence file_path cls i)) ->
  Forall P (dict_values d) ->
  Forall P (dict_values (record_fixed file_path cls d info)).
Proof.
  intros Hupd Hnew Hd. destruct info as [info|]; [|exact Hd]. unfold record_fixed.
  set (d1 := match dict_get (signature info) d with
             | Some _ => d
             | None => dict_set _ _ d
             end).
  assert (Hd1 : Forall P (dict_values d1)).
  { unfold d1. destruct (dict_get (signature info) d); [exact Hd|].
    apply dict_set_values; [exact Hd|]. exact (Hnew info). }
  destruct (dict_get (signature info) d1) as [r|] eqn:Er; [|exact Hd1].
  destruct (line_start_fixed r); [exact Hd1|].
  apply dict_set_values; [exact Hd1|].
  apply Hupd. exact (dict_get_value P _ _ _ Hd1 Er).
Qed.

Lemma record_buggy_all (P : ModifiedMethod -> Prop) (file_path cls : string)
    (d : Dict) (info : option MethodInfo) :
  (forall v l, P v -> P (with_line_start_buggy v l)) ->
  (forall i, P (buggy_evidence file_path cls i)) ->
  Forall P (dict_values d) ->
  Forall P (dict_values (record_buggy file_path cls d info)).
Proof.
  intros Hupd Hnew Hd. destruct info as [info|]; [|exact Hd]. unfold record_buggy.
  destruct (dict_get (signature info) d) as [r|] eqn:Er.
  - destruct (line_start_buggy r); [exact Hd|].
    apply dict_set_values; [exact Hd|].
    apply Hupd. exact (dict_get_value P _ _ _ Hd Er).
  - apply dict_set_values; [exact Hd|]. exact (Hnew info).
Qed.

Lemma backfill_file (buggy_file fixed_file : string) (r : ModifiedMethod) :
  file (backfill buggy_file fixed_file r) = file r.
Proof.
  unfold backfill.
  repeat match goal with
         | |- context [match ?x with _ => _ end] => destruct x; cbn
         end;
    reflexivity.
Qed.

(** Every record emitted for a class names the file of that class. *)
Lemma attribute_class_file (diff_U3 : string -> string -> string)
    (set_iter : list Z -> list Z) (cls buggy_file fixed_file : string)
    (records : list ModifiedMethod) :
  attribute_class diff_U3 set_iter cls buggy_file fixed_file = Some records ->
  Forall (fun r => file r = (replace_char "." "/" cls ++ ".java")%string) records.
Proof.
  unfold attribute_class.
  destruct (Py.is_empty (run_diff diff_U3 buggy_file fixed_file)).
  { intros [= <-]. constructor. }
  destruct (parse_diff (run_diff diff_U3 buggy_file fixed_file)) as [st|]; [|discriminate].
  intros [= <-]. unfold methods_of_changes. rewrite values_of_backfilled.
  set (fp := (replace_char "." "/" cls ++ ".java")%string).
  apply Forall_forall. intros r Hr. apply in_map_iff in Hr.
  destruct Hr as (v & <- & Hv). rewrite backfill_file.
  revert v Hv. apply Forall_forall.
  apply (fold_left_invariant (fun d => Forall (fun r => file r = fp) (dict_values d))).
  { intros d x Hd. apply record_buggy_all; [intros v l Hv; exact Hv|reflexivity|exact Hd]. }
  apply (fold_left_invariant (fun d => Forall (fun r => file r = fp) (dict_values d))).
  { intros d x Hd. apply record_fixed_all; [intros v l Hv; exact Hv|reflexivity|exact Hd]. }
  constructor.
Qed.

Lemma extract_loop_distinct (diff_U3 : string -> string -> string)
    (set_iter : list Z -> list Z) (locate : string -> option (string * string))
    (modified_classes : list string) :
  forall acc out,
    NoDup (map class_file modified_classes) ->
    NoDup (map (fun r => (file r, method r)) acc) ->
    (forall r cls, In r acc -> In cls modified_classes -> file r <> class_file cls) ->
    extract_loop diff_U3 set_iter locate acc modified_classes = Some out ->
    NoDup (map (fun r => (file r, method r)) out).
Proof.
  induction modified_classes as [|cls rest IH]; intros acc out Hfiles Hacc Hfresh;
    cbn [extract_loop].
  - intros [= <-]. exact Hacc.
  - inversion Hfiles as [|? ? Hcls Hrest]; subst.
    assert (Hskip : extract_loop diff_U3 set_iter locate acc rest = Some out ->
                    NoDup (map (fun r => (file r, method r)) out)).
    { apply IH; [exact Hrest|exact Hacc|].
      intros r c Hr Hc. apply Hfresh; [exact Hr|right; exact Hc]. }
    destruct (Py.is_empty cls); [exact Hskip|].
    destruct (locate cls) as [[buggy_file fixed_file]|]; [|exact Hskip].
    destruct (attribute_class diff_U3 set_iter cls buggy_file fixed_file)
      as [found|] eqn:Efound; [|discriminate].
    pose proof (attribute_class_distinct _ _ _ _ _ _ Efound) as Hnodup.
    pose proof (attribute_class_file _ _ _ _ _ _ Efound) as Hfile.
    rewrite Forall_forall in Hfile.
    apply IH; [exact Hrest| |].
    + rewrite map_app. apply NoDup_app.
      * exact Hacc.
      * clear Efound. induction found as [|r found IHf]; cbn; [constructor|].
        inversion Hnodup as [|? ? Hr Hfound]; subst.
        constructor.
        -- intros Hin. apply Hr. apply in_map_iff in Hin.
           destruct Hin as (r' & [= _ E] & Hr'). apply in_map_iff. exists r'. auto.
        -- apply IHf; [exact Hfound|]. intros x Hx. apply Hfile. right. exact Hx.
      * intros key Hk1 Hk2. apply in_map_iff in Hk1, Hk2.
        destruct Hk1 as (r1 & <- & Hr1). destruct Hk2 as (r2 & [= E _] & Hr2).
        apply (Hfresh r1 cls Hr1 (or_introl eq_refl)).
        rewrite <- E. apply Hfile. exact Hr2.
    + intros r c Hr Hc. apply in_app_or in Hr. destruct Hr as [Hr|Hr].
      * apply Hfresh; [exact Hr|right; exact Hc].
      * rewrite (Hfile r Hr). intros E. apply Hcls.
        unfold class_file. rewrite E. apply in_map_iff. exists c. auto.
Qed.

(** Every record of a run names the file of one of its classes. *)
Lemma extract_loop_files (diff_U3 : string -> string -> string)
    (set_iter : list Z -> list Z) (locate : string -> option (string * string))
    (modified_classes : list string) (P : ModifiedMethod -> Prop) :
  (forall cls r, In cls modified_classes -> file r = class_file cls -> P r) ->
  forall acc out,
    Forall P acc ->
    extract_loop diff_U3 set_iter locate acc modified_classes = Some out ->
    Forall P out.
Proof.
  induction modified_classes as [|cls rest IH]; intros HP acc out Hacc;
    cbn [extract_loop].
  - intros [= <-]. exact Hacc.
  - assert (HP' : forall c r, In c rest -> file r = class_file c -> P r).
    { intros c r Hc. apply HP. right. exact Hc. }
    destruct (Py.is_empty cls); [apply (IH HP'); exact Hacc|].
    destruct (locate cls) as [[buggy_file fixed_file]|]; [|apply (IH HP'); exact Hacc].
    destruct (attribute_class diff_U3 set_iter cls buggy_file fixed_file)
      as [found|] eqn:Efound; [|discriminate].
    apply (IH HP'). apply Forall_app. split; [exact Hacc|].
    pose proof (attribute_class_file _ _ _ _ _ _ Efound) as Hfile.
    rewrite Forall_forall in Hfile |- *. intros r Hr.
    apply (HP cls); [left; reflexivity|]. exact (Hfile r Hr).
Qed.

(** C8, as amended.  Over a run whose classes name pairwise distinct
    files, no two emitted records share both the file and the signature,
    and every record names the file of one of the classes.  Whatever the
    list of classes, the records of one file pair all name the file of the
    class and carry pairwise distinct values of [method] (the
    signature). *)
Theorem one_record_per_signature (diff_U3 : string -> string -> string)
    (set_iter : list Z -> list Z) (locate : string -> option (string * string))
    (modified_classes : list string) (out : list ModifiedMethod) :
  NoDup (map class_file modified_classes) ->
  extract_modified_methods diff_U3 set_iter locate modified_classes = Some out ->
  NoDup (map (fun r => (file r, method r)) out) /\
  Forall (fun r => exists cls, In cls modified_classes /\ file r = class_file cls) out /\
  (forall cls buggy_file fixed_file records,
      attribute_class diff_U3 set_iter cls buggy_file fixed_file = Some records ->
      Forall (fun r => file r = class_file cls) records /\
      NoDup (map method records)).
Proof.
  intros Hfiles Hrun. unfold extract_modified_methods in Hrun. split; [|split].
  - apply (extract_loop_distinct diff_U3 set_iter locate modified_classes [] out Hfiles);
      [constructor| |exact Hrun].
    intros r cls [].
  - apply (extract_loop_files diff_U3 set_iter locate modified_classes
             (fun r => exists cls, In cls modified_classes /\ file r = class_file cls))
      with (acc := []); [|constructor|exact Hrun].
    intros cls r Hcls Hr. exists cls. auto.
  - intros cls buggy_file fixed_file records Hrecords. split.
    + exact (attribute_class_file _ _ _ _ _ _ Hrecords).
    + exact (attribute_class_distinct _ _ _ _ _ _ Hrecords).
Qed.

Lemma one_record_per_signature_witness :
  NoDup (map class_file ["A"; "demo.Worker"]) /\
  extract_modified_methods sample_diff (fun s => s) sample_locate ["A"; "demo.Worker"]
  = Some [mkModifiedMethod "A.java" "A" "f(int)" "f" (Some 2) (Some 2);
          mkModifiedMethod "demo/Worker.java" "demo.Worker" "run()" "run"
                           (Some 4) (Some 4)] /\
  NoDup [("A.java", "f(int)"); ("demo/Worker.java", "run()")].
Proof.
  assert (Hfiles : NoDup (map class_file ["A"; "demo.Worker"])).
  { constructor; [intros [H|[]]; discriminate H|].
    constructor; [intros []|constructor]. }
  assert (Hrun : extract_modified_methods sample_diff (fun s => s) sample_locate
                   ["A"; "demo.Worker"]
                 = Some [mkModifiedMethod "A.java" "A" "f(int)" "f" (Some 2) (Some 2);
                         mkModifiedMethod "demo/Worker.java" "demo.Worker" "run()" "run"
                                          (Some 4) (Some 4)])
    by (vm_compute; reflexivity).
  split; [exact Hfiles|]. split; [exact Hrun|].
  exact (proj1 (one_record_per_signature sample_diff (fun s => s) sample_locate
                  ["A"; "demo.Worker"] _ Hfiles Hrun)).
Defined.

(** C8, as stated, fails.  When a class is listed twice, its file pair is
    processed twice in the run and each of its records is emitted twice:
    two records of the same file share a signature. *)
Lemma listed_twice_emitted_twice :
  extract_modified_methods sample_diff (fun s => s) sample_locate ["A"; "A"]
  = Some [mkModifiedMethod "A.java" "A" "f(int)" "f" (Some 2) (Some 2);
          mkModifiedMethod "A.java" "A" "f(int)" "f" (Some 2) (Some 2)] /\
  ~ NoDup (map (fun r => (file r, method r))
               [mkModifiedMethod "A.java" "A" "f(int)" "f" (Some 2) (Some 2);
                mkModifiedMethod "A.java" "A" "f(int)" "f" (Some 2) (Some 2)]).
Proof.
  split; [vm_compute; reflexivity|].
  intros H. inversion H as [|? ? Hnot _]; subst. apply Hnot. left. reflexivity.
Qed.

(** * Further properties *)

(** ** Text primitives *)

Lemma prefix_nil_r (sub : string) : String.prefix sub "" = true -> sub = "".
Proof. destruct sub; [reflexivity|discriminate]. Qed.

Lemma prefix_nil_l (s : string) : String.prefix "" s = true.
Proof. destruct s; reflexivity. Qed.

Lemma contains_nil (s : string) : Py.contains "" s = true.
Proof. destruct s; reflexivity. Qed.

Lemma contains_tail (sub : string) (c : ascii) (s : string) :
  Py.contains sub s = true -> Py.contains sub (String c s) = true.
Proof.
  intros H. cbn [Py.contains]. rewrite H. apply orb_true_r.
Qed.

Lemma contains_lstrip (p : ascii -> bool) (sub s : string) :
  Py.contains sub (Py.lstrip_by p s) = true -> Py.contains sub s = true.
Proof.
  induction s as [|c s IH]; cbn [Py.lstrip_by]; [auto|].
  destruct (p c); [|auto]. intros H. apply contains_tail. exact (IH H).
Qed.

Lemma prefix_rstrip (p : ascii -> bool) (s : string) :
  forall sub, String.prefix sub (Py.rstrip_by p s) = true -> String.prefix sub s = true.
Proof.
  induction s as [|c s IH]; intros sub; cbn [Py.rstrip_by]; [auto|].
  destruct (Py.is_empty (Py.rstrip_by p s) && p c)%bool.
  - intros H. apply prefix_nil_r in H. subst sub. reflexivity.
  - destruct sub as [|a sub]; [reflexivity|]. cbn.
    destruct (Ascii.ascii_dec a c); [apply IH|discriminate].
Qed.

Lemma contains_rstrip (p : ascii -> bool) (sub s : string) :
  Py.contains sub (Py.rstrip_by p s) = true -> Py.contains sub s = true.
Proof.
  induction s as [|c s IH]; [auto|].
  intros H.
  assert (E : Py.rstrip_by p (String c s) = ""
              \/ Py.rstrip_by p (String c s) = String c (Py.rstrip_by p s)).
  { cbn [Py.rstrip_by]. destruct (Py.is_empty (Py.rstrip_by p s) && p c)%bool; auto. }
  destruct E as [E|E].
  - rewrite E in H. cbn in H. rewrite orb_false_r in H.
    apply prefix_nil_r in H. subst sub. apply contains_nil.
  - pose proof (prefix_rstrip p (String c s) sub) as Hp.
    rewrite E in H, Hp. cbn [Py.contains] in H |- *.
    apply orb_true_iff in H. apply orb_true_iff.
    destruct H as [H|H]; [left; exact (Hp H)|right; exact (IH H)].
Qed.

(** A text found in the stripped line is in the line. *)
Lemma contains_strip (sub s : string) :
  Py.contains sub (Py.strip s) = true -> Py.contains sub s = true.
Proof.
  unfold Py.strip. intros H. apply contains_rstrip in H.
  exact (contains_lstrip _ _ _ H).
Qed.

Lemma split_ws_nonempty (s : string) : Forall (fun t => t <> "") (Py.split_ws s).
Proof.
  induction s as [|c s IH]; cbn [Py.split_ws]; [constructor|].
  destruct (Py.isspace c); [exact IH|].
  destruct s as [|c' s']; [repeat constructor; discriminate|].
  destruct (Py.isspace c').
  - constructor; [discriminate|exact IH].
  - destruct (Py.split_ws (String c' s')) as [|h t].
    + repeat constructor. discriminate.
    + inversion IH; subst. constructor; [discriminate|assumption].
Qed.

Lemma last_in (l : list string) (x : string) : Py.last l = Some x -> In x l.
Proof.
  unfold Py.last. destruct l as [|a l]; [discriminate|].
  intros [= <-]. generalize a. induction l as [|b l IH]; intros a0; cbn.
  - left. reflexivity.
  - right. apply IH.
Qed.

(** ** MethodLocator, continued *)

(** What a successful declaration test tells about its line. *)
Lemma method_decl_facts (lines : list string) (i : nat) (line n p : string) :
  method_decl lines i line = Some (n, p) ->
  Py.contains "(" (Py.strip line) = true /\
  Py.startswith (Py.strip line) "//" = false /\
  Py.startswith (Py.strip line) "*" = false /\
  mem_string n control_keywords = false /\
  n <> "".
Proof.
  unfold method_decl.
  destruct (Py.contains "(" (Py.strip line)) eqn:Eparen; [|discriminate].
  destruct (Py.startswith (Py.strip line) "//") eqn:Eslash; [discriminate|].
  destruct (Py.startswith (Py.strip line) "*") eqn:Estar; [discriminate|].
  cbn [andb negb].
  destruct (Py.last _) as [potential_name|] eqn:Elast; [|discriminate].
  destruct (mem_string potential_name control_keywords) eqn:Ekw; [discriminate|].
  match goal with |- (if ?c then _ else _) = _ -> _ => destruct c end; [|discriminate].
  destruct (join_until_paren _ _ _) as [full_decl temp_i].
  destruct (Py.index full_decl "(") as [paren_start|]; [|discriminate].
  destruct (Py.index_from full_decl ")" paren_start) as [paren_end|]; [|discriminate].
  match goal with |- (if ?c then _ else _) = _ -> _ => destruct c end; [|discriminate].
  intros [= <- <-]. repeat split; try reflexivity; try assumption.
  apply last_in in Elast.
  pose proof (split_ws_nonempty
                (Py.strip (Py.first (Py.split "(" (Py.strip line))))) as Hne.
  rewrite Forall_forall in Hne. exact (Hne _ Elast).
Qed.

Lemma declared_set_end_line (lines : list string) (f : MethodInfo) (ln : Z) :
  declared lines f -> declared lines (set_end_line f ln).
Proof. intros H. exact H. Qed.

Lemma declared_push (lines : list string) (i : nat) (line : string)
    (rest : list string) (bd : Z) (s : list MethodInfo) :
  skipn i lines = line :: rest ->
  Forall (declared lines) s ->
  Forall (declared lines)
         (push_decl (method_decl lines i line) (Z.of_nat i + 1) bd s).
Proof.
  intros Hskip Hs. destruct (skipn_cons_nth _ _ _ _ Hskip) as [Hnth _].
  destruct (method_decl lines i line) as [[n p]|] eqn:E; cbn; [|exact Hs].
  constructor; [|exact Hs]. exists i, line, p. cbn. auto.
Qed.

Lemma scan_declared (lines : list string) (t : Z) (rest : list string) :
  forall (i : nat) (s : list MethodInfo) (d : Z) (r : MethodInfo),
    skipn i lines = rest ->
    Forall (declared lines) s ->
    scan_lines lines t rest i s d = Some r ->
    declared lines r.
Proof.
  induction rest as [|line rest IH]; intros i s d r Hskip Hs Hr.
  - cbn in Hr. unfold remaining_method in Hr. apply find_some in Hr.
    destruct Hr as [Hin _]. apply in_rev in Hin.
    rewrite Forall_forall in Hs. exact (Hs r Hin).
  - destruct (skipn_cons_nth _ _ _ _ Hskip) as [_ Hnext].
    cbn [scan_lines] in Hr. cbv zeta in Hr.
    set (ln := Z.of_nat i + 1) in *.
    set (s1 := push_decl _ ln _ s) in *.
    set (d1 := d + _ - _) in *.
    assert (Hs1 : Forall (declared lines) s1).
    { unfold s1, ln. eapply declared_push; eassumption. }
    pose proof (pop_exited_inl s1 d1 ln t) as Hinl.
    pose proof (pop_exited_inr s1 d1 ln t) as Hinr.
    rewrite Forall_forall in Hs1.
    destruct (pop_exited s1 d1 ln t) as [c|s2].
    + injection Hr as <-. destruct (Hinl c eq_refl) as [Hc _].
      destruct (pop_all_closed _ _ _ _ Hc) as (f & Hf & ->).
      apply declared_set_end_line. exact (Hs1 f Hf).
    + specialize (Hinr s2 eq_refl). subst s2.
      assert (Hrem : Forall (declared lines) (snd (pop_all s1 d1 ln))).
      { apply Forall_forall. intros f Hf. apply Hs1.
        exact (pop_all_remaining _ _ _ _ Hf). }
      destruct (snd (pop_all s1 d1 ln)) as [|top below] eqn:E.
      * exact (IH _ _ _ _ Hnext Hrem Hr).
      * destruct (ln =? t); [|exact (IH _ _ _ _ Hnext Hrem Hr)].
        injection Hr as <-. inversion Hrem; assumption.
Qed.

(** X1.  A record returned by [find_method_at_line] always stems from a
    declaration test that succeeded on the line the record starts on: its
    name is the name found there and its signature is that name followed by
    the parenthesised, comma-joined parameter types. *)
Theorem located_record_is_declared (content : string) (target_line : Z)
    (r : MethodInfo) :
  find_method_at_line (Some content) target_line = Some r ->
  exists (i : nat) (line params : string),
    start_line r = Z.of_nat i + 1 /\
    nth_error (Py.split newline content) i = Some line /\
    method_decl (Py.split newline content) i line = Some (name r, params) /\
    signature r = name r ++ "(" ++ params ++ ")".
Proof.
  unfold find_method_at_line. intros H.
  exact (scan_declared _ target_line _ O [] 0 r eq_refl (Forall_nil _) H).
Qed.

Lemma located_record_is_declared_witness :
  exists (i : nat) (line params : string),
    10 = Z.of_nat i + 1 /\
    nth_error (Py.split newline counter_java) i = Some line /\
    method_decl (Py.split newline counter_java) i line = Some ("sum", params) /\
    "sum(int)" = "sum" ++ "(" ++ params ++ ")".
Proof.
  apply (located_record_is_declared counter_java 15
           (mkMethodInfo "sum" "sum(int)" 10 2 None)).
  vm_compute. reflexivity.
Defined.

(** X2.  The record returned by [find_method_at_line] starts on a line of
    the text (between 1 and the number of lines); that line is no [//] or
    [*] comment line and holds an opening parenthesis; and the name is
    neither empty nor one of the control keywords [if], [while], [for],
    [switch], [catch], [try], [synchronized], [return], [new]. *)
Theorem located_record_is_no_statement (content : string) (target_line : Z)
    (r : MethodInfo) :
  find_method_at_line (Some content) target_line = Some r ->
  1 <= start_line r <= Z.of_nat (List.length (Py.split newline content)) /\
  (exists line,
      nth_error (Py.split newline content) (Z.to_nat (start_line r - 1)) = Some line /\
      Py.contains "(" line = true /\
      Py.startswith (Py.strip line) "//" = false /\
      Py.startswith (Py.strip line) "*" = false) /\
  ~ In (name r) control_keywords /\
  name r <> "".
Proof.
  unfold find_method_at_line. intros H.
  destruct (scan_declared _ target_line _ O [] 0 r eq_refl (Forall_nil _) H)
    as (i & line & params & Hstart & Hnth & Hdecl & _).
  destruct (method_decl_facts _ _ _ _ _ Hdecl) as (Hparen & Hslash & Hstar & Hkw & Hne).
  assert (Hi : (i < List.length (Py.split newline content))%nat).
  { apply nth_error_Some. rewrite Hnth. discriminate. }
  split; [lia|]. split; [|split; [|exact Hne]].
  - exists line. replace (Z.to_nat (start_line r - 1)) with i by lia.
    split; [exact Hnth|]. split; [exact (contains_strip _ _ Hparen)|]. auto.
  - intros Hin. unfold mem_string in Hkw.
    assert (Htrue : existsb (String.eqb (name r)) control_keywords = true).
    { apply existsb_exists. exists (name r). split; [exact Hin|apply String.eqb_refl]. }
    congruence.
Qed.

Lemma located_record_is_no_statement_witness :
  1 <= 10 <= Z.of_nat (List.length (Py.split newline counter_java)) /\
  (exists line,
      nth_error (Py.split newline counter_java) (Z.to_nat (10 - 1)) = Some line /\
      Py.contains "(" line = true /\
      Py.startswith (Py.strip line) "//" = false /\
      Py.startswith (Py.strip line) "*" = false) /\
  ~ In "sum" control_keywords /\
  "sum" <> "".
Proof.
  apply (located_record_is_no_statement counter_java 15
           (mkMethodInfo "sum" "sum(int)" 10 2 None)).
  vm_compute. reflexivity.
Defined.

Lemma scan_end_line (lines : list string) (t : Z) (rest : list string) :
  forall (i : nat) (s : list MethodInfo) (d : Z) (r : MethodInfo) (e : Z),
    open_upto (Z.of_nat i) s ->
    Z.of_nat i < t \/ Forall (fun f => t < start_line f) s ->
    scan_lines lines t rest i s d = Some r ->
    end_line r = Some e -> e = t.
Proof.
  induction rest as [|line rest IH]; intros i s d r e Hs Hinv Hr He.
  - cbn in Hr. unfold remaining_method in Hr. apply find_some in Hr.
    destruct Hr as [Hin _]. apply in_rev in Hin.
    destruct (open_upto_in _ _ _ Hs Hin) as [_ E]. congruence.
  - cbn [scan_lines] in Hr. cbv zeta in Hr.
    set (ln := Z.of_nat i + 1) in *.
    set (s1 := push_decl _ ln _ s) in *.
    set (d1 := d + _ - _) in *.
    assert (Hs1 : open_upto (Z.of_nat (S i)) s1).
    { replace (Z.of_nat (S i)) with (Z.of_nat i + 1) by lia.
      apply open_upto_push. exact Hs. }
    assert (Hnew : forall f, In f s1 -> t < ln -> t < start_line f).
    { intros f Hf Hlt. destruct (push_decl_new _ _ _ _ _ Hf) as [Hold|Hst]; [|lia].
      destruct Hinv as [Hi|Hall]; [unfold ln in Hlt; lia|].
      rewrite Forall_forall in Hall. exact (Hall f Hold). }
    pose proof (pop_exited_inl s1 d1 ln t) as Hinl.
    pose proof (pop_exited_inr s1 d1 ln t) as Hinr.
    pose proof (open_upto_remaining _ _ d1 ln Hs1) as Hrem.
    pose proof (pop_all_remaining s1 d1 ln) as Hincl.
    destruct (pop_exited s1 d1 ln t) as [c|s2].
    + injection Hr as <-. destruct (Hinl c eq_refl) as [Hc Hrange].
      destruct (pop_all_closed _ _ _ _ Hc) as (f & Hf & ->).
      cbn in He, Hrange. injection He as <-.
      destruct (Z.eq_dec ln t) as [E|Ne]; [exact E|].
      assert (Hlt : t < ln) by lia. specialize (Hnew f Hf Hlt). lia.
    + specialize (Hinr s2 eq_refl). subst s2.
      assert (Hgo : scan_lines lines t rest (S i) (snd (pop_all s1 d1 ln)) d1 = Some r ->
                    ln <> t \/ snd (pop_all s1 d1 ln) = [] -> e = t).
      { intros Hscan Hcase. eapply IH; [exact Hrem| |exact Hscan|exact He].
        destruct (Z_lt_le_dec (Z.of_nat (S i)) t) as [Hlt|Hge]; [left; exact Hlt|].
        right. destruct Hcase as [Hne|Hnil]; [|rewrite Hnil; constructor].
        apply Forall_forall. intros f Hf. apply Hnew; [exact (Hincl f Hf)|].
        unfold ln in *. lia. }
      destruct (snd (pop_all s1 d1 ln)) as [|top below] eqn:E.
      * apply Hgo; [exact Hr|right; reflexivity].
      * destruct (ln =? t) eqn:Et.
        -- injection Hr as <-. inversion Hrem as [|? ? [_ Hopen] _]; subst. congruence.
        -- apply Hgo; [exact Hr|left; apply Z.eqb_neq; exact Et].
Qed.

(** X3.  When the record returned by [find_method_at_line] carries an end
    line, that end line is the target line itself: a closed span is only
    handed out for the line of its closing brace; for every other enclosed
    line the record is the frame as it stood, without [end_line]. *)
Theorem end_line_is_target (content : string) (target_line : Z)
    (r : MethodInfo) (e : Z) :
  find_method_at_line (Some content) target_line = Some r ->
  end_line r = Some e ->
  e = target_line.
Proof.
  unfold find_method_at_line. intros Hr He.
  exact (scan_end_line _ target_line _ O [] 0 r e (open_upto_nil _)
           (or_intror (Forall_nil _)) Hr He).
Qed.

Lemma end_line_is_target_witness :
  find_method_at_line (Some counter_java) 20
  = Some (mkMethodInfo "sum" "sum(int)" 10 2 (Some 20))
  /\ 20 = 20.
Proof.
  assert (H : find_method_at_line (Some counter_java) 20
              = Some (mkMethodInfo "sum" "sum(int)" 10 2 (Some 20)))
    by (vm_compute; reflexivity).
  split; [exact H|].
  exact (end_line_is_target counter_java 20 _ 20 H eq_refl).
Defined.

(** X4.  A target line below 1 is never resolved, whatever the text. *)
Theorem nonpositive_target_unresolved (file : option string) (target_line : Z) :
  target_line <= 0 -> find_method_at_line file target_line = None.
Proof.
  intros Ht. destruct file as [content|]; [|reflexivity].
  destruct (find_method_at_line (Some content) target_line) as [r|] eqn:Hr; [|reflexivity].
  exfalso.
  destruct (find_method_at_line_sound _ _ _ Hr) as (m & _ & Hsame & Henc & _).
  destruct Hsame as (_ & _ & Est & _).
  unfold find_method_at_line in Hr.
  destruct (scan_declared _ target_line _ O [] 0 r eq_refl (Forall_nil _) Hr)
    as (i & _ & _ & Hstart & _).
  lia.
Qed.

Lemma nonpositive_target_unresolved_witness :
  find_method_at_line (Some counter_java) 0 = None.
Proof. apply nonpositive_target_unresolved. lia. Defined.

(** X5.  In a text none of whose lines holds an opening parenthesis (the
    empty text among them) no target line is resolved. *)
Theorem no_parenthesis_no_method (content : string) (target_line : Z) :
  (forall line, In line (Py.split newline content) -> Py.contains "(" line = false) ->
  find_method_at_line (Some content) target_line = None.
Proof.
  intros Hno.
  destruct (find_method_at_line (Some content) target_line) as [r|] eqn:Hr; [|reflexivity].
  exfalso. unfold find_method_at_line in Hr.
  destruct (scan_declared _ target_line _ O [] 0 r eq_refl (Forall_nil _) Hr)
    as (i & line & params & _ & Hnth & Hdecl & _).
  destruct (method_decl_facts _ _ _ _ _ Hdecl) as (Hparen & _).
  apply contains_strip in Hparen.
  rewrite (Hno line (nth_error_In _ _ Hnth)) in Hparen. discriminate.
Qed.

Lemma no_parenthesis_no_method_witness :
  find_method_at_line (Some "") 1 = None.
Proof.
  apply no_parenthesis_no_method. intros line [<-|[]]. reflexivity.
Defined.

Lemma pop_exited_before_target (s : list MethodInfo) (d ln t : Z) :
  ln < t -> pop_exited s d ln t = inr (snd (pop_all s d ln)).
Proof.
  intros Hlt. induction s as [|top below IH]; cbn; [reflexivity|].
  destruct (d <? brace_depth_at_start top); [|reflexivity].
  replace (t <=? ln) with false by (symmetry; apply Z.leb_gt; exact Hlt).
  rewrite andb_false_r. rewrite IH.
  destruct (pop_all below d ln) as [closed remaining]. reflexivity.
Qed.

Lemma pop_all_closed_not_open (s : list MethodInfo) (d ln : Z) (m : MethodInfo) :
  In m (fst (pop_all s d ln)) -> is_open m = false.
Proof.
  intros H. destruct (pop_all_closed _ _ _ _ H) as (f & _ & ->). reflexivity.
Qed.

Lemma find_app_none {A : Type} (p : A -> bool) (l1 l2 : list A) :
  (forall x, In x l1 -> p x = false) -> List.find p (l1 ++ l2) = List.find p l2.
Proof.
  induction l1 as [|a l1 IH]; intros H; cbn; [reflexivity|].
  rewrite (H a (or_introl eq_refl)). apply IH. intros x Hx. apply H. right. exact Hx.
Qed.

Lemma find_ext_in {A : Type} (p q : A -> bool) (l : list A) :
  (forall x, In x l -> p x = q x) -> List.find p l = List.find q l.
Proof.
  induction l as [|a l IH]; intros H; cbn; [reflexivity|].
  rewrite (H a (or_introl eq_refl)). destruct (q a); [reflexivity|].
  apply IH. intros x Hx. apply H. right. exact Hx.
Qed.

Lemma scan_past_the_end (lines : list string) (t : Z) (rest : list string) :
  forall (i : nat) (s : list MethodInfo) (d : Z),
    open_upto (Z.of_nat i) s ->
    Z.of_nat i + Z.of_nat (List.length rest) < t ->
    scan_lines lines t rest i s d = List.find is_open (spans_from lines rest i s d).
Proof.
  induction rest as [|line rest IH]; intros i s d Hs Ht.
  - cbn in *. unfold remaining_method. apply find_ext_in.
    intros f Hf. apply in_rev in Hf.
    destruct (open_upto_in _ _ _ Hs Hf) as [Hstart Hopen].
    unfold is_open. rewrite Hopen. apply Z.leb_le. lia.
  - cbn [scan_lines spans_from List.length] in *. cbv zeta.
    set (ln := Z.of_nat i + 1) in *.
    set (s1 := push_decl _ ln _ s) in *.
    set (d1 := d + _ - _) in *.
    assert (Hs1 : open_upto (Z.of_nat (S i)) s1).
    { replace (Z.of_nat (S i)) with (Z.of_nat i + 1) by lia.
      apply open_upto_push. exact Hs. }
    assert (Hlt : ln < t) by (unfold ln; lia).
    rewrite (pop_exited_before_target s1 d1 ln t Hlt).
    pose proof (open_upto_remaining _ _ d1 ln Hs1) as Hrem.
    pose proof (pop_all_closed_not_open s1 d1 ln) as Hclosed.
    destruct (pop_all s1 d1 ln) as [closed remaining]. cbn [fst snd] in *.
    rewrite (find_app_none _ _ _ Hclosed).
    assert (Hnext : scan_lines lines t rest (S i) remaining d1
                    = List.find is_open (spans_from lines rest (S i) remaining d1)).
    { apply IH; [exact Hrem|lia]. }
    destruct remaining as [|top below]; [exact Hnext|].
    replace (ln =? t) with false by (symmetry; apply Z.eqb_neq; lia).
    exact Hnext.
Qed.

(** X6.  For a target line past the last line of the text the answer does
    not depend on the target: it is the first span of the scan that is
    never closed, that is the oldest frame still open at the end, and
    nothing when every frame was closed. *)
Theorem past_the_end_oldest_open (content : string) (target_line : Z) :
  Z.of_nat (List.length (Py.split newline content)) < target_line ->
  find_method_at_line (Some content) target_line
  = List.find is_open (method_spans content).
Proof.
  intros Ht. unfold find_method_at_line, method_spans.
  apply scan_past_the_end; [apply open_upto_nil|lia].
Qed.

Lemma past_the_end_oldest_open_witness :
  find_method_at_line (Some worker_java) 25
  = List.find is_open (method_spans worker_java).
Proof.
  apply past_the_end_oldest_open. vm_compute. reflexivity.
Defined.

(** ** SignatureMatcher and [find_method_by_name], continued *)

Lemma match_lines_code_lines (lines : list string) (method_name : string)
    (count : nat) (rest : list string) :
  forall (i : nat) (in_comment : bool),
    match_lines lines method_name count rest i in_comment
    = option_map (match_at method_name)
        (List.find (accepts_signature lines method_name count)
                   (code_lines rest i in_comment)).
Proof.
  induction rest as [|line rest IH]; intros i in_comment; [reflexivity|].
  cbn [match_lines code_lines]. cbv zeta.
  destruct (Py.contains "/*" (Py.strip line) && negb (Py.contains "*/" (Py.strip line)))%bool;
    [apply IH|].
  destruct (Py.contains "*/" (Py.strip line)); [apply IH|].
  destruct (in_comment || Py.startswith (Py.strip line) "//"
            || Py.startswith (Py.strip line) "*")%bool; [apply IH|].
  cbn [List.find]. unfold accepts_signature at 1. cbn [fst snd].
  destruct (is_decl_line method_name (Py.strip line)); cbn [andb]; [|apply IH].
  destruct (declared_param_count lines method_name i (Py.strip line)) as [pc|]; [|apply IH].
  destruct (Nat.eqb pc count); [reflexivity|apply IH].
Qed.

Lemma name_lines_code_lines (lines : list string) (method_name : string)
    (rest : list string) :
  forall (i : nat) (in_comment : bool),
    name_lines lines method_name rest i in_comment
    = option_map (match_at method_name)
        (List.find (accepts_name lines method_name) (code_lines rest i in_comment)).
Proof.
  induction rest as [|line rest IH]; intros i in_comment; [reflexivity|].
  cbn [name_lines code_lines]. cbv zeta.
  destruct (Py.contains "/*" (Py.strip line) && negb (Py.contains "*/" (Py.strip line)))%bool;
    [apply IH|].
  destruct (Py.contains "*/" (Py.strip line)); [apply IH|].
  destruct (in_comment || Py.startswith (Py.strip line) "//"
            || Py.startswith (Py.strip line) "*")%bool; [apply IH|].
  cbn [List.find]. unfold accepts_name at 1. cbn [fst snd].
  destruct (is_decl_line method_name (Py.strip line)); cbn [andb]; [|apply IH].
  match goal with |- (if ?c then _ else _) = _ => destruct c end; [reflexivity|apply IH].
Qed.

Lemma find_first {A : Type} (p : A -> bool) (l : list A) (x : A) :
  List.find p l = Some x ->
  exists l1 l2, l = (l1 ++ x :: l2)%list /\ p x = true /\
                forall y, In y l1 -> p y = false.
Proof.
  induction l as [|a l IH]; cbn; [discriminate|].
  destruct (p a) eqn:E.
  - intros [= <-]. exists [], l. split; [reflexivity|]. split; [exact E|intros y []].
  - intros H. destruct (IH H) as (l1 & l2 & -> & Hx & Hl1).
    exists (a :: l1), l2. split; [reflexivity|]. split; [exact Hx|].
    intros y [<-|Hy]; [exact E|exact (Hl1 y Hy)].
Qed.

(** What the comment tracking lets through. *)
Lemma code_lines_facts (lines rest : list string) :
  forall (i : nat) (in_comment : bool) (j : nat) (stripped : string),
    skipn i lines = rest ->
    In (j, stripped) (code_lines rest i in_comment) ->
    exists line,
      nth_error lines j = Some line /\ stripped = Py.strip line /\
      Py.contains "/*" stripped = false /\ Py.contains "*/" stripped = false /\
      Py.startswith stripped "//" = false /\ Py.startswith stripped "*" = false.
Proof.
  induction rest as [|line rest IH]; intros i in_comment j stripped Hskip Hin; [destruct Hin|].
  destruct (skipn_cons_nth _ _ _ _ Hskip) as [Hnth Hnext].
  cbn [code_lines] in Hin. cbv zeta in Hin.
  destruct (Py.contains "/*" (Py.strip line)) eqn:E1;
    destruct (Py.contains "*/" (Py.strip line)) eqn:E2; cbn [andb negb] in Hin;
    try exact (IH _ _ _ _ Hnext Hin).
  destruct in_comment; cbn [orb] in Hin; [exact (IH _ _ _ _ Hnext Hin)|].
  destruct (Py.startswith (Py.strip line) "//") eqn:E3; cbn [orb] in Hin;
    [exact (IH _ _ _ _ Hnext Hin)|].
  destruct (Py.startswith (Py.strip line) "*") eqn:E4;
    [exact (IH _ _ _ _ Hnext Hin)|].
  destruct Hin as [[= <- <-]|Hin]; [|exact (IH _ _ _ _ Hnext Hin)].
  exists line. auto 7.
Qed.

Lemma code_lines_increasing (rest : list string) :
  forall (i : nat) (in_comment : bool) (j : nat) (stripped : string),
    In (j, stripped) (code_lines rest i in_comment) -> (i <= j)%nat.
Proof.
  induction rest as [|line rest IH]; intros i in_comment j stripped Hin; [destruct Hin|].
  cbn [code_lines] in Hin. cbv zeta in Hin.
  repeat match type of Hin with
         | In _ (if ?c then _ else _) => destruct c
         end;
    try (apply IH in Hin; lia).
  destruct Hin as [[= <- <-]|Hin]; [lia|apply IH in Hin; lia].
Qed.

Lemma is_decl_line_mentions (method_name stripped : string) :
  is_decl_line method_name stripped = true ->
  (Py.contains (method_name ++ "(") stripped
   || Py.contains (method_name ++ " (") stripped)%bool = true.
Proof.
  unfold is_decl_line.
  destruct (Py.contains (method_name ++ "(") stripped
            || Py.contains (method_name ++ " (") stripped)%bool;
    [reflexivity|discriminate].
Qed.

Lemma code_lines_sorted (rest : list string) :
  forall (i : nat) (in_comment : bool),
    StronglySorted (fun a b : nat * string => (fst a < fst b)%nat)
                   (code_lines rest i in_comment).
Proof.
  induction rest as [|line rest IH]; intros i in_comment; [constructor|].
  cbn [code_lines]. cbv zeta.
  repeat match goal with
         | |- StronglySorted _ (if ?c then _ else _) => destruct c
         end;
    try apply IH.
  constructor; [apply IH|].
  apply Forall_forall. intros [j stripped] Hin.
  apply code_lines_increasing in Hin. cbn. lia.
Qed.

Lemma sorted_app_later {A : Type} (R : A -> A -> Prop) (l1 l2 : list A) (x : A) :
  StronglySorted R (l1 ++ x :: l2) -> forall y, In y l2 -> R x y.
Proof.
  induction l1 as [|a l1 IH]; cbn; intros H y Hy.
  - apply StronglySorted_inv in H. destruct H as [_ Hall].
    rewrite Forall_forall in Hall. exact (Hall y Hy).
  - apply StronglySorted_inv in H. destruct H as [H _]. exact (IH H y Hy).
Qed.

(** The first accepted line: everything the tracking lets through before
    it is refused. *)
Lemma first_code_line (lines : list string) (p : nat * string -> bool)
    (c : nat * string) :
  List.find p (code_lines lines O false) = Some c ->
  p c = true /\
  In c (code_lines lines O false) /\
  (exists line,
      nth_error lines (fst c) = Some line /\ snd c = Py.strip line /\
      Py.contains "/*" (snd c) = false /\ Py.contains "*/" (snd c) = false /\
      Py.startswith (snd c) "//" = false /\ Py.startswith (snd c) "*" = false) /\
  (forall j stripped,
      In (j, stripped) (code_lines lines O false) -> (j < fst c)%nat ->
      p (j, stripped) = false).
Proof.
  intros H. pose proof (find_some _ _ H) as [Hin Hp].
  destruct (find_first _ _ _ H) as (l1 & l2 & El & _ & Hl1).
  split; [exact Hp|]. split; [exact Hin|]. split.
  - destruct c as [i stripped]. exact (code_lines_facts lines lines O false i stripped eq_refl Hin).
  - intros j stripped Hj Hlt. rewrite El in Hj.
    apply in_app_or in Hj. destruct Hj as [Hj|[Hj|Hj]].
    + exact (Hl1 _ Hj).
    + subst c. cbn in Hlt. lia.
    + pose proof (code_lines_sorted lines O false) as Hsorted. rewrite El in Hsorted.
      pose proof (sorted_app_later _ _ _ _ Hsorted _ Hj) as Hgt. cbn in Hgt. lia.
Qed.

(** X7.  The line returned by [find_method_by_signature] lies in the text
    and is one of the lines that the comment tracking lets through (it is
    outside the block comments that the function tracks and is no comment
    line itself); it mentions the name
    followed by an opening parenthesis; its declaration has the requested
    number of parameters; and no line before it that the comment tracking
    lets through passes the same tests: the first such declaration wins. *)
Theorem matcher_returns_first_declaration (content method_name signature : string)
    (r : SignatureMatch) :
  find_method_by_signature (Some content) method_name signature = Some r ->
  match_name r = method_name /\
  exists (i : nat) (line : string),
    match_start_line r = Z.of_nat i + 1 /\
    nth_error (Py.split newline content) i = Some line /\
    In (i, Py.strip line) (code_lines (Py.split newline content) O false) /\
    Py.contains "/*" (Py.strip line) = false /\
    Py.contains "*/" (Py.strip line) = false /\
    Py.startswith (Py.strip line) "//" = false /\
    Py.startswith (Py.strip line) "*" = false /\
    Py.contains method_name line = true /\
    accepts_signature (Py.split newline content) method_name
                      (sig_param_count signature) (i, Py.strip line) = true /\
    (forall j stripped,
        In (j, stripped) (code_lines (Py.split newline content) O false) ->
        (j < i)%nat ->
        accepts_signature (Py.split newline content) method_name
                          (sig_param_count signature) (j, stripped) = false).
Proof.
  unfold find_method_by_signature. rewrite match_lines_code_lines.
  destruct (List.find _ _) as [[i stripped]|] eqn:Efind; [|discriminate].
  intros [= <-]. split; [reflexivity|].
  destruct (first_code_line _ _ _ Efind)
    as (Hacc & Hin & (line & Hnth & Hs & H1 & H2 & H3 & H4) & Hfirst).
  cbn [fst snd] in *. subst stripped.
  exists i, line. repeat (split; [assumption || reflexivity|]).
  split; [|split; [exact Hacc|exact Hfirst]].
  unfold accepts_signature in Hacc. cbn [fst snd] in Hacc.
  apply andb_prop in Hacc. destruct Hacc as [Hdecl _].
  apply is_decl_line_mentions in Hdecl. apply orb_true_iff in Hdecl.
  apply contains_strip.
  destruct Hdecl as [H|H]; exact (contains_app_l _ _ _ H).
Qed.

Lemma matcher_returns_first_declaration_witness :
  "f" = "f" /\
  exists (i : nat) (line : string),
    6 = Z.of_nat i + 1 /\
    nth_error (Py.split newline commented_java) i = Some line /\
    In (i, Py.strip line) (code_lines (Py.split newline commented_java) O false) /\
    Py.contains "/*" (Py.strip line) = false /\
    Py.contains "*/" (Py.strip line) = false /\
    Py.startswith (Py.strip line) "//" = false /\
    Py.startswith (Py.strip line) "*" = false /\
    Py.contains "f" line = true /\
    accepts_signature (Py.split newline commented_java) "f"
                      (sig_param_count "f(int)") (i, Py.strip line) = true /\
    (forall j stripped,
        In (j, stripped) (code_lines (Py.split newline commented_java) O false) ->
        (j < i)%nat ->
        accepts_signature (Py.split newline commented_java) "f"
                          (sig_param_count "f(int)") (j, stripped) = false).
Proof.
  apply (matcher_returns_first_declaration commented_java "f" "f(int)"
           (mkSignatureMatch "f" 6)).
  vm_compute. reflexivity.
Defined.

(** X8.  [find_method_by_name] behaves in the same way with its own test:
    the line returned is one of the lines that the comment tracking lets
    through (outside the tracked block comments), mentions the name,
    and its text joined with up to four following lines holds an opening
    brace or the word [throws]; no earlier let-through line passes. *)
Theorem by_name_returns_first_declaration (content method_name : string)
    (r : SignatureMatch) :
  find_method_by_name (Some content) method_name = Some r ->
  match_name r = method_name /\
  exists (i : nat) (line : string),
    match_start_line r = Z.of_nat i + 1 /\
    nth_error (Py.split newline content) i = Some line /\
    In (i, Py.strip line) (code_lines (Py.split newline content) O false) /\
    Py.contains "/*" (Py.strip line) = false /\
    Py.contains "*/" (Py.strip line) = false /\
    Py.startswith (Py.strip line) "//" = false /\
    Py.startswith (Py.strip line) "*" = false /\
    Py.contains method_name line = true /\
    accepts_name (Py.split newline content) method_name (i, Py.strip line) = true /\
    (forall j stripped,
        In (j, stripped) (code_lines (Py.split newline content) O false) ->
        (j < i)%nat ->
        accepts_name (Py.split newline content) method_name (j, stripped) = false).
Proof.
  unfold find_method_by_name. rewrite name_lines_code_lines.
  destruct (List.find _ _) as [[i stripped]|] eqn:Efind; [|discriminate].
  intros [= <-]. split; [reflexivity|].
  destruct (first_code_line _ _ _ Efind)
    as (Hacc & Hin & (line & Hnth & Hs & H1 & H2 & H3 & H4) & Hfirst).
  cbn [fst snd] in *. subst stripped.
  exists i, line. repeat (split; [assumption || reflexivity|]).
  split; [|split; [exact Hacc|exact Hfirst]].
  unfold accepts_name in Hacc. cbn [fst snd] in Hacc.
  apply andb_prop in Hacc. destruct Hacc as [Hdecl _].
  apply is_decl_line_mentions in Hdecl. apply orb_true_iff in Hdecl.
  apply contains_strip.
  destruct Hdecl as [H|H]; exact (contains_app_l _ _ _ H).
Qed.

Lemma by_name_returns_first_declaration_witness :
  "f" = "f" /\
  exists (i : nat) (line : string),
    6 = Z.of_nat i + 1 /\
    nth_error (Py.split newline commented_java) i = Some line /\
    In (i, Py.strip line) (code_lines (Py.split newline commented_java) O false) /\
    Py.contains "/*" (Py.strip line) = false /\
    Py.contains "*/" (Py.strip line) = false /\
    Py.startswith (Py.strip line) "//" = false /\
    Py.startswith (Py.strip line) "*" = false /\
    Py.contains "f" line = true /\
    accepts_name (Py.split newline commented_java) "f" (i, Py.strip line) = true /\
    (forall j stripped,
        In (j, stripped) (code_lines (Py.split newline commented_java) O false) ->
        (j < i)%nat ->
        accepts_name (Py.split newline commented_java) "f" (j, stripped) = false).
Proof.
  apply (by_name_returns_first_declaration commented_java "f" (mkSignatureMatch "f" 6)).
  vm_compute. reflexivity.
Defined.

(** X9.  When no line of the text mentions the method name, neither
    [find_method_by_signature] nor [find_method_by_name] finds anything. *)
Theorem absent_name_not_found (content method_name signature : string) :
  (forall line, In line (Py.split newline content) ->
                Py.contains method_name line = false) ->
  find_method_by_signature (Some content) method_name signature = None /\
  find_method_by_name (Some content) method_name = None.
Proof.
  intros Hno.
  assert (Hnone : forall p,
             (forall c, p c = true -> is_decl_line method_name (snd c) = true) ->
             List.find p (code_lines (Py.split newline content) O false) = None).
  { intros p Hp.
    destruct (List.find p _) as [[i stripped]|] eqn:Efind; [|reflexivity].
    exfalso.
    destruct (first_code_line _ _ _ Efind) as (Hacc & _ & (line & Hnth & Hs & _) & _).
    cbn [fst snd] in *. subst stripped.
    apply Hp in Hacc. cbn [snd] in Hacc.
    apply is_decl_line_mentions in Hacc. apply orb_true_iff in Hacc.
    assert (Hin : Py.contains method_name line = true).
    { apply contains_strip. destruct Hacc as [H|H]; exact (contains_app_l _ _ _ H). }
    rewrite (Hno line (nth_error_In _ _ Hnth)) in Hin. discriminate. }
  split.
  - unfold find_method_by_signature. rewrite match_lines_code_lines, Hnone; [reflexivity|].
    intros c Hc. unfold accepts_signature in Hc. apply andb_prop in Hc. tauto.
  - unfold find_method_by_name. rewrite name_lines_code_lines, Hnone; [reflexivity|].
    intros c Hc. unfold accepts_name in Hc. apply andb_prop in Hc. tauto.
Qed.

Lemma absent_name_not_found_witness :
  find_method_by_signature (Some "int total;") "sum" "sum(int)" = None /\
  find_method_by_name (Some "int total;") "sum" = None.
Proof.
  apply absent_name_not_found. intros line [<-|[]]. reflexivity.
Defined.

(** ** From the locator's signature to the matcher's arity *)

Lemma contains_char_cons (c x : ascii) (s : string) :
  Py.contains (String c "") (String x s)
  = (Ascii.eqb c x || Py.contains (String c "") s)%bool.
Proof.
  cbn [Py.contains]. f_equal. cbn.
  destruct (Ascii.ascii_dec c x) as [->|Hne].
  - rewrite Ascii.eqb_refl. apply prefix_nil_l.
  - symmetry. apply Ascii.eqb_neq. exact Hne.
Qed.

Lemma contains_char_app (c : ascii) (a b : string) :
  Py.contains (String c "") (a ++ b)
  = (Py.contains (String c "") a || Py.contains (String c "") b)%bool.
Proof.
  induction a as [|x a IH].
  - cbn [append]. destruct b; reflexivity.
  - change (String x a ++ b) with (String x (a ++ b)).
    rewrite !contains_char_cons, IH. apply orb_assoc.
Qed.

Lemma split_without_sep (c : ascii) (s : string) :
  Py.contains (String c "") s = false -> Py.split c s = [s].
Proof.
  induction s as [|x s IH]; [reflexivity|].
  rewrite contains_char_cons. intros H. apply orb_false_iff in H.
  destruct H as [Hx Hs]. cbn [Py.split].
  rewrite Ascii.eqb_sym, Hx. rewrite (IH Hs). reflexivity.
Qed.

Lemma split_app_sep (c : ascii) (a b : string) :
  Py.contains (String c "") a = false ->
  Py.split c (a ++ String c b) = a :: Py.split c b.
Proof.
  induction a as [|x a IH].
  - intros _. cbn. rewrite Ascii.eqb_refl. reflexivity.
  - rewrite contains_char_cons. intros H. apply orb_false_iff in H.
    destruct H as [Hx Ha].
    change (String x a ++ String c b) with (String x (a ++ String c b)).
    cbn [Py.split]. rewrite Ascii.eqb_sym, Hx. rewrite (IH Ha). reflexivity.
Qed.

Lemma contains_char_join (c sep : ascii) (l : list string) :
  Ascii.eqb c sep = false ->
  Forall (fun t => Py.contains (String c "") t = false) l ->
  Py.contains (String c "") (Py.join (String sep "") l) = false.
Proof.
  intros Hsep. unfold Py.join. induction l as [|t l IH]; intros Hl; [reflexivity|].
  inversion Hl as [|? ? Ht Hl']; subst.
  destruct l as [|t' l]; [exact Ht|].
  change (String.concat (String sep "") (t :: t' :: l))
    with (t ++ String sep "" ++ String.concat (String sep "") (t' :: l)).
  rewrite !contains_char_app, Ht, (IH Hl'), contains_char_cons, Hsep.
  reflexivity.
Qed.

(** Splitting what was joined gives the parts back. *)
Lemma split_join (sep : ascii) (t : string) (l : list string) :
  Forall (fun t => Py.contains (String sep "") t = false) (t :: l) ->
  Py.split sep (Py.join (String sep "") (t :: l)) = t :: l.
Proof.
  unfold Py.join. revert t. induction l as [|t' l IH]; intros t Hl;
    inversion Hl as [|? ? Ht Hl']; subst.
  - cbn [String.concat]. apply split_without_sep. exact Ht.
  - change (String.concat (String sep "") (t :: t' :: l))
      with (t ++ String sep (String.concat (String sep "") (t' :: l))).
    rewrite (split_app_sep _ _ _ Ht). rewrite (IH t' Hl'). reflexivity.
Qed.

Lemma rstrip_char_app (c : ascii) (p : string) :
  Py.contains (String c "") p = false ->
  Py.rstrip_char c (p ++ String c "") = p.
Proof.
  unfold Py.rstrip_char. induction p as [|x p IH].
  - intros _. cbn. rewrite Ascii.eqb_refl. reflexivity.
  - rewrite contains_char_cons. intros H. apply orb_false_iff in H.
    destruct H as [Hx Hp].
    change (String x p ++ String c "") with (String x (p ++ String c "")).
    cbn [Py.rstrip_by]. rewrite (IH Hp), Hx, andb_false_r. reflexivity.
Qed.

Lemma count_nonblank_all (l : list string) :
  Forall (fun t => Py.strip t <> "") l -> count_nonblank l = List.length l.
Proof.
  unfold count_nonblank. induction l as [|t l IH]; intros Hl; [reflexivity|].
  inversion Hl as [|? ? Ht Hl']; subst. cbn [filter].
  destruct (Py.strip t) eqn:E; [congruence|]. cbn. f_equal. exact (IH Hl').
Qed.

(** X10.  The signature that [find_method_at_line] builds from a name and
    its parameter types, [name(type1,...,typen)], is read back by
    [find_method_by_signature] as asking for [n] parameters, as long as the
    name holds no opening parenthesis and the types are non-blank and hold
    no parenthesis or comma. *)
Theorem signature_arity_round_trip (method_name : string) (param_types : list string) :
  Py.contains "(" method_name = false ->
  Forall (fun t => Py.contains "(" t = false /\ Py.contains ")" t = false /\
                   Py.contains "," t = false /\ Py.strip t <> "") param_types ->
  sig_param_count (method_name ++ "(" ++ Py.join "," param_types ++ ")")
  = List.length param_types.
Proof.
  intros Hname Htypes.
  assert (Hopen : Forall (fun t => Py.contains "(" t = false) param_types)
    by (eapply Forall_impl; [|exact Htypes]; cbn; tauto).
  assert (Hclose : Forall (fun t => Py.contains ")" t = false) param_types)
    by (eapply Forall_impl; [|exact Htypes]; cbn; tauto).
  assert (Hcomma : Forall (fun t => Py.contains "," t = false) param_types)
    by (eapply Forall_impl; [|exact Htypes]; cbn; tauto).
  assert (Hblank : Forall (fun t => Py.strip t <> "") param_types)
    by (eapply Forall_impl; [|exact Htypes]; cbn; tauto).
  set (params := Py.join "," param_types).
  assert (Hp1 : Py.contains "(" params = false)
    by (apply contains_char_join; [reflexivity|exact Hopen]).
  assert (Hp2 : Py.contains ")" params = false)
    by (apply contains_char_join; [reflexivity|exact Hclose]).
  unfold sig_param_count.
  assert (Hhas : Py.contains "(" (method_name ++ "(" ++ params ++ ")") = true).
  { rewrite contains_char_app. apply orb_true_iff. right.
    change ("(" ++ params ++ ")") with (String "(" (params ++ ")")).
    rewrite contains_char_cons. reflexivity. }
  rewrite Hhas.
  change (method_name ++ "(" ++ params ++ ")")
    with (method_name ++ String "(" (params ++ ")")).
  rewrite (split_app_sep _ _ _ Hname).
  rewrite (split_without_sep "(" (params ++ ")"))
    by (rewrite contains_char_app, Hp1; reflexivity).
  cbn [nth]. rewrite (rstrip_char_app _ _ Hp2).
  unfold params. destruct param_types as [|t l]; [reflexivity|].
  rewrite (split_join _ _ _ Hcomma). apply count_nonblank_all. exact Hblank.
Qed.

Lemma signature_arity_round_trip_witness :
  sig_param_count ("add" ++ "(" ++ Py.join "," ["int"; "List"] ++ ")") = 2%nat.
Proof.
  apply (signature_arity_round_trip "add" ["int"; "List"]).
  - reflexivity.
  - repeat constructor; discriminate.
Defined.

(** ** DiffParser, continued *)

Lemma int_acc_nonneg (s : string) :
  forall acc z, 0 <= acc -> Py.int_acc acc s = Some z -> 0 <= z.
Proof.
  induction s as [|c s IH]; intros acc z Hacc; cbn [Py.int_acc].
  - intros [= <-]. exact Hacc.
  - destruct (Py.isdigit c); [|discriminate]. apply IH.
    pose proof (Nat2Z.is_nonneg (Py.code c - 48)). lia.
Qed.

Lemma int_nonneg (s : string) (z : Z) : Py.int s = Some z -> 0 <= z.
Proof.
  unfold Py.int. destruct s; [discriminate|].
  destruct (Z.of_nat (String.length (String a s)) <=? Py.int_max_str_digits);
    [|discriminate].
  apply int_acc_nonneg. lia.
Qed.

Lemma set_add_elements (x : Z) (s : list Z) (y : Z) :
  In y (set_add x s) -> y = x \/ In y s.
Proof.
  unfold set_add. destruct (existsb (Z.eqb x) s); [auto|].
  intros H. apply in_app_or in H. destruct H as [H|[<-|[]]]; auto.
Qed.

Lemma set_add_nodup (x : Z) (s : list Z) : NoDup s -> NoDup (set_add x s).
Proof.
  intros Hs. unfold set_add. destruct (existsb (Z.eqb x) s) eqn:E; [exact Hs|].
  apply NoDup_app; [exact Hs|repeat constructor; intros []|].
  intros y Hy [->|[]].
  assert (E' : existsb (Z.eqb y) s = true).
  { apply existsb_exists. exists y. split; [exact Hy|apply Z.eqb_refl]. }
  congruence.
Qed.

Lemma diff_step_cases (st st' : DiffState) (line : string) :
  diff_step st line = Some st' ->
  (Py.startswith line "@@" = true /\
   changed_lines_buggy st' = changed_lines_buggy st /\
   changed_lines_fixed st' = changed_lines_fixed st /\
   ((st' = st /\ match_hunk_header line = None) \/
    (exists g1 g3, match_hunk_header line = Some (g1, g3) /\
                   Py.int g1 = Some (current_buggy_line st') /\
                   Py.int g3 = Some (current_fixed_line st'))))
  \/
  (Py.startswith line "@@" = false /\
   st' = mkDiffState
           (if is_removal line
            then set_add (current_buggy_line st) (changed_lines_buggy st)
            else changed_lines_buggy st)
           (if is_removal line then changed_lines_fixed st
            else if is_addition line
            then set_add (current_fixed_line st) (changed_lines_fixed st)
            else changed_lines_fixed st)
           (current_buggy_line st + (if old_side line then 1 else 0))
           (current_fixed_line st + (if new_side line then 1 else 0))).
Proof.
  unfold diff_step, old_side, new_side.
  fold (is_removal line). fold (is_addition line). fold (is_marker line).
  destruct (Py.startswith line "@@").
  - intros H. left. split; [reflexivity|].
    destruct (match_hunk_header line) as [[g1 g3]|] eqn:E.
    + destruct (Py.int g1) as [b|] eqn:Eb; [|discriminate].
      destruct (Py.int g3) as [f|] eqn:Ef; [|discriminate].
      injection H as <-. cbn. repeat split. right. exists g1, g3. auto.
    + injection H as <-. auto.
  - intros H. right. split; [reflexivity|].
    destruct st as [lb lf cb cf]. cbn [changed_lines_buggy changed_lines_fixed
      current_buggy_line current_fixed_line] in *.
    destruct (is_removal line), (is_addition line), (is_marker line);
      cbn [orb andb negb] in *; injection H as <-; f_equal; lia.
Qed.

(** The state never holds a negative cursor or line, nor a line twice. *)
Lemma diff_step_sound (st st' : DiffState) (line : string) :
  diff_step st line = Some st' ->
  (0 <= current_buggy_line st /\ 0 <= current_fixed_line st /\
   Forall (fun x => 0 <= x) (changed_lines_buggy st) /\
   Forall (fun x => 0 <= x) (changed_lines_fixed st) /\
   NoDup (changed_lines_buggy st) /\ NoDup (changed_lines_fixed st)) ->
  (0 <= current_buggy_line st' /\ 0 <= current_fixed_line st' /\
   Forall (fun x => 0 <= x) (changed_lines_buggy st') /\
   Forall (fun x => 0 <= x) (changed_lines_fixed st') /\
   NoDup (changed_lines_buggy st') /\ NoDup (changed_lines_fixed st')).
Proof.
  intros Hstep (Hb & Hf & Hlb & Hlf & Hnb & Hnf).
  assert (Hadd : forall x s, 0 <= x -> Forall (fun y => 0 <= y) s ->
                             Forall (fun y => 0 <= y) (set_add x s)).
  { intros x s Hx Hs. apply Forall_forall. intros y Hy.
    destruct (set_add_elements _ _ _ Hy) as [->|Hin]; [exact Hx|].
    rewrite Forall_forall in Hs. exact (Hs y Hin). }
  destruct (diff_step_cases _ _ _ Hstep)
    as [(_ & Eb & Ef & [[-> _]|(g1 & g3 & _ & Hg1 & Hg3)])|(_ & ->)].
  - auto 7.
  - rewrite Eb, Ef. apply int_nonneg in Hg1, Hg3. auto 7.
  - cbn. destruct (is_removal line), (is_addition line), (old_side line), (new_side line);
      repeat split; try lia; auto using set_add_nodup.
Qed.

Lemma diff_loop_sound (lines : list string) :
  forall st st',
    diff_loop st lines = Some st' ->
    (0 <= current_buggy_line st /\ 0 <= current_fixed_line st /\
     Forall (fun x => 0 <= x) (changed_lines_buggy st) /\
     Forall (fun x => 0 <= x) (changed_lines_fixed st) /\
     NoDup (changed_lines_buggy st) /\ NoDup (changed_lines_fixed st)) ->
    Forall (fun x => 0 <= x) (changed_lines_buggy st') /\
    Forall (fun x => 0 <= x) (changed_lines_fixed st') /\
    NoDup (changed_lines_buggy st') /\ NoDup (changed_lines_fixed st').
Proof.
  induction lines as [|line lines IH]; intros st st'; cbn [diff_loop].
  - intros [= <-]. tauto.
  - destruct (diff_step st line) as [st1|] eqn:E; [|discriminate].
    intros Hloop Hst. apply (IH _ _ Hloop). exact (diff_step_sound _ _ _ E Hst).
Qed.

(** X11.  A diff text none of whose lines is a matching header with a
    start field of more than 4300 digits is parsed to the end; and
    whatever the diff text, a state that the parse returns holds changed
    line numbers that are never negative and are recorded once each. *)
Theorem changed_lines_are_line_numbers (diff_output : string) :
  (Forall (fun l => overlong_header l = false) (Py.split newline diff_output) ->
   exists st, parse_diff diff_output = Some st) /\
  (forall st,
      parse_diff diff_output = Some st ->
      Forall (fun x => 0 <= x) (changed_lines_buggy st) /\
      Forall (fun x => 0 <= x) (changed_lines_fixed st) /\
      NoDup (changed_lines_buggy st) /\ NoDup (changed_lines_fixed st)).
Proof.
  split.
  - intros Hok. apply diff_loop_returns. exact Hok.
  - intros st Hparse. apply (diff_loop_sound _ _ _ Hparse).
    cbn. repeat split; try lia; constructor.
Qed.

Lemma changed_lines_are_line_numbers_witness :
  parse_diff runner_diff = Some (mkDiffState [5; 7] [5; 7] 11 11) /\
  Forall (fun x => 0 <= x) [5; 7] /\ NoDup [5; 7].
Proof.
  assert (Hparse : parse_diff runner_diff = Some (mkDiffState [5; 7] [5; 7] 11 11))
    by (vm_compute; reflexivity).
  split; [exact Hparse|].
  destruct (proj2 (changed_lines_are_line_numbers runner_diff) _ Hparse)
    as (Hb & _ & Hnb & _).
  split; [exact Hb|exact Hnb].
Defined.

Lemma set_add_iff (x : Z) (s : list Z) (y : Z) :
  In y (set_add x s) <-> y = x \/ In y s.
Proof.
  split; [apply set_add_elements|].
  intros [->|H]; [apply set_add_in|].
  unfold set_add. destruct (existsb (Z.eqb x) s); [exact H|].
  apply in_or_app. left. exact H.
Qed.

Lemma count_lines_cons (p : string -> bool) (l : string) (body : list string) :
  count_lines p (l :: body) = (if p l then 1 else 0) + count_lines p body.
Proof.
  unfold count_lines. cbn [filter]. destruct (p l); cbn [List.length]; lia.
Qed.

Lemma recorded_at_cons (side kind : string -> bool) (start : Z)
    (l : string) (body : list string) (x : Z) :
  recorded_at side kind start (l :: body) x <->
  (kind l = true /\ x = start) \/
  recorded_at side kind (start + (if side l then 1 else 0)) body x.
Proof.
  unfold recorded_at. split.
  - intros ([|k] & line & Hnth & Hkind & ->); cbn in Hnth.
    + injection Hnth as <-. left. split; [exact Hkind|].
      unfold count_lines. cbn. lia.
    + right. exists k, line. split; [exact Hnth|]. split; [exact Hkind|].
      cbn [firstn]. rewrite count_lines_cons. lia.
  - intros [[Hkind ->]|(k & line & Hnth & Hkind & ->)].
    + exists O, l. split; [reflexivity|]. split; [exact Hkind|].
      unfold count_lines. cbn. lia.
    + exists (S k), line. split; [exact Hnth|]. split; [exact Hkind|].
      cbn [firstn]. rewrite count_lines_cons. lia.
Qed.

Lemma is_removal_not_addition (line : string) :
  is_removal line = true -> is_addition line = false.
Proof.
  unfold is_removal, is_addition. intros H. apply andb_prop in H.
  destruct H as [H _]. destruct (startswith_char _ _ H) as [l ->]. reflexivity.
Qed.

Lemma not_header_not_overlong (l : string) :
  Py.startswith l "@@" = false -> overlong_header l = false.
Proof.
  intros Hl. unfold overlong_header.
  destruct (match_hunk_header l) as [[g1 g3]|] eqn:E; [|reflexivity].
  destruct (match_hunk_header_groups _ _ _ E) as (Hat & _). congruence.
Qed.

Lemma hunk_body (body : list string) :
  forall st,
    Forall (fun l => Py.startswith l "@@" = false) body ->
    exists st',
      diff_loop st body = Some st' /\
      current_buggy_line st' = current_buggy_line st + count_lines old_side body /\
      current_fixed_line st' = current_fixed_line st + count_lines new_side body /\
      (forall x, In x (changed_lines_buggy st') <->
                 In x (changed_lines_buggy st) \/
                 recorded_at old_side is_removal (current_buggy_line st) body x) /\
      (forall x, In x (changed_lines_fixed st') <->
                 In x (changed_lines_fixed st) \/
                 recorded_at new_side is_addition (current_fixed_line st) body x).
Proof.
  induction body as [|l body IH]; intros st Hbody.
  - exists st. cbn. split; [reflexivity|]. unfold count_lines. cbn.
    repeat split; try lia; try tauto;
      intros [H|(k & line & Hnth & _)]; try exact H; destruct k; discriminate.
  - inversion Hbody as [|? ? Hl Hrest]; subst.
    destruct (diff_step_returns st l (not_header_not_overlong _ Hl)) as [st1 E1].
    destruct (diff_step_cases _ _ _ E1) as [(Hat & _)|(_ & Est1)]; [congruence|].
    destruct (IH st1 Hrest) as (st' & Eloop & Hcb & Hcf & Hlb & Hlf).
    exists st'. cbn [diff_loop]. rewrite E1. split; [exact Eloop|].
    rewrite !count_lines_cons. rewrite Hcb, Hcf. rewrite Est1 in *.
    cbn [current_buggy_line current_fixed_line changed_lines_buggy changed_lines_fixed] in *.
    split; [lia|]. split; [lia|]. split.
    + intros x. rewrite Hlb, recorded_at_cons.
      destruct (is_removal l) eqn:Er.
      * rewrite set_add_iff. intuition.
      * intuition discriminate.
    + intros x. rewrite Hlf, recorded_at_cons.
      destruct (is_removal l) eqn:Er.
      * rewrite (is_removal_not_addition _ Er). intuition discriminate.
      * destruct (is_addition l) eqn:Ea.
        -- rewrite set_add_iff. intuition.
        -- intuition discriminate.
Qed.

(** X12.  After a hunk header that matches, with start fields [b] and
    [f], and a body without further header lines, the cursors stand at [b]
    plus the number of before-side lines and [f] plus the number of
    after-side lines of the body; a line is recorded on the before side
    exactly when it was recorded already or is the number of a removal of
    the body, counted from [b] over the before-side lines that precede it;
    the same holds for the additions on the after side, counted from [f]. *)
Theorem hunk_lines_recorded (st : DiffState) (hdr g1 g3 : string) (b f : Z)
    (body : list string) :
  match_hunk_header hdr = Some (g1, g3) ->
  Py.int g1 = Some b -> Py.int g3 = Some f ->
  Forall (fun l => Py.startswith l "@@" = false) body ->
  exists st',
    diff_loop st (hdr :: body) = Some st' /\
    current_buggy_line st' = b + count_lines old_side body /\
    current_fixed_line st' = f + count_lines new_side body /\
    (forall x, In x (changed_lines_buggy st') <->
               In x (changed_lines_buggy st) \/
               recorded_at old_side is_removal b body x) /\
    (forall x, In x (changed_lines_fixed st') <->
               In x (changed_lines_fixed st) \/
               recorded_at new_side is_addition f body x).
Proof.
  intros Hm Hb Hf Hbody.
  destruct (match_hunk_header_groups _ _ _ Hm) as (Hat & _).
  assert (E : diff_step st hdr
              = Some (mkDiffState (changed_lines_buggy st) (changed_lines_fixed st) b f)).
  { unfold diff_step. rewrite Hat, Hm, Hb, Hf. reflexivity. }
  destruct (hunk_body body
              (mkDiffState (changed_lines_buggy st) (changed_lines_fixed st) b f) Hbody)
    as (st' & Eloop & H).
  exists st'. cbn [diff_loop]. rewrite E. split; [exact Eloop|exact H].
Qed.

Lemma hunk_lines_recorded_witness :
  exists st',
    diff_loop initial_diff_state
      ("@@ -1,5 +1,6 @@" ::
       [" class A {"; "   public int f(int a) {"; "+    a = a + 1;";
        "     return a;"; "   }"; " }"]) = Some st' /\
    current_buggy_line st' = 1 + 5 /\ current_fixed_line st' = 1 + 6 /\
    In 3 (changed_lines_fixed st').
Proof.
  destruct (hunk_lines_recorded initial_diff_state "@@ -1,5 +1,6 @@" "1" "1" 1 1
              [" class A {"; "   public int f(int a) {"; "+    a = a + 1;";
               "     return a;"; "   }"; " }"]
              eq_refl eq_refl eq_refl)
    as (st' & E & Hcb & Hcf & _ & Hfixed).
  { repeat constructor. }
  exists st'. split; [exact E|]. split; [exact Hcb|]. split; [exact Hcf|].
  apply Hfixed. right. exists 2%nat, "+    a = a + 1;". repeat split.
Defined.

Lemma records_nothing_step (st st' : DiffState) (line : string) :
  is_removal line = false -> is_addition line = false ->
  diff_step st line = Some st' ->
  changed_lines_buggy st' = changed_lines_buggy st /\
  changed_lines_fixed st' = changed_lines_fixed st.
Proof.
  intros Hr Ha Hstep.
  destruct (diff_step_cases _ _ _ Hstep) as [(_ & Eb & Ef & _)|(_ & ->)]; [auto|].
  rewrite Hr, Ha. auto.
Qed.

Lemma header_forgets_cursors (st1 st2 : DiffState) (hdr g1 g3 : string) :
  match_hunk_header hdr = Some (g1, g3) ->
  changed_lines_buggy st1 = changed_lines_buggy st2 ->
  changed_lines_fixed st1 = changed_lines_fixed st2 ->
  diff_step st1 hdr = diff_step st2 hdr.
Proof.
  intros Hm Eb Ef. destruct (match_hunk_header_groups _ _ _ Hm) as (Hat & _).
  unfold diff_step. rewrite Hat, Hm, Eb, Ef. reflexivity.
Qed.

(** X13.  Lines that are neither removals nor additions, and at which
    the loop does not raise, leave no trace once a matching hunk header
    follows them: the file header lines [---] and [+++] of a unified diff,
    for example, move the cursors, but the result is the one obtained
    without them. *)
Theorem preamble_leaves_no_trace (st : DiffState) (pre : list string)
    (hdr g1 g3 : string) (rest : list string) :
  Forall (fun l => is_removal l = false /\ is_addition l = false /\
                   overlong_header l = false) pre ->
  match_hunk_header hdr = Some (g1, g3) ->
  diff_loop st (pre ++ hdr :: rest) = diff_loop st (hdr :: rest).
Proof.
  intros Hpre Hm.
  assert (H : forall st1,
             changed_lines_buggy st1 = changed_lines_buggy st ->
             changed_lines_fixed st1 = changed_lines_fixed st ->
             diff_loop st1 (pre ++ hdr :: rest) = diff_loop st (hdr :: rest)).
  { induction pre as [|l pre IH]; intros st1 Eb Ef.
    - cbn. rewrite (header_forgets_cursors st1 st _ _ _ Hm Eb Ef). reflexivity.
    - inversion Hpre as [|? ? (Hr & Ha & Hok) Hpre']; subst.
      cbn [app diff_loop]. destruct (diff_step_returns st1 l Hok) as [st2 E]. rewrite E.
      destruct (records_nothing_step _ _ _ Hr Ha E) as [Eb2 Ef2].
      apply (IH Hpre'); congruence. }
  apply H; reflexivity.
Qed.

Lemma preamble_leaves_no_trace_witness :
  diff_loop initial_diff_state
    (["--- buggy/A.java"; "+++ fixed/A.java"]
       ++ "@@ -1,5 +1,6 @@" :: [" class A {"; "+    a = a + 1;"])
  = diff_loop initial_diff_state
      ("@@ -1,5 +1,6 @@" :: [" class A {"; "+    a = a + 1;"]).
Proof.
  apply (preamble_leaves_no_trace initial_diff_state
           ["--- buggy/A.java"; "+++ fixed/A.java"] "@@ -1,5 +1,6 @@" "1" "1").
  - repeat constructor.
  - reflexivity.
Defined.

(** ** ChangeAttributor, continued *)

Lemma record_fixed_inv (P : ModifiedMethod -> Prop) (file_path cls : string)
    (d : Dict) (info : option MethodInfo) :
  (forall i v, info = Some i -> P v ->
               P (with_line_start_fixed v (Some (start_line i)))) ->
  (forall i, info = Some i -> P (fixed_evidence file_path cls i)) ->
  Forall P (dict_values d) ->
  Forall P (dict_values (record_fixed file_path cls d info)).
Proof.
  intros Hupd Hnew Hd. destruct info as [info|]; [|exact Hd]. unfold record_fixed.
  set (d1 := match dict_get (signature info) d with
             | Some _ => d
             | None => dict_set _ _ d
             end).
  assert (Hd1 : Forall P (dict_values d1)).
  { unfold d1. destruct (dict_get (signature info) d); [exact Hd|].
    apply dict_set_values; [exact Hd|]. exact (Hnew info eq_refl). }
  destruct (dict_get (signature info) d1) as [r|] eqn:Er; [|exact Hd1].
  destruct (line_start_fixed r); [exact Hd1|].
  apply dict_set_values; [exact Hd1|].
  apply (Hupd info r eq_refl). exact (dict_get_value P _ _ _ Hd1 Er).
Qed.

Lemma record_buggy_inv (P : ModifiedMethod -> Prop) (file_path cls : string)
    (d : Dict) (info : option MethodInfo) :
  (forall i v, info = Some i -> P v ->
               P (with_line_start_buggy v (Some (start_line i)))) ->
  (forall i, info = Some i -> P (buggy_evidence file_path cls i)) ->
  Forall P (dict_values d) ->
  Forall P (dict_values (record_buggy file_path cls d info)).
Proof.
  intros Hupd Hnew Hd. destruct info as [info|]; [|exact Hd]. unfold record_buggy.
  destruct (dict_get (signature info) d) as [r|] eqn:Er.
  - destruct (line_start_buggy r); [exact Hd|].
    apply dict_set_values; [exact Hd|].
    apply (Hupd info r eq_refl). exact (dict_get_value P _ _ _ Hd Er).
  - apply dict_set_values; [exact Hd|]. exact (Hnew info eq_refl).
Qed.

(** A property of records that every step of the three passes keeps holds
    of all the records of a file pair. *)
Lemma methods_of_changes_inv (P : ModifiedMethod -> Prop)
    (set_iter : list Z -> list Z)
    (file_path cls buggy_file fixed_file : string) (st : DiffState) :
  (forall t i, find_method_at_line (Some fixed_file) t = Some i ->
               P (fixed_evidence file_path cls i)) ->
  (forall t i, find_method_at_line (Some buggy_file) t = Some i ->
               P (buggy_evidence file_path cls i)) ->
  (forall t i v, find_method_at_line (Some fixed_file) t = Some i -> P v ->
                 P (with_line_start_fixed v (Some (start_line i)))) ->
  (forall t i v, find_method_at_line (Some buggy_file) t = Some i -> P v ->
                 P (with_line_start_buggy v (Some (start_line i)))) ->
  (forall v, P v -> P (backfill buggy_file fixed_file v)) ->
  Forall P (dict_values
              (methods_of_changes set_iter file_path cls buggy_file fixed_file st)).
Proof.
  intros Hnf Hnb Huf Hub Hback.
  unfold methods_of_changes. rewrite values_of_backfilled.
  apply Forall_forall. intros r Hr. apply in_map_iff in Hr.
  destruct Hr as (v & <- & Hv). apply Hback. revert v Hv. apply Forall_forall.
  apply (fold_left_invariant (fun d => Forall P (dict_values d))).
  { intros d x Hd. apply record_buggy_inv; [| |exact Hd].
    - intros i v Hi. exact (Hub x i v Hi).
    - intros i Hi. exact (Hnb x i Hi). }
  apply (fold_left_invariant (fun d => Forall P (dict_values d))).
  { intros d x Hd. apply record_fixed_inv; [| |exact Hd].
    - intros i v Hi. exact (Huf x i v Hi).
    - intros i Hi. exact (Hnf x i Hi). }
  constructor.
Qed.

Lemma located_in_text (content : string) (t : Z) (info : MethodInfo) :
  find_method_at_line (Some content) t = Some info ->
  1 <= start_line info <= Z.of_nat (List.length (Py.split newline content)).
Proof.
  unfold find_method_at_line. intros H.
  destruct (scan_declared _ t _ O [] 0 info eq_refl (Forall_nil _) H)
    as (i & line & params & Hstart & Hnth & _).
  assert (Hi : (i < List.length (Py.split newline content))%nat).
  { apply nth_error_Some. rewrite Hnth. discriminate. }
  lia.
Qed.

Lemma matched_in_text (content method_name signature : string) (m : SignatureMatch) :
  find_method_by_signature (Some content) method_name signature = Some m ->
  1 <= match_start_line m <= Z.of_nat (List.length (Py.split newline content)).
Proof.
  unfold find_method_by_signature. intros H.
  destruct (match_lines_arity _ _ _ _ O false m eq_refl H)
    as (_ & j & line & Hstart & Hnth & _).
  assert (Hj : (j < List.length (Py.split newline content))%nat).
  { apply nth_error_Some. rewrite Hnth. discriminate. }
  lia.
Qed.

Lemma backfill_inv (P : ModifiedMethod -> Prop) (buggy_file fixed_file : string)
    (v : ModifiedMethod) :
  (forall w m, line_start_buggy w = None ->
               find_method_by_signature (Some buggy_file) (method_name w) (method w)
               = Some m ->
               P w -> P (with_line_start_buggy w (Some (match_start_line m)))) ->
  (forall w m, line_start_fixed w = None ->
               find_method_by_signature (Some fixed_file) (method_name w) (method w)
               = Some m ->
               P w -> P (with_line_start_fixed w (Some (match_start_line m)))) ->
  P v -> P (backfill buggy_file fixed_file v).
Proof.
  intros Hb Hf Hv. unfold backfill.
  match goal with
  | |- P (match line_start_fixed ?w with _ => _ end) =>
      set (v1 := w); assert (Hv1 : P v1)
  end.
  { unfold v1. destruct (line_start_buggy v) eqn:E; [exact Hv|].
    destruct (find_method_by_signature (Some buggy_file) _ _) eqn:Em; [|exact Hv].
    apply Hb; assumption. }
  destruct (line_start_fixed v1) eqn:E; [exact Hv1|].
  destruct (find_method_by_signature (Some fixed_file) _ _) eqn:Em; [|exact Hv1].
  apply Hf; assumption.
Qed.

(** X14.  Every record emitted for a file pair names the class, has at
    least one of its two line numbers filled, and a line number that is
    filled is a line of the corresponding file: between 1 and the number of
    lines of the before file for [line_start_buggy], of the after file for
    [line_start_fixed]. *)
Theorem records_point_into_the_files (diff_U3 : string -> string -> string)
    (set_iter : list Z -> list Z) (cls buggy_file fixed_file : string)
    (records : list ModifiedMethod) :
  attribute_class diff_U3 set_iter cls buggy_file fixed_file = Some records ->
  Forall (fun r =>
            class_ r = cls /\
            (line_start_buggy r <> None \/ line_start_fixed r <> None) /\
            (forall l, line_start_buggy r = Some l ->
                       1 <= l <= Z.of_nat (List.length (Py.split newline buggy_file))) /\
            (forall l, line_start_fixed r = Some l ->
                       1 <= l <= Z.of_nat (List.length (Py.split newline fixed_file))))
         records.
Proof.
  unfold attribute_class.
  destruct (Py.is_empty (run_diff diff_U3 buggy_file fixed_file)).
  { intros [= <-]. constructor. }
  destruct (parse_diff (run_diff diff_U3 buggy_file fixed_file)) as [st|];
    [|discriminate].
  intros [= <-].
  apply methods_of_changes_inv.
  - intros t i Hi. pose proof (located_in_text _ _ _ Hi) as Hin.
    split; [reflexivity|]. split; [right; discriminate|].
    split; [intros l Hl; discriminate|intros l [= <-]; exact Hin].
  - intros t i Hi. pose proof (located_in_text _ _ _ Hi) as Hin.
    split; [reflexivity|]. split; [left; discriminate|].
    split; [intros l [= <-]; exact Hin|intros l Hl; discriminate].
  - intros t i v Hi (Hc & _ & Hb & _). pose proof (located_in_text _ _ _ Hi) as Hin.
    split; [exact Hc|]. split; [right; discriminate|].
    split; [exact Hb|intros l [= <-]; exact Hin].
  - intros t i v Hi (Hc & _ & _ & Hf). pose proof (located_in_text _ _ _ Hi) as Hin.
    split; [exact Hc|]. split; [left; discriminate|].
    split; [intros l [= <-]; exact Hin|exact Hf].
  - intros v Hv. apply backfill_inv; [| |exact Hv].
    + intros w m _ Em (Hc & _ & _ & Hf). pose proof (matched_in_text _ _ _ _ Em) as Hin.
      split; [exact Hc|]. split; [left; discriminate|].
      split; [intros l [= <-]; exact Hin|exact Hf].
    + intros w m _ Em (Hc & _ & Hb & _). pose proof (matched_in_text _ _ _ _ Em) as Hin.
      split; [exact Hc|]. split; [right; discriminate|].
      split; [exact Hb|intros l [= <-]; exact Hin].
Qed.

Lemma records_point_into_the_files_witness :
  attribute_class sample_diff (fun s => s) "demo.Worker" runner_buggy runner_fixed
  = Some [mkModifiedMethod "demo/Worker.java" "demo.Worker" "run()" "run"
                           (Some 4) (Some 4)] /\
  Forall (fun r =>
            class_ r = "demo.Worker" /\
            (line_start_buggy r <> None \/ line_start_fixed r <> None) /\
            (forall l, line_start_buggy r = Some l ->
                       1 <= l <= Z.of_nat (List.length (Py.split newline runner_buggy))) /\
            (forall l, line_start_fixed r = Some l ->
                       1 <= l <= Z.of_nat (List.length (Py.split newline runner_fixed))))
         [mkModifiedMethod "demo/Worker.java" "demo.Worker" "run()" "run"
                           (Some 4) (Some 4)].
Proof.
  assert (Hrecords : attribute_class sample_diff (fun s => s) "demo.Worker"
                       runner_buggy runner_fixed
                     = Some [mkModifiedMethod "demo/Worker.java" "demo.Worker" "run()"
                                              "run" (Some 4) (Some 4)])
    by (vm_compute; reflexivity).
  split; [exact Hrecords|].
  exact (records_point_into_the_files _ _ _ _ _ _ Hrecords).
Defined.

Lemma located_is_named (content : string) (t : Z) (info : MethodInfo) :
  find_method_at_line (Some content) t = Some info ->
  ~ In (name info) control_keywords /\ name info <> "" /\
  exists params, signature info = name info ++ "(" ++ params ++ ")".
Proof.
  unfold find_method_at_line. intros H.
  destruct (scan_declared _ t _ O [] 0 info eq_refl (Forall_nil _) H)
    as (i & line & params & _ & _ & Hdecl & Hsig).
  destruct (method_decl_facts _ _ _ _ _ Hdecl) as (_ & _ & _ & Hkw & Hne).
  split; [|split; [exact Hne|exists params; exact Hsig]].
  intros Hin. unfold mem_string in Hkw.
  assert (Htrue : existsb (String.eqb (name info)) control_keywords = true).
  { apply existsb_exists. exists (name info). split; [exact Hin|apply String.eqb_refl]. }
  congruence.
Qed.

(** X15.  In every record emitted for a file pair, [method_name] is a
    non-empty name that is none of the control keywords, and [method] is
    that name followed by a parenthesised parameter list. *)
Theorem records_name_methods (diff_U3 : string -> string -> string)
    (set_iter : list Z -> list Z) (cls buggy_file fixed_file : string)
    (records : list ModifiedMethod) :
  attribute_class diff_U3 set_iter cls buggy_file fixed_file = Some records ->
  Forall (fun r =>
            ~ In (method_name r) control_keywords /\ method_name r <> "" /\
            exists params, method r = method_name r ++ "(" ++ params ++ ")")
         records.
Proof.
  unfold attribute_class.
  destruct (Py.is_empty (run_diff diff_U3 buggy_file fixed_file)).
  { intros [= <-]. constructor. }
  destruct (parse_diff (run_diff diff_U3 buggy_file fixed_file)) as [st|];
    [|discriminate].
  intros [= <-].
  apply methods_of_changes_inv.
  - intros t i Hi. exact (located_is_named _ _ _ Hi).
  - intros t i Hi. exact (located_is_named _ _ _ Hi).
  - intros t i v _ Hv. exact Hv.
  - intros t i v _ Hv. exact Hv.
  - intros v Hv. apply backfill_inv; [| |exact Hv]; intros w m _ _ Hw; exact Hw.
Qed.

Lemma records_name_methods_witness :
  attribute_class sample_diff (fun s => s) "A" adder_buggy adder_fixed
  = Some [mkModifiedMethod "A.java" "A" "f(int)" "f" (Some 2) (Some 2)] /\
  Forall (fun r =>
            ~ In (method_name r) control_keywords /\ method_name r <> "" /\
            exists params, method r = method_name r ++ "(" ++ params ++ ")")
         [mkModifiedMethod "A.java" "A" "f(int)" "f" (Some 2) (Some 2)].
Proof.
  assert (Hrecords : attribute_class sample_diff (fun s => s) "A" adder_buggy adder_fixed
                     = Some [mkModifiedMethod "A.java" "A" "f(int)" "f" (Some 2) (Some 2)])
    by (vm_compute; reflexivity).
  split; [exact Hrecords|].
  exact (records_name_methods _ _ _ _ _ _ Hrecords).
Defined.

(** ** The loop over the classes *)

Lemma extract_loop_acc (diff_U3 : string -> string -> string)
    (set_iter : list Z -> list Z) (locate : string -> option (string * string))
    (modified_classes : list string) :
  forall acc,
    extract_loop diff_U3 set_iter locate acc modified_classes
    = option_map (fun out => (acc ++ out)%list)
        (extract_loop diff_U3 set_iter locate [] modified_classes).
Proof.
  induction modified_classes as [|cls rest IH]; intros acc; cbn [extract_loop].
  - cbn. rewrite app_nil_r. reflexivity.
  - destruct (Py.is_empty cls); [apply IH|].
    destruct (locate cls) as [[buggy_file fixed_file]|]; [|apply IH].
    destruct (attribute_class diff_U3 set_iter cls buggy_file fixed_file) as [found|];
      [|reflexivity].
    rewrite (IH (acc ++ found)%list), (IH ([] ++ found)%list). cbn [app].
    destruct (extract_loop diff_U3 set_iter locate [] rest) as [out|]; cbn; [|reflexivity].
    rewrite app_assoc. reflexivity.
Qed.

Lemma extract_loop_app (diff_U3 : string -> string -> string)
    (set_iter : list Z -> list Z) (locate : string -> option (string * string))
    (classes1 classes2 : list string) :
  forall acc,
    extract_loop diff_U3 set_iter locate acc (classes1 ++ classes2)
    = match extract_loop diff_U3 set_iter locate acc classes1 with
      | Some out1 => extract_loop diff_U3 set_iter locate out1 classes2
      | None => None
      end.
Proof.
  induction classes1 as [|cls rest IH]; intros acc; cbn [app extract_loop];
    [reflexivity|].
  destruct (Py.is_empty cls); [apply IH|].
  destruct (locate cls) as [[buggy_file fixed_file]|]; [|apply IH].
  destruct (attribute_class diff_U3 set_iter cls buggy_file fixed_file) as [found|];
    [apply IH|reflexivity].
Qed.

(** X16.  The classes are processed independently and in order: a run
    over two lists of classes, one after the other, returns when the runs
    over each list do, and its records are then those of the first list
    followed by those of the second; it raises when one of them does. *)
Theorem classes_are_independent (diff_U3 : string -> string -> string)
    (set_iter : list Z -> list Z) (locate : string -> option (string * string))
    (classes1 classes2 : list string) :
  extract_modified_methods diff_U3 set_iter locate (classes1 ++ classes2)
  = match extract_modified_methods diff_U3 set_iter locate classes1,
          extract_modified_methods diff_U3 set_iter locate classes2 with
    | Some out1, Some out2 => Some (out1 ++ out2)%list
    | _, _ => None
    end.
Proof.
  unfold extract_modified_methods. rewrite extract_loop_app.
  destruct (extract_loop diff_U3 set_iter locate [] classes1) as [out1|];
    [|reflexivity].
  rewrite extract_loop_acc.
  destruct (extract_loop diff_U3 set_iter locate [] classes2) as [out2|]; reflexivity.
Qed.

(** X17.  A class with an empty name, or whose two files are not found,
    contributes nothing and leaves the records of the other classes as
    they are. *)
Theorem unresolved_class_is_skipped (diff_U3 : string -> string -> string)
    (set_iter : list Z -> list Z) (locate : string -> option (string * string))
    (before : list string) (cls : string) (after : list string) :
  cls = "" \/ locate cls = None ->
  extract_modified_methods diff_U3 set_iter locate (before ++ cls :: after)
  = extract_modified_methods diff_U3 set_iter locate (before ++ after).
Proof.
  intros Hskip. unfold extract_modified_methods. generalize (@nil ModifiedMethod).
  induction before as [|c before IH]; intros acc; cbn [app extract_loop].
  - destruct Hskip as [->|Hnone]; [reflexivity|].
    rewrite Hnone. destruct (Py.is_empty cls); reflexivity.
  - destruct (Py.is_empty c); [apply IH|].
    destruct (locate c) as [[buggy_file fixed_file]|]; [|apply IH].
    destruct (attribute_class diff_U3 set_iter c buggy_file fixed_file); [apply IH|reflexivity].
Qed.

Lemma unresolved_class_is_skipped_witness :
  extract_modified_methods (fun _ _ => adder_diff) (fun s => s)
    (fun cls => if String.eqb cls "A" then Some (adder_buggy, adder_fixed) else None)
    (["A"] ++ "B" :: ["A"])
  = extract_modified_methods (fun _ _ => adder_diff) (fun s => s)
      (fun cls => if String.eqb cls "A" then Some (adder_buggy, adder_fixed) else None)
      (["A"] ++ ["A"]).
Proof.
  apply unresolved_class_is_skipped. right. reflexivity.
Defined.

(** ** The list of functions built by [main] *)

Lemma add_function_elements (functions : list string) (m : ModifiedMethod) (x : string) :
  In x (add_function functions m) <->
  In x functions \/ x = class_ m ++ "::" ++ method m.
Proof.
  unfold add_function, mem_string. cbv zeta.
  destruct (existsb _ functions) eqn:E.
  - split; [auto|]. intros [H| ->]; [exact H|].
    apply existsb_exists in E. destruct E as (y & Hy & Ey).
    apply String.eqb_eq in Ey. subst y. exact Hy.
  - rewrite in_app_iff. cbn. intuition.
Qed.

Lemma add_function_nodup (functions : list string) (m : ModifiedMethod) :
  NoDup functions -> NoDup (add_function functions m).
Proof.
  intros Hf. unfold add_function, mem_string. cbv zeta.
  destruct (existsb _ functions) eqn:E; [exact Hf|].
  apply NoDup_app; [exact Hf|repeat constructor; intros []|].
  intros y Hy [Ey|[]]. subst y.
  assert (E' : existsb (String.eqb (class_ m ++ "::" ++ method m)) functions = true).
  { apply existsb_exists. eexists. split; [exact Hy|apply String.eqb_refl]. }
  congruence.
Qed.

(** X18.  The list [functions] that [main] builds from the records holds
    each name [class::method] once, and holds exactly the names of the
    records. *)
Theorem functions_are_the_record_names (modified_methods : list ModifiedMethod) :
  NoDup (main_functions modified_methods) /\
  forall x, In x (main_functions modified_methods) <->
            exists m, In m modified_methods /\ x = class_ m ++ "::" ++ method m.
Proof.
  unfold main_functions.
  assert (H : forall ms acc,
             NoDup acc ->
             NoDup (fold_left add_function ms acc) /\
             forall x, In x (fold_left add_function ms acc) <->
                       In x acc \/
                       exists m, In m ms /\ x = class_ m ++ "::" ++ method m).
  { induction ms as [|m ms IH]; intros acc Hacc; cbn [fold_left].
    - split; [exact Hacc|]. intros x. split; [auto|].
      intros [Hx|(m & [] & _)]. exact Hx.
    - destruct (IH (add_function acc m) (add_function_nodup _ _ Hacc)) as [Hnd Hin].
      split; [exact Hnd|]. intros x. rewrite Hin, add_function_elements.
      split.
      + intros [[Hx|Hx]|(m' & Hm' & Hx)].
        * left. exact Hx.
        * right. exists m. split; [left; reflexivity|exact Hx].
        * right. exists m'. split; [right; exact Hm'|exact Hx].
      + intros [Hx|(m' & [<-|Hm'] & Hx)].
        * left. left. exact Hx.
        * left. right. exact Hx.
        * right. exists m'. split; [exact Hm'|exact Hx]. }
  destruct (H modified_methods [] (NoDup_nil _)) as [Hnd Hin].
  split; [exact Hnd|]. intros x. rewrite Hin. split; [|auto].
  intros [[]|Hx]. exact Hx.
Qed.

(** ** [get_defects4j_export] and [get_defects4j_query] *)

Lemma split_not_nil (c : ascii) (s : string) : Py.split c s <> [].
Proof.
  destruct s as [|x s]; cbn; [discriminate|].
  destruct (Ascii.eqb x c); [discriminate|].
  destruct (Py.split c s); discriminate.
Qed.

(** Joining the parts of a split gives the text back. *)
Lemma join_split (c : ascii) (s : string) :
  Py.join (String c "") (Py.split c s) = s.
Proof.
  unfold Py.join. induction s as [|x s IH]; [reflexivity|].
  cbn [Py.split]. pose proof (split_not_nil c s) as Hne.
  destruct (Ascii.eqb x c) eqn:E.
  - apply Ascii.eqb_eq in E. subst x.
    destruct (Py.split c s) as [|h t]; [congruence|].
    change (String.concat (String c "") ("" :: h :: t))
      with (String c (String.concat (String c "") (h :: t))).
    rewrite IH. reflexivity.
  - destruct (Py.split c s) as [|h t]; [congruence|].
    rewrite <- IH. destruct t; reflexivity.
Qed.

Lemma split_parts_without_sep (c : ascii) (s : string) :
  Forall (fun p => Py.contains (String c "") p = false) (Py.split c s).
Proof.
  induction s as [|x s IH]; [repeat constructor|].
  cbn [Py.split]. destruct (Ascii.eqb x c) eqn:E.
  - constructor; [reflexivity|exact IH].
  - destruct (Py.split c s) as [|h t]; inversion IH; subst.
    + repeat constructor. rewrite contains_char_cons, Ascii.eqb_sym, E. reflexivity.
    + constructor; [|assumption].
      rewrite contains_char_cons, Ascii.eqb_sym, E. assumption.
Qed.

Lemma rstrip_idempotent (p : ascii -> bool) (s : string) :
  Py.rstrip_by p (Py.rstrip_by p s) = Py.rstrip_by p s.
Proof.
  induction s as [|x s IH]; [reflexivity|].
  cbn [Py.rstrip_by].
  destruct (Py.is_empty (Py.rstrip_by p s) && p x)%bool eqn:E; [reflexivity|].
  cbn [Py.rstrip_by]. rewrite IH, E. reflexivity.
Qed.

Lemma lstrip_head (p : ascii -> bool) (s : string) :
  Py.lstrip_by p s = ""
  \/ exists x s', Py.lstrip_by p s = String x s' /\ p x = false.
Proof.
  induction s as [|x s IH]; [left; reflexivity|].
  cbn [Py.lstrip_by]. destruct (p x) eqn:E; [exact IH|].
  right. exists x, s. auto.
Qed.

Lemma strip_idempotent (s : string) : Py.strip (Py.strip s) = Py.strip s.
Proof.
  unfold Py.strip.
  destruct (lstrip_head Py.isspace s) as [->|(x & s' & -> & Hx)]; [reflexivity|].
  cbn [Py.rstrip_by]. rewrite Hx, andb_false_r.
  cbn [Py.lstrip_by]. rewrite Hx.
  cbn [Py.rstrip_by]. rewrite Hx, andb_false_r, rstrip_idempotent. reflexivity.
Qed.

(** X19.  The list returned by [get_defects4j_export] is the stripped
    output of the command cut at the newlines: joining it with newlines
    gives the stripped output back, no entry holds a newline, and the list
    is empty exactly when the output is blank (it is never the list with
    one empty entry). *)
Theorem export_is_the_stripped_output (raw : string) :
  Py.join (String newline "") (get_defects4j_export raw) = Py.strip raw /\
  Forall (fun entry => Py.contains (String newline "") entry = false)
         (get_defects4j_export raw) /\
  (get_defects4j_export raw = [] <-> Py.strip raw = "").
Proof.
  unfold get_defects4j_export, run_cmd_stdout. rewrite strip_idempotent.
  destruct (Py.strip raw) as [|x s] eqn:E; cbn [Py.is_empty].
  - split; [reflexivity|]. split; [constructor|]. tauto.
  - split; [apply join_split|]. split; [apply split_parts_without_sep|].
    split; [|discriminate]. intros H. exfalso. exact (split_not_nil _ _ H).
Qed.

Lemma str_get_set_same (key v : string) (d : StrDict) :
  str_get key (str_set key v d) = Some v.
Proof.
  induction d as [|[k w] d IH]; cbn.
  - rewrite String.eqb_refl. reflexivity.
  - destruct (String.eqb key k) eqn:E; cbn; rewrite E; [reflexivity|exact IH].
Qed.

Lemma str_get_set_other (key key' v : string) (d : StrDict) :
  key <> key' -> str_get key (str_set key' v d) = str_get key d.
Proof.
  intros Hne. apply String.eqb_neq in Hne.
  induction d as [|[k w] d IH]; cbn.
  - rewrite Hne. reflexivity.
  - destruct (String.eqb key' k) eqn:E; cbn.
    + apply String.eqb_eq in E. subst k. rewrite Hne. reflexivity.
    + destruct (String.eqb key k); [reflexivity|exact IH].
Qed.

Lemma assign_fields_other (fields parts : list string) (key : string) :
  forall d k, ~ In key fields ->
              str_get key (assign_fields d fields k parts) = str_get key d.
Proof.
  induction fields as [|f fields IH]; intros d k Hnot; cbn [assign_fields]; [reflexivity|].
  rewrite IH by (intros H; apply Hnot; right; exact H).
  destruct (nth_error parts k); [|reflexivity].
  apply str_get_set_other. intros ->. apply Hnot. left. reflexivity.
Qed.

Lemma assign_fields_get (fields parts : list string) :
  forall d k i field,
    NoDup fields -> nth_error fields i = Some field ->
    str_get field (assign_fields d fields k parts)
    = match nth_error parts (k + i) with
      | Some part => Some part
      | None => str_get field d
      end.
Proof.
  induction fields as [|f fields IH]; intros d k i field Hnd Hi;
    [destruct i; discriminate|].
  inversion Hnd as [|? ? Hf Hnd']; subst. cbn [assign_fields].
  destruct i as [|i]; cbn in Hi.
  - injection Hi as ->. rewrite Nat.add_0_r.
    rewrite (assign_fields_other _ _ _ _ _ Hf).
    destruct (nth_error parts k); [apply str_get_set_same|reflexivity].
  - rewrite (IH _ (S k) i field Hnd' Hi).
    replace (S k + i)%nat with (k + S i)%nat by lia.
    destruct (nth_error parts (k + S i)); [reflexivity|].
    destruct (nth_error parts k); [|reflexivity].
    apply str_get_set_other. intros ->. apply Hf.
    exact (nth_error_In _ _ Hi).
Qed.

Lemma query_loop_skip (bug_id_str : string) (query_fields pre rest : list string) :
  Forall (fun l => l = "" \/ Py.first (Py.split "," l) <> bug_id_str) pre ->
  query_loop (Some bug_id_str) query_fields (pre ++ rest)
  = query_loop (Some bug_id_str) query_fields rest.
Proof.
  induction pre as [|l pre IH]; intros Hpre; [reflexivity|].
  inversion Hpre as [|? ? Hl Hpre']; subst. cbn [app query_loop].
  destruct l as [|c l]; [exact (IH Hpre')|]. cbn [Py.is_empty].
  destruct Hl as [Hl|Hl]; [discriminate|].
  destruct (Py.split "," (String c l)) as [|bid parts] eqn:E; [exact (IH Hpre')|].
  cbn [Py.first hd] in Hl. apply String.eqb_neq in Hl. rewrite Hl. exact (IH Hpre').
Qed.

(** X20.  For a bug id that [str] converts, to [bug_id_str],
    [get_defects4j_query] reads the fields of the first non-empty output
    line whose first comma-separated part is [bug_id_str]: when the query
    fields are pairwise distinct, the value stored under the field of rank
    [i] is the part of rank [i] of that line, and the field is absent when
    the line has no such part; a key that is no query field is absent. *)
Theorem query_reads_first_matching_line (raw : string) (bug_id : Z)
    (bug_id_str : string) (query_fields pre : list string) (line : string)
    (post : list string) :
  str_of_int bug_id = Some bug_id_str ->
  NoDup query_fields ->
  Py.split newline (Py.strip (Py.strip raw)) = (pre ++ line :: post)%list ->
  Forall (fun l => l = "" \/ Py.first (Py.split "," l) <> bug_id_str) pre ->
  line <> "" ->
  Py.first (Py.split "," line) = bug_id_str ->
  exists result,
    get_defects4j_query raw bug_id query_fields = Some result /\
    (forall i field,
        nth_error query_fields i = Some field ->
        str_get field result = nth_error (Py.split "," line) i) /\
    (forall key, ~ In key query_fields -> str_get key result = None).
Proof.
  intros Hstr Hnd Hsplit Hpre Hline Hbid.
  unfold get_defects4j_query, run_cmd_stdout. rewrite Hsplit, Hstr.
  rewrite (query_loop_skip _ _ _ _ Hpre). cbn [query_loop].
  destruct line as [|c l]; [congruence|]. cbn [Py.is_empty].
  destruct (Py.split "," (String c l)) as [|bid parts] eqn:E;
    [exfalso; exact (split_not_nil _ _ E)|].
  cbn [Py.first hd] in Hbid. subst bid. rewrite String.eqb_refl.
  eexists. split; [reflexivity|]. split.
  - intros i field Hi. rewrite (assign_fields_get _ _ [] O i field Hnd Hi).
    cbn [Nat.add]. destruct (nth_error (bug_id_str :: parts) i); reflexivity.
  - intros key Hkey. apply assign_fields_other. exact Hkey.
Qed.

Lemma query_reads_first_matching_line_witness :
  exists result,
    get_defects4j_query (unlines ["1,aaa,R-1"; ""; "2,bbb,R-2"; "3,ccc"]) 2
      ["bug.id"; "revision.id.buggy"; "report.id"] = Some result /\
    (forall i field,
        nth_error ["bug.id"; "revision.id.buggy"; "report.id"] i = Some field ->
        str_get field result = nth_error (Py.split "," "2,bbb,R-2") i) /\
    (forall key, ~ In key ["bug.id"; "revision.id.buggy"; "report.id"] ->
                 str_get key result = None).
Proof.
  apply (query_reads_first_matching_line _ 2 "2" _ ["1,aaa,R-1"; ""] "2,bbb,R-2"
           ["3,ccc"]).
  - vm_compute. reflexivity.
  - apply NoDup_cons; [cbn; intuition discriminate|].
    apply NoDup_cons; [cbn; intuition discriminate|].
    apply NoDup_cons; [cbn; intuition discriminate|apply NoDup_nil].
  - reflexivity.
  - apply Forall_cons; [right; vm_compute; discriminate|].
    apply Forall_cons; [left; reflexivity|apply Forall_nil].
  - discriminate.
  - reflexivity.
Defined.

(** X21.  For a bug id that [str] converts, to [bug_id_str]: when no
    non-empty output line has [bug_id_str] as its first part, the result
    of [get_defects4j_query] is the empty dictionary. *)
Theorem query_without_match_is_empty (raw : string) (bug_id : Z)
    (bug_id_str : string) (query_fields : list string) :
  str_of_int bug_id = Some bug_id_str ->
  Forall (fun l => l = "" \/ Py.first (Py.split "," l) <> bug_id_str)
         (Py.split newline (Py.strip (Py.strip raw))) ->
  get_defects4j_query raw bug_id query_fields = Some [].
Proof.
  intros Hstr H. unfold get_defects4j_query, run_cmd_stdout. rewrite Hstr.
  rewrite <- (app_nil_r (Py.split newline (Py.strip (Py.strip raw)))).
  rewrite (query_loop_skip _ _ _ _ H). reflexivity.
Qed.

Lemma query_without_match_is_empty_witness :
  get_defects4j_query (unlines ["1,aaa"; "22,bbb"]) 2 ["bug.id"; "revision.id.buggy"]
  = Some [].
Proof.
  apply (query_without_match_is_empty _ 2 "2").
  - vm_compute. reflexivity.
  - apply Forall_cons; [right; vm_compute; discriminate|].
    apply Forall_cons; [right; vm_compute; discriminate|apply Forall_nil].
Defined.

(** ** [parse_java_method_at_line] *)

(** A record made on line [i] of a text whose line is [line]. *)
Lemma try_pattern_spec (pattern : regex) (i : nat) (line : string) :
  exists d : option JavaMethod,
    (forall current_method,
        try_pattern pattern i line current_method
        = match d with Some m => Some m | None => current_method end) /\
    (forall m, d = Some m ->
               jm_line m = Z.of_nat i + 1 /\ jm_signature m = Py.strip line /\
               jm_name m <> "" /\ ~ In (jm_name m) statement_keywords).
Proof.
  unfold try_pattern.
  destruct (re_search pattern line) as [caps|];
    [|exists None; split; [reflexivity|discriminate]].
  destruct (group 2 caps) as [method_name|];
    [|exists None; split; [reflexivity|discriminate]].
  destruct (Py.is_empty method_name) eqn:Ee; cbn [negb andb];
    [exists None; split; [reflexivity|discriminate]|].
  destruct (mem_string method_name statement_keywords) eqn:Ek; cbn [negb];
    [exists None; split; [reflexivity|discriminate]|].
  exists (Some (mkJavaMethod method_name (Z.of_nat i + 1) (Py.strip line))).
  split; [reflexivity|]. intros m [= <-]. cbn.
  split; [reflexivity|]. split; [reflexivity|]. split.
  - intros ->. discriminate.
  - intros Hin. unfold mem_string in Ek.
    assert (Ht : existsb (String.eqb method_name) statement_keywords = true).
    { apply existsb_exists. exists method_name. split; [exact Hin|apply String.eqb_refl]. }
    congruence.
Qed.

(** What a line declares does not depend on what was found before it. *)
Lemma declaration_on_spec (i : nat) (line : string) :
  (forall current_method,
      declaration_on i line current_method
      = match declaration_on i line None with
        | Some m => Some m
        | None => current_method
        end) /\
  (forall m, declaration_on i line None = Some m ->
             jm_line m = Z.of_nat i + 1 /\ jm_signature m = Py.strip line /\
             jm_name m <> "" /\ ~ In (jm_name m) statement_keywords).
Proof.
  unfold declaration_on.
  destruct (try_pattern_spec method_pattern i line) as (dm & Em & Hm).
  destruct (try_pattern_spec constructor_pattern i line) as (dc & Ec & Hc).
  split.
  - intros current_method. rewrite !Ec, !Em.
    destruct dc; [reflexivity|]. destruct dm; reflexivity.
  - intros m. rewrite Ec, Em. destruct dc as [mc|].
    + intros [= <-]. apply Hc. reflexivity.
    + destruct dm as [mm|]; [|discriminate]. intros [= <-]. apply Hm. reflexivity.
Qed.

Lemma scan_decls_app (pre post : list string) :
  forall i current_method,
    scan_decls (pre ++ post) i current_method
    = scan_decls post (i + List.length pre) (scan_decls pre i current_method).
Proof.
  induction pre as [|l pre IH]; intros i current_method; cbn [app scan_decls List.length].
  - rewrite Nat.add_0_r. reflexivity.
  - rewrite IH. f_equal. lia.
Qed.

Lemma scan_decls_none (rest : list string) :
  forall i current_method,
    scan_decls rest i current_method = None -> current_method = None.
Proof.
  induction rest as [|l rest IH]; intros i current_method; cbn [scan_decls]; [auto|].
  intros H. apply IH in H. destruct (declaration_on_spec i l) as [E _].
  rewrite E in H. destruct (declaration_on i l None); [discriminate|exact H].
Qed.

Lemma parse_loop_spec (rest : list string) :
  forall (i : nat) (line_number : Z) (current_method : option JavaMethod),
    parse_loop rest i line_number current_method
    = match scan_decls (firstn (Z.to_nat (line_number - Z.of_nat i)) rest) i
              current_method with
      | Some m => if Z.of_nat i <? line_number then Some m
                  else scan_decls rest i current_method
      | None => scan_decls rest i current_method
      end.
Proof.
  induction rest as [|line rest IH]; intros i line_number current_method.
  - rewrite firstn_nil. cbn. destruct current_method; [|reflexivity].
    destruct (Z.of_nat i <? line_number); reflexivity.
  - cbn [parse_loop]. cbv zeta.
    destruct (Z_lt_le_dec (Z.of_nat i) line_number) as [Hlt|Hge].
    + replace (Z.to_nat (line_number - Z.of_nat i))
        with (S (Z.to_nat (line_number - Z.of_nat (S i)))) by lia.
      cbn [firstn scan_decls].
      replace (Z.of_nat i <? line_number) with true by (symmetry; apply Z.ltb_lt; exact Hlt).
      rewrite IH.
      destruct (Z.eq_dec (Z.of_nat i + 1) line_number) as [Eq|Ne].
      * replace (Z.to_nat (line_number - Z.of_nat (S i))) with O by lia.
        cbn [firstn scan_decls].
        replace (Z.of_nat (S i) <? line_number) with false
          by (symmetry; apply Z.ltb_ge; lia).
        apply Z.eqb_eq in Eq. rewrite Eq.
        destruct (declaration_on i line current_method); reflexivity.
      * apply Z.eqb_neq in Ne. rewrite Ne.
        replace (Z.of_nat (S i) <? line_number) with true
          by (symmetry; apply Z.ltb_lt; apply Z.eqb_neq in Ne; lia).
        destruct (declaration_on i line current_method) as [m|] eqn:Ed; reflexivity.
    + replace (Z.to_nat (line_number - Z.of_nat i)) with O by lia.
      cbn [firstn scan_decls].
      replace (Z.of_nat i <? line_number) with false by (symmetry; apply Z.ltb_ge; exact Hge).
      rewrite IH.
      replace (Z.to_nat (line_number - Z.of_nat (S i))) with O by lia.
      cbn [firstn scan_decls].
      replace (Z.of_nat (S i) <? line_number) with false by (symmetry; apply Z.ltb_ge; lia).
      replace (Z.of_nat i + 1 =? line_number) with false by (symmetry; apply Z.eqb_neq; lia).
      destruct (declaration_on i line current_method) as [m|];
        destruct current_method; reflexivity.
Qed.

(** X22.  [parse_java_method_at_line] answers with the last declaration
    found on the lines up to the target line; when there is none, or when
    the target line is outside the text, it answers with the last
    declaration of the whole text, which can lie after the target. *)
Theorem parse_java_last_declaration (content : string) (line_number : Z) :
  parse_java_method_at_line (Some content) line_number
  = match last_declaration (firstn (Z.to_nat line_number) (readlines content)) with
    | Some m => Some m
    | None => last_declaration (readlines content)
    end.
Proof.
  unfold parse_java_method_at_line, last_declaration. rewrite parse_loop_spec.
  replace (line_number - Z.of_nat 0) with line_number by lia.
  destruct (scan_decls (firstn (Z.to_nat line_number) (readlines content)) 0 None)
    as [m|] eqn:E; [|reflexivity].
  destruct (Z.of_nat 0 <? line_number) eqn:Hlt; [reflexivity|].
  apply Z.ltb_ge in Hlt. replace (Z.to_nat line_number) with O in E by lia.
  discriminate.
Qed.

Lemma scan_decls_last (rest : list string) :
  forall (i : nat) (current_method : option JavaMethod) (m : JavaMethod),
    scan_decls rest i current_method = Some m ->
    (current_method = Some m /\
     forall k line, nth_error rest k = Some line ->
                    declaration_on (i + k) line None = None) \/
    (exists pre line post,
        rest = (pre ++ line :: post)%list /\
        declaration_on (i + List.length pre) line None = Some m /\
        forall k line', nth_error post k = Some line' ->
                        declaration_on (i + List.length pre + 1 + k) line' None = None).
Proof.
  induction rest as [|l rest IH]; intros i current_method m H; cbn [scan_decls] in H.
  - left. split; [exact H|]. intros k line Hk. destruct k; discriminate.
  - destruct (declaration_on_spec i l) as [E _].
    destruct (IH _ _ _ H) as [[Hd Hq]|(pre & line & post & -> & Hd & Hq)].
    + rewrite E in Hd. destruct (declaration_on i l None) as [x|] eqn:Ex.
      * right. exists [], l, rest. cbn [app List.length]. rewrite Nat.add_0_r.
        split; [reflexivity|]. split; [congruence|].
        intros k line' Hk. replace (i + 1 + k)%nat with (S i + k)%nat by lia.
        exact (Hq k line' Hk).
      * left. split; [exact Hd|]. intros [|k] line Hk; cbn in Hk.
        -- injection Hk as <-. rewrite Nat.add_0_r. exact Ex.
        -- replace (i + S k)%nat with (S i + k)%nat by lia. exact (Hq k line Hk).
    + right. exists (l :: pre), line, post. cbn [app List.length].
      split; [reflexivity|].
      replace (i + S (List.length pre))%nat with (S i + List.length pre)%nat by lia.
      split; [exact Hd|exact Hq].
Qed.

Lemma nth_error_firstn_some {A : Type} (l : list A) :
  forall n k x, nth_error (firstn n l) k = Some x ->
                nth_error l k = Some x /\ (k < n)%nat.
Proof.
  induction l as [|a l IH]; intros n k x H.
  - rewrite firstn_nil in H. destruct k; discriminate.
  - destruct n as [|n]; [destruct k; discriminate|]. cbn [firstn] in H.
    destruct k as [|k]; cbn in *; [split; [exact H|lia]|].
    destruct (IH _ _ _ H). split; [assumption|lia].
Qed.

Lemma nth_error_firstn_lt {A : Type} (l : list A) :
  forall n k, (k < n)%nat -> nth_error (firstn n l) k = nth_error l k.
Proof.
  induction l as [|a l IH]; intros n k Hk.
  - rewrite firstn_nil. reflexivity.
  - destruct n as [|n]; [lia|]. cbn [firstn].
    destruct k as [|k]; [reflexivity|]. cbn. apply IH. lia.
Qed.

Lemma nth_error_after {A : Type} (pre : list A) (x : A) (post : list A) (k : nat) (y : A) :
  (List.length pre < k)%nat ->
  nth_error (pre ++ x :: post) k = Some y ->
  nth_error post (k - List.length pre - 1) = Some y.
Proof.
  intros Hk H. rewrite nth_error_app2 in H by lia.
  destruct (k - List.length pre)%nat as [|d] eqn:E; [lia|]. cbn in H.
  replace (S d - 1)%nat with d by lia. exact H.
Qed.

(** X23.  The record returned by [parse_java_method_at_line] was made on
    the line it names: the name is not empty and is none of [if], [while],
    [for], [switch], [catch], the signature is the stripped text of that
    line, and no line after it and up to the target line makes a record.
    The line lies at or before the target line, unless no line up to the
    target makes a record. *)
Theorem parse_java_record_facts (content : string) (line_number : Z)
    (m : JavaMethod) :
  parse_java_method_at_line (Some content) line_number = Some m ->
  jm_name m <> "" /\ ~ In (jm_name m) statement_keywords /\
  (exists (j : nat) (line : string),
      jm_line m = Z.of_nat j + 1 /\
      nth_error (readlines content) j = Some line /\
      jm_signature m = Py.strip line /\
      declaration_on j line None = Some m /\
      (forall k line',
          (j < k)%nat -> Z.of_nat k < line_number ->
          nth_error (readlines content) k = Some line' ->
          declaration_on k line' None = None)) /\
  (jm_line m <= line_number \/
   last_declaration (firstn (Z.to_nat line_number) (readlines content)) = None).
Proof.
  unfold parse_java_method_at_line, last_declaration. rewrite parse_loop_spec.
  replace (line_number - Z.of_nat 0) with line_number by lia.
  set (lines := readlines content). set (n := Z.to_nat line_number).
  assert (Hfacts : forall j line, declaration_on j line None = Some m ->
            jm_name m <> "" /\ ~ In (jm_name m) statement_keywords /\
            jm_line m = Z.of_nat j + 1 /\ jm_signature m = Py.strip line).
  { intros j line Hd. destruct (declaration_on_spec j line) as [_ Hf].
    destruct (Hf m Hd) as (H1 & H2 & H3 & H4). auto. }
  destruct (scan_decls (firstn n lines) 0 None) as [m'|] eqn:E.
  - destruct (Z.of_nat 0 <? line_number) eqn:Hlt;
      [|apply Z.ltb_ge in Hlt; replace n with O in E by (unfold n; lia); discriminate].
    intros [= ->].
    destruct (scan_decls_last _ _ _ _ E) as [[Hc _]|(pre & line & post & Efirst & Hd & Hq)];
      [discriminate|].
    cbn [Nat.add] in Hd, Hq.
    destruct (Hfacts _ _ Hd) as (H1 & H2 & H3 & H4).
    assert (Hnth : nth_error (firstn n lines) (List.length pre) = Some line).
    { rewrite Efirst, nth_error_app2 by lia. rewrite Nat.sub_diag. reflexivity. }
    destruct (nth_error_firstn_some _ _ _ _ Hnth) as [Hnth' Hlen].
    split; [exact H1|]. split; [exact H2|]. split.
    + exists (List.length pre), line. repeat (split; [assumption|]).
      intros k line' Hk Hkn Hk'.
      assert (Hkf : nth_error (firstn n lines) k = Some line').
      { rewrite nth_error_firstn_lt by (unfold n; lia). exact Hk'. }
      rewrite Efirst in Hkf. apply nth_error_after in Hkf; [|exact Hk].
      specialize (Hq _ _ Hkf).
      replace (List.length pre + 1 + (k - List.length pre - 1))%nat with k in Hq by lia.
      exact Hq.
    + left. unfold n in Hlen. lia.
  - intros H.
    destruct (scan_decls_last _ _ _ _ H) as [[Hc _]|(pre & line & post & Elines & Hd & Hq)];
      [discriminate|].
    cbn [Nat.add] in Hd, Hq.
    destruct (Hfacts _ _ Hd) as (H1 & H2 & H3 & H4).
    split; [exact H1|]. split; [exact H2|]. split; [|right; reflexivity].
    exists (List.length pre), line.
    split; [exact H3|]. split.
    { rewrite Elines, nth_error_app2 by lia. rewrite Nat.sub_diag. reflexivity. }
    split; [exact H4|]. split; [exact Hd|].
    intros k line' Hk _ Hk'. rewrite Elines in Hk'.
    apply nth_error_after in Hk'; [|exact Hk]. specialize (Hq _ _ Hk').
    replace (List.length pre + 1 + (k - List.length pre - 1))%nat with k in Hq by lia.
    exact Hq.
Qed.

Lemma parse_java_record_facts_witness :
  "sum" <> "" /\ ~ In "sum" statement_keywords /\
  (exists (j : nat) (line : string),
      10 = Z.of_nat j + 1 /\
      nth_error (readlines counter_java) j = Some line /\
      "public int sum(int n) {" = Py.strip line /\
      declaration_on j line None
      = Some (mkJavaMethod "sum" 10 "public int sum(int n) {") /\
      (forall k line',
          (j < k)%nat -> Z.of_nat k < 15 ->
          nth_error (readlines counter_java) k = Some line' ->
          declaration_on k line' None = None)) /\
  (10 <= 15 \/
   last_declaration (firstn (Z.to_nat 15) (readlines counter_java)) = None).
Proof.
  apply (parse_java_record_facts counter_java 15
           (mkJavaMethod "sum" 10 "public int sum(int n) {")).
  vm_compute. reflexivity.
Defined.

(** ** [extract_method_from_diff_header] *)

Lemma collapse_idempotent (s : string) :
  forall b, collapse_spaces b (collapse_spaces b s) = collapse_spaces b s.
Proof.
  induction s as [|c s IH]; intros b; [reflexivity|].
  cbn [collapse_spaces]. destruct (Py.isspace c) eqn:Ec.
  - destruct b; [apply IH|].
    cbn [collapse_spaces]. replace (Py.isspace " ") with true by reflexivity.
    rewrite IH. reflexivity.
  - cbn [collapse_spaces]. rewrite Ec, IH. reflexivity.
Qed.

Lemma rstrip_fixed_cons (c : ascii) (t : string) :
  Py.rstrip_by Py.isspace (String c t) = String c t ->
  Py.rstrip_by Py.isspace t = t /\ (Py.isspace c = false \/ t <> "").
Proof.
  cbn [Py.rstrip_by].
  destruct (Py.is_empty (Py.rstrip_by Py.isspace t) && Py.isspace c)%bool eqn:E;
    [discriminate|].
  intros [= Ht]. split; [exact Ht|].
  rewrite Ht in E. apply andb_false_iff in E. destruct E as [E|E]; [right|left; exact E].
  destruct t; [discriminate|discriminate].
Qed.

Lemma collapse_nonempty (t : string) :
  forall b, Py.rstrip_by Py.isspace t = t -> t <> "" -> collapse_spaces b t <> "".
Proof.
  induction t as [|c t IH]; intros b Hfix Hne; [congruence|].
  destruct (rstrip_fixed_cons _ _ Hfix) as [Ht Hc].
  cbn [collapse_spaces]. destruct (Py.isspace c) eqn:Ec; [|discriminate].
  destruct Hc as [Hc|Hc]; [congruence|].
  destruct b; [apply IH; assumption|discriminate].
Qed.

Lemma collapse_rstrip_fixed (t : string) :
  forall b, Py.rstrip_by Py.isspace t = t ->
            Py.rstrip_by Py.isspace (collapse_spaces b t) = collapse_spaces b t.
Proof.
  induction t as [|c t IH]; intros b Hfix; [reflexivity|].
  destruct (rstrip_fixed_cons _ _ Hfix) as [Ht Hc].
  cbn [collapse_spaces]. destruct (Py.isspace c) eqn:Ec.
  - destruct Hc as [Hc|Hc]; [congruence|].
    destruct b; [apply IH; exact Ht|].
    cbn [Py.rstrip_by]. rewrite (IH true Ht).
    pose proof (collapse_nonempty t true Ht Hc) as Hne.
    destruct (collapse_spaces true t); [congruence|reflexivity].
  - cbn [Py.rstrip_by]. rewrite (IH false Ht), Ec, andb_false_r. reflexivity.
Qed.

Lemma strip_shape (g : string) :
  Py.rstrip_by Py.isspace (Py.strip g) = Py.strip g /\
  (Py.strip g = "" \/ exists c t, Py.strip g = String c t /\ Py.isspace c = false).
Proof.
  unfold Py.strip. split; [apply rstrip_idempotent|].
  destruct (lstrip_head Py.isspace g) as [->|(x & s' & -> & Hx)]; [left; reflexivity|].
  right. cbn [Py.rstrip_by]. rewrite Hx, andb_false_r. eauto.
Qed.

(** X24.  A signature returned by [extract_method_from_diff_header] is
    clean: stripping it again, or collapsing its whitespace again, changes
    nothing. *)
Theorem diff_header_signature_is_clean (line sig : string) :
  extract_method_from_diff_header line = Some sig ->
  Py.strip sig = sig /\ collapse_spaces false sig = sig.
Proof.
  unfold extract_method_from_diff_header.
  destruct (re_search hunk_trailer_pattern line) as [caps|]; [|discriminate].
  destruct (group 1 caps) as [g|]; [|discriminate].
  intros [= <-]. split; [|apply collapse_idempotent].
  destruct (strip_shape g) as [Hfix Hhead].
  unfold Py.strip at 1.
  assert (Hl : Py.lstrip_by Py.isspace (collapse_spaces false (Py.strip g))
               = collapse_spaces false (Py.strip g)).
  { destruct Hhead as [->|(c & t & -> & Hc)]; [reflexivity|].
    cbn [collapse_spaces]. rewrite Hc. cbn [Py.lstrip_by]. rewrite Hc. reflexivity. }
  rewrite Hl. apply collapse_rstrip_fixed. exact Hfix.
Qed.

Lemma diff_header_signature_is_clean_witness :
  Py.strip "public int sum(int n) {" = "public int sum(int n) {" /\
  collapse_spaces false "public int sum(int n) {" = "public int sum(int n) {".
Proof.
  apply (diff_header_signature_is_clean
           "@@ -10,5 +10,6 @@   public  int sum(int n) {  ").
  vm_compute. reflexivity.
Defined.

Lemma trailer_match_starts_with_marker (fuel : nat) (s : string) (caps : Captures)
    (k : string -> Captures -> option Captures) (res : Captures) :
  re_run fuel hunk_trailer_pattern s caps k = Some res ->
  String.prefix "@@" s = true.
Proof.
  unfold hunk_trailer_pattern. cbn [cat_all word].
  destruct fuel as [|f1]; [discriminate|]. cbn [re_run].
  destruct f1 as [|f2]; [discriminate|]. cbn [re_run].
  destruct f2 as [|f3]; [discriminate|]. cbn [re_run]. unfold lit.
  destruct s as [|c1 s1]; [discriminate|].
  destruct (Ascii.eqb "@" c1) eqn:E1; [|discriminate].
  cbn [re_run].
  destruct s1 as [|c2 s2]; [discriminate|].
  destruct (Ascii.eqb "@" c2) eqn:E2; [|discriminate].
  intros _. apply Ascii.eqb_eq in E1, E2. subst c1 c2. destruct s2; reflexivity.
Qed.

Lemma search_needs_marker (fuel : nat) (s : string) (res : Captures) :
  re_search_from fuel hunk_trailer_pattern s = Some res ->
  Py.contains "@@" s = true.
Proof.
  induction s as [|c s IH]; cbn [re_search_from].
  - destruct (re_run fuel hunk_trailer_pattern "" [] _) eqn:E; [|discriminate].
    intros _. apply trailer_match_starts_with_marker in E. discriminate.
  - destruct (re_run fuel hunk_trailer_pattern (String c s) [] _) eqn:E.
    + intros _. apply trailer_match_starts_with_marker in E.
      cbn [Py.contains]. rewrite E. reflexivity.
    + intros H. apply contains_tail. exact (IH H).
Qed.

(** X25.  A line that holds no [@@] yields no signature. *)
Theorem diff_header_needs_marker (line : string) :
  Py.contains "@@" line = false ->
  extract_method_from_diff_header line = None.
Proof.
  intros Hno. unfold extract_method_from_diff_header, re_search.
  destruct (re_search_from _ hunk_trailer_pattern line) as [caps|] eqn:E; [|reflexivity].
  apply search_needs_marker in E. congruence.
Qed.

Lemma diff_header_needs_marker_witness :
  extract_method_from_diff_header " public int sum(int n) {" = None.
Proof. apply diff_header_needs_marker. reflexivity. Defined.

(** ** [find_java_files] *)

Lemma keep_last_some (path : string) (walk : Walk) :
  forall r,
    fold_left
      (fun acc dir =>
         match dir_match path dir with
         | Some rel_path => Some rel_path
         | None => acc
         end) walk (Some r) <> None.
Proof.
  induction walk as [|dir walk IH]; intros r; cbn [fold_left]; [discriminate|].
  destruct (dir_match path dir); apply IH.
Qed.

Lemma walk_class_get (walk : Walk) (cls key : string) :
  forall files,
    str_get key (walk_class walk files cls)
    = if String.eqb key cls
      then match walk_match (replace_char "." "/" cls ++ ".java") walk with
           | Some rel_path => Some rel_path
           | None => str_get key files
           end
      else str_get key files.
Proof.
  unfold walk_class, walk_match. cbv zeta.
  set (path := replace_char "." "/" cls ++ ".java").
  assert (H : forall files acc,
             match acc with
             | Some r => str_get cls files = Some r
             | None => True
             end ->
             str_get key
               (fold_left
                  (fun files dir =>
                     match dir_match path dir with
                     | Some rel_path => str_set cls rel_path files
                     | None => files
                     end) walk files)
             = if String.eqb key cls
               then match fold_left
                            (fun acc dir =>
                               match dir_match path dir with
                               | Some rel_path => Some rel_path
                               | None => acc
                               end) walk acc with
                    | Some rel_path => Some rel_path
                    | None => str_get key files
                    end
               else str_get key files).
  { induction walk as [|dir walk IH]; intros files acc Hacc; cbn [fold_left].
    - destruct (String.eqb key cls) eqn:E; [|reflexivity].
      apply String.eqb_eq in E. subst key.
      destruct acc; [exact Hacc|reflexivity].
    - destruct (dir_match path dir) as [rp|] eqn:Ed; [|exact (IH files acc Hacc)].
      rewrite (IH (str_set cls rp files) (Some rp) (str_get_set_same _ _ _)).
      destruct (String.eqb key cls) eqn:E.
      + pose proof (keep_last_some path walk rp) as Hne.
        destruct (fold_left _ walk (Some rp)); [reflexivity|congruence].
      + apply str_get_set_other. apply String.eqb_neq. exact E. }
  intros files. apply (H files None). exact I.
Qed.

Lemma find_java_files_get (walk : Walk) (classes : list string) (key : string) :
  forall files,
    str_get key (fold_left (walk_class walk) classes files)
    = if mem_string key classes
      then match walk_match (replace_char "." "/" key ++ ".java") walk with
           | Some rel_path => Some rel_path
           | None => str_get key files
           end
      else str_get key files.
Proof.
  induction classes as [|cls classes IH]; intros files; cbn [fold_left]; [reflexivity|].
  rewrite IH. unfold mem_string. cbn [existsb]. fold (mem_string key classes).
  rewrite walk_class_get.
  destruct (String.eqb key cls) eqn:E; cbn [orb].
  - apply String.eqb_eq in E. subst cls.
    destruct (walk_match _ walk); destruct (mem_string key classes); reflexivity.
  - reflexivity.
Qed.

Lemma dir_match_fits (path : string) (dir : list (string * string)) (rel_path : string) :
  dir_match path dir = Some rel_path ->
  Py.endswith rel_path path = true /\
  exists filename, In (filename, rel_path) dir /\ Py.endswith filename ".java" = true.
Proof.
  unfold dir_match. destruct (List.find _ dir) as [[filename rp]|] eqn:E; [|discriminate].
  intros [= <-]. apply find_some in E. destruct E as [Hin Hfit].
  apply andb_prop in Hfit. cbn [fst snd] in Hfit. destruct Hfit as [Hjava Hpath].
  split; [exact Hpath|]. exists filename. auto.
Qed.

Lemma walk_match_fits (path : string) (walk : Walk) (rel_path : string) :
  walk_match path walk = Some rel_path ->
  exists dir, In dir walk /\ dir_match path dir = Some rel_path.
Proof.
  unfold walk_match.
  assert (H : forall acc,
             fold_left
               (fun acc dir =>
                  match dir_match path dir with
                  | Some rp => Some rp
                  | None => acc
                  end) walk acc = Some rel_path ->
             acc = Some rel_path \/
             exists dir, In dir walk /\ dir_match path dir = Some rel_path).
  { induction walk as [|dir walk IH]; intros acc; cbn [fold_left]; [auto|].
    intros Hf. destruct (IH _ Hf) as [Hacc|(d & Hd & Hm)].
    - destruct (dir_match path dir) as [rp|] eqn:Ed.
      + right. exists dir. split; [left; reflexivity|congruence].
      + left. exact Hacc.
    - right. exists d. split; [right; exact Hd|exact Hm]. }
  intros Hf. destruct (H None Hf) as [Hnone|Hdir]; [discriminate|exact Hdir].
Qed.

(** X26.  [find_java_files] maps a class to a path only if the class was
    asked for and some directory of the walk holds a file whose name ends
    with [.java] and whose relative path ends with the path of the class;
    the path kept is that of the first such file of the last such
    directory. *)
Theorem java_file_fits_its_class (walk : Walk) (classes : list string)
    (cls rel_path : string) :
  str_get cls (find_java_files walk classes) = Some rel_path ->
  In cls classes /\
  walk_match (replace_char "." "/" cls ++ ".java") walk = Some rel_path /\
  Py.endswith rel_path (replace_char "." "/" cls ++ ".java") = true /\
  exists dir filename,
    In dir walk /\ In (filename, rel_path) dir /\ Py.endswith filename ".java" = true.
Proof.
  unfold find_java_files. rewrite find_java_files_get. cbn [str_get].
  destruct (mem_string cls classes) eqn:Emem; [|discriminate].
  destruct (walk_match _ walk) as [rp|] eqn:Ew; [|discriminate].
  intros [= ->]. split.
  - unfold mem_string in Emem. apply existsb_exists in Emem.
    destruct Emem as (c & Hc & E). apply String.eqb_eq in E. subst c. exact Hc.
  - split; [reflexivity|].
    destruct (walk_match_fits _ _ _ Ew) as (dir & Hdir & Hm).
    destruct (dir_match_fits _ _ _ Hm) as (Hpath & filename & Hin & Hjava).
    split; [exact Hpath|]. exists dir, filename. auto.
Qed.

Lemma java_file_fits_its_class_witness :
  In "demo.Counter" ["demo.Counter"] /\
  walk_match (replace_char "." "/" "demo.Counter" ++ ".java")
    [[("README", "README")];
     [("Counter.java", "src/demo/Counter.java"); ("Other.java", "src/demo/Other.java")]]
  = Some "src/demo/Counter.java" /\
  Py.endswith "src/demo/Counter.java" (replace_char "." "/" "demo.Counter" ++ ".java")
  = true /\
  exists dir filename,
    In dir [[("README", "README")];
            [("Counter.java", "src/demo/Counter.java");
             ("Other.java", "src/demo/Other.java")]] /\
    In (filename, "src/demo/Counter.java") dir /\
    Py.endswith filename ".java" = true.
Proof.
  apply (java_file_fits_its_class _ ["demo.Counter"]).
  vm_compute. reflexivity.
Defined.
